(** * Expense manager: shared-expense settlement and budget alerts

    A shallow embedding of the business logic of
    [apps/shared_expenses/models.py], [apps/shared_expenses/signals.py],
    [apps/shared_expenses/serializers.py], [apps/budgets/models.py] and
    [apps/budgets/services.py], followed by the properties established of it.

    Conventions of the embedding.
    - A [DecimalField(max_digits=12, decimal_places=2)] column holds a
      two-decimal currency value; it is represented by its integer number of
      cents (100.00 is [10000]).  Where the code leaves that domain (the
      division of [create_equal_splits], the ratio of
      [utilization_percentage]) the value is a [Decimal.t] and the operations
      are those of Python's [decimal] module under its default context.
    - UUID primary keys are abstracted to integers; two model instances are
      equal when their primary keys are (Django's [Model.__eq__]).
    - [timezone.now()] is an explicit argument [now].
    - A Python method that may raise returns an [outcome]; the database tables
      a method writes are passed in and returned. *)

From stdpp Require Import gmap strings.
From Stdlib Require Import ZArith List Bool Lia.
Import ListNotations.
Open Scope Z_scope.

(** ** Python's [decimal.Decimal] under the default context *)

Module Decimal.

(** A finite decimal: the number [coeff * 10 ^ dexp]. *)
Record t : Set := mk { coeff : Z; dexp : Z }.

(** [getcontext().prec] *)
Definition prec : Z := 28.

Fixpoint ndigits_aux (fuel : nat) (c : Z) : Z :=
  match fuel with
  | O => 1
  | S fuel' => if c <? 10 then 1 else 1 + ndigits_aux fuel' (c / 10)
  end.

(** [len(str(c))] for [0 <= c]. *)
Definition ndigits (c : Z) : Z := ndigits_aux (Z.to_nat (Z.log2 c)) c.

(** [n / d] rounded to an integer, ties to even ([ROUND_HALF_EVEN]);
    [0 <= n], [0 < d]. *)
Definition round_half_even (n d : Z) : Z :=
  let q := n / d in
  let r := n mod d in
  if 2 * r <? d then q
  else if d <? 2 * r then q + 1
  else if Z.even q then q else q + 1.

(** [Decimal._fix]: a positive coefficient of more than [p] digits is
    rounded to [p] digits.  (The exponent limits [Emin], [Emax] are far out
    of reach of currency values and are not modelled.) *)
Definition fix_prec (p c e : Z) : Z * Z :=
  let len := ndigits c in
  if len <=? p then (c, e)
  else
    let k := len - p in
    let c' := round_half_even c (10 ^ k) in
    if p <? ndigits c' then (c' / 10, e + k + 1) else (c', e + k).

(** The loop of [__truediv__] that brings an exact quotient as close to the
    ideal exponent as its trailing zeros allow. *)
Fixpoint strip_zeros (fuel : nat) (c e ideal : Z) : Z * Z :=
  match fuel with
  | O => (c, e)
  | S fuel' =>
      if (e <? ideal) && (c mod 10 =? 0)
      then strip_zeros fuel' (c / 10) (e + 1) ideal
      else (c, e)
  end.

(** [Decimal.__truediv__] on magnitudes: [0 <= c1], [0 < c2]. *)
Definition div_abs (c1 e1 c2 e2 : Z) : Z * Z :=
  if c1 =? 0 then (0, e1 - e2)
  else
    let shift := ndigits c2 - ndigits c1 + prec + 1 in
    let e := e1 - e2 - shift in
    let num := if 0 <=? shift then c1 * 10 ^ shift else c1 in
    let den := if 0 <=? shift then c2 else c2 * 10 ^ (- shift) in
    let q := num / den in
    let r := num mod den in
    let ce :=
      if r =? 0 then strip_zeros (Z.to_nat (e1 - e2 - e)) q e (e1 - e2)
      else (if q mod 5 =? 0 then q + 1 else q, e) in
    fix_prec prec (fst ce) (snd ce).

(** [a / b]; [None] is the [DivisionByZero] (or, for 0/0,
    [InvalidOperation]) signal, which the default context traps. *)
Definition div (a b : t) : option t :=
  if coeff b =? 0 then None
  else
    let ce := div_abs (Z.abs (coeff a)) (dexp a) (Z.abs (coeff b)) (dexp b) in
    Some (mk (Z.sgn (coeff a) * Z.sgn (coeff b) * fst ce) (snd ce)).

(** [a * b] *)
Definition mul (a b : t) : t :=
  let ce := fix_prec prec (Z.abs (coeff a * coeff b)) (dexp a + dexp b) in
  mk (Z.sgn (coeff a * coeff b) * fst ce) (snd ce).

(** [Decimal(n)] for a Python [int]. *)
Definition of_int (n : Z) : t := mk n 0.

(** The two-decimal value of [c] cents. *)
Definition of_cents (c : Z) : t := mk c (-2).

(** Comparison is exact: both operands are brought to the smaller
    exponent. *)
Definition aligned (a b : t) : Z * Z :=
  let e := Z.min (dexp a) (dexp b) in
  (coeff a * 10 ^ (dexp a - e), coeff b * 10 ^ (dexp b - e)).

Definition ltb (a b : t) : bool :=
  let p := aligned a b in fst p <? snd p.

Definition leb (a b : t) : bool :=
  let p := aligned a b in fst p <=? snd p.

(** [a.quantize(Decimal('0.01'))] as a number of cents: the two-decimal
    value a [DecimalField(decimal_places=2)] column holds for [a]
    ([ROUND_HALF_EVEN], the rounding of the context Django quantizes under).
    Values are assumed to fit the column's [max_digits]. *)
Definition quantize_cents (a : t) : Z :=
  if -2 <=? dexp a then coeff a * 10 ^ (dexp a + 2)
  else Z.sgn (coeff a)
       * round_half_even (Z.abs (coeff a)) (10 ^ (- 2 - dexp a)).

End Decimal.

(** ** Exceptions, results and common types *)

(** The exceptions the modelled code can raise. *)
Inductive exn : Set :=
| ValidationError          (* rest_framework.exceptions.ValidationError *)
| FieldError               (* django.core.exceptions.FieldError *)
| IntegrityError           (* django.db.IntegrityError *)
| MultipleObjectsReturned  (* Model.MultipleObjectsReturned *)
| DivisionByZero.          (* decimal.DivisionByZero *)

(** What a call does: it returns a value or raises.  [Raised] carries no
    tables: what a failing call wrote before it raised is not tracked. *)
Inductive outcome (A : Type) : Type :=
| Returned (a : A)
| Raised (e : exn).

Arguments Returned {A} a.
Arguments Raised {A} e.

#[global] Instance outcome_ret : MRet outcome := @Returned.

#[global] Instance outcome_bind : MBind outcome :=
  fun A B (k : A -> outcome B) (m : outcome A) =>
    match m with
    | Returned a => k a
    | Raised e => Raised e
    end.

(** A [for x in xs:] loop whose body updates a state and may raise. *)
Fixpoint for_each {A S : Type} (body : A -> S -> outcome S)
  (xs : list A) (s : S) : outcome S :=
  match xs with
  | [] => Returned s
  | x :: xs' => s' ← body x s; for_each body xs' s'
  end.

Abbreviation pk := Z (only parsing).
Abbreviation User := Z (only parsing).
Abbreviation cents := Z (only parsing).
Abbreviation datetime := Z (only parsing).
Abbreviation date := Z (only parsing).

Definition sum_cents (l : list Z) : Z := fold_right Z.add 0 l.

(** ** apps/transactions/models.py (the fields the core reads) *)

Inductive TransactionStatus : Set :=
| TX_PENDING | TX_COMPLETED | TX_CANCELLED | TX_FAILED.

Definition TransactionStatus_eqb (a b : TransactionStatus) : bool :=
  match a, b with
  | TX_PENDING, TX_PENDING | TX_COMPLETED, TX_COMPLETED
  | TX_CANCELLED, TX_CANCELLED | TX_FAILED, TX_FAILED => true
  | _, _ => false
  end.

Module Expense.
Record t : Set := mk {
  id : pk;
  created_by : User;
  category : pk;
  amount : cents;
  description : string;
  transaction_date : date;
  status : TransactionStatus;
  is_deleted : bool
}.
End Expense.

(** ** apps/shared_expenses/models.py *)

Inductive SplitMethod : Set := EQUAL | EXACT | PERCENTAGE | SHARES.

Inductive SettlementStatus : Set :=
| PENDING | PARTIALLY_PAID | SETTLED | CANCELLED.

Module ExpenseGroup.
Record t : Set := mk {
  id : pk;
  name : string;
  members : list User;      (* members.all(), in iteration order *)
  admin : User;
  is_deleted : bool
}.
End ExpenseGroup.

Module SharedExpense.
Record t : Set := mk {
  id : pk;
  expense : Expense.t;
  group : ExpenseGroup.t;
  paid_by : User;
  split_method : SplitMethod;
  notes : string;
  is_deleted : bool
}.

(** The [amount] property: [self.expense.amount].  It is an attribute of the
    Python object, not a column of the table. *)
Definition amount (self : t) : cents := Expense.amount (expense self).
End SharedExpense.

Module SharedExpenseSplit.
Record t : Set := mk {
  id : pk;
  shared_expense : SharedExpense.t;
  user : User;
  amount : cents;
  percentage : option cents;
  is_settled : bool;
  settled_at : option datetime;
  settlement_notes : string
}.

(** [settle(self, notes='')] *)
Definition settle (now : datetime) (self : t) (notes : string) : t :=
  mk (id self) (shared_expense self) (user self) (amount self)
     (percentage self)
     true
     (Some now)
     (if String.eqb notes "" then settlement_notes self else notes).

(** [unsettle(self)] *)
Definition unsettle (self : t) : t :=
  mk (id self) (shared_expense self) (user self) (amount self)
     (percentage self)
     false
     None
     (settlement_notes self).
End SharedExpenseSplit.

Module DebtPayment.
Record t : Set := mk {
  debt : pk;
  amount : cents;
  payment_method : string;
  reference_number : string;
  notes : string;
  created_by : option User
}.
End DebtPayment.

Module Debt.
Record t : Set := mk {
  id : pk;
  creditor : User;
  debtor : User;
  amount : cents;
  description : string;
  group : option pk;
  shared_expense_split : option pk;
  status : SettlementStatus;
  due_date : option date;
  settled_amount : cents;
  settled_at : option datetime;
  created_by : option User;
  is_deleted : bool
}.

(** The three assignments of [add_payment]: [status], [settled_at] and
    [settled_amount]; every other field is kept. *)
Definition with_settlement (self : t) (st : SettlementStatus)
  (at_ : option datetime) (settled : cents) : t :=
  mk (id self) (creditor self) (debtor self) (amount self)
     (description self) (group self) (shared_expense_split self)
     st (due_date self) settled at_ (created_by self) (is_deleted self).

(** The [remaining_amount] property. *)
Definition remaining_amount (self : t) : cents :=
  amount self - settled_amount self.

(** [add_payment(self, amount, notes='')]: the debt as saved and the
    [DebtPayment] row created. *)
Definition add_payment (now : datetime) (self : t) (amount_ : cents)
  (notes : string) : outcome (t * DebtPayment.t) :=
  let settled := settled_amount self + amount_ in
  let self' :=
    if amount self <=? settled then
      with_settlement self SETTLED (Some now) (amount self)
    else if 0 <? settled then
      with_settlement self PARTIALLY_PAID (settled_at self) settled
    else
      with_settlement self (status self) (settled_at self) settled in
  Returned (self',
            DebtPayment.mk (id self) amount_ "CASH" "" notes
                           (Some (debtor self))).

(** [settle_full(self, notes='')]; [None] when nothing remained to pay. *)
Definition settle_full (now : datetime) (self : t) (notes : string)
  : outcome (t * option DebtPayment.t) :=
  let remaining := remaining_amount self in
  if 0 <? remaining then
    r ← add_payment now self remaining notes;
    Returned (fst r, Some (snd r))
  else Returned (self, None).
End Debt.

(** ** The tables of the shared-expenses app *)

Module DB.
Record t : Type := mk {
  users : list User;
  expenses : list Expense.t;
  groups : list ExpenseGroup.t;
  shared_expenses : list SharedExpense.t;
  splits : list SharedExpenseSplit.t;
  debts : list Debt.t;
  next_pk : pk               (* the next primary key handed out *)
}.

Definition empty : t := mk [] [] [] [] [] [] 1.

Definition insert_shared_expense (db : t) (row : SharedExpense.t) : t :=
  mk (users db) (expenses db) (groups db) (shared_expenses db ++ [row])
     (splits db) (debts db) (next_pk db + 1).

Definition insert_split (db : t) (row : SharedExpenseSplit.t) : t :=
  mk (users db) (expenses db) (groups db) (shared_expenses db)
     (splits db ++ [row]) (debts db) (next_pk db + 1).

Definition insert_debt (db : t) (row : Debt.t) : t :=
  mk (users db) (expenses db) (groups db) (shared_expenses db)
     (splits db) (debts db ++ [row]) (next_pk db + 1).
End DB.

(** ** apps/shared_expenses/signals.py *)

(** The lookup of [Debt.objects.get_or_create(creditor=..., debtor=...,
    shared_expense_split=...)]. *)
Definition debt_matches (creditor debtor split : pk) (d : Debt.t) : bool :=
  (Debt.creditor d =? creditor) && (Debt.debtor d =? debtor)
  && match Debt.shared_expense_split d with
     | Some s => s =? split
     | None => false
     end.

(** [Debt.objects.get_or_create] on that lookup with the receiver's
    [defaults]: the row found, or a new row made of the lookup and the
    defaults. *)
Definition Debt_get_or_create (creditor debtor split : pk)
  (amount : cents) (description : string) (group : pk) (created_by : User)
  (db : DB.t) : outcome DB.t :=
  match List.filter (debt_matches creditor debtor split) (DB.debts db) with
  | [] =>
      Returned
        (DB.insert_debt db
           (Debt.mk (DB.next_pk db) creditor debtor amount description
              (Some group) (Some split) PENDING None 0 None
              (Some created_by) false))
  | [_] => Returned db
  | _ :: _ :: _ => Raised MultipleObjectsReturned
  end.

(** [create_debt_on_split(sender, instance, created, **kwargs)], the
    [post_save] receiver of [SharedExpenseSplit]. *)
Definition create_debt_on_split (instance : SharedExpenseSplit.t)
  (created : bool) (db : DB.t) : outcome DB.t :=
  let shared_expense := SharedExpenseSplit.shared_expense instance in
  if created && negb (SharedExpenseSplit.is_settled instance) then
    if negb (SharedExpenseSplit.user instance
             =? SharedExpense.paid_by shared_expense) then
      Debt_get_or_create
        (SharedExpense.paid_by shared_expense)
        (SharedExpenseSplit.user instance)
        (SharedExpenseSplit.id instance)
        (SharedExpenseSplit.amount instance)
        (String.append "Split for: "
           (Expense.description (SharedExpense.expense shared_expense)))
        (ExpenseGroup.id (SharedExpense.group shared_expense))
        (SharedExpense.paid_by shared_expense)
        db
    else Returned db
  else Returned db.

(** ** Split creation *)

(** [unique_together = [['shared_expense', 'user']]] *)
Definition split_exists (shared_expense user : pk) (db : DB.t) : bool :=
  existsb
    (fun s =>
       (SharedExpense.id (SharedExpenseSplit.shared_expense s)
        =? shared_expense)
       && (SharedExpenseSplit.user s =? user))
    (DB.splits db).

(** [SharedExpenseSplit.objects.create(shared_expense=..., user=...,
    amount=...)]: the amount is stored at two decimals, the pair
    (shared_expense, user) must be new, and saving the new row fires
    [post_save] with [created=True].  (The receiver copies
    [instance.amount] into a two-decimal column of [Debt], which holds the
    same two-decimal value as the split's column.) *)
Definition SharedExpenseSplit_create (shared_expense : SharedExpense.t)
  (user : User) (amount : Decimal.t) (db : DB.t) : outcome DB.t :=
  if split_exists (SharedExpense.id shared_expense) user db then
    Raised IntegrityError
  else
    let instance :=
      SharedExpenseSplit.mk (DB.next_pk db) shared_expense user
        (Decimal.quantize_cents amount) None false None "" in
    create_debt_on_split instance true (DB.insert_split db instance).

(** [SharedExpense.create_equal_splits(self, members=None)] *)
Definition create_equal_splits (self : SharedExpense.t)
  (members : option (list User)) (db : DB.t) : outcome DB.t :=
  let members :=
    match members with
    | None => ExpenseGroup.members (SharedExpense.group self)
    | Some l => l
    end in
  match members with
  | [] => Returned db
  | _ :: _ =>
      match Decimal.div
              (Decimal.of_cents (Expense.amount (SharedExpense.expense self)))
              (Decimal.of_int (Z.of_nat (length members))) with
      | None => Raised DivisionByZero
      | Some amount_per_person =>
          for_each
            (fun member => SharedExpenseSplit_create self member
                             amount_per_person)
            members db
      end
  end.

(** [SharedExpense.create_custom_splits(self, split_data)] *)
Definition create_custom_splits (self : SharedExpense.t)
  (split_data : list (User * cents)) (db : DB.t) : outcome DB.t :=
  for_each
    (fun data => SharedExpenseSplit_create self (fst data)
                   (Decimal.of_cents (snd data)))
    split_data db.

(** ** apps/shared_expenses/serializers.py, SharedExpenseSerializer *)

(** The writable fields of the serializer. *)
Record SharedExpenseData : Set := mkSharedExpenseData {
  data_expense : pk;
  data_group : pk;
  data_paid_by : pk;
  data_split_method : SplitMethod;
  data_notes : string
}.

(** [SharedExpenseSerializer(data=...).is_valid(raise_exception=True)]
    followed by [save()].  The serializer is a [ModelSerializer] with no
    [validate] method and the model declares no uniqueness constraint, so the
    only checks are those of the related fields: each primary key must name
    an existing row. *)
Definition create_shared_expense (data : SharedExpenseData) (db : DB.t)
  : outcome DB.t :=
  match List.find (fun e => Expense.id e =? data_expense data)
                  (DB.expenses db),
        List.find (fun g => ExpenseGroup.id g =? data_group data)
                  (DB.groups db),
        List.find (fun u => u =? data_paid_by data) (DB.users db) with
  | Some expense, Some group, Some paid_by =>
      Returned
        (DB.insert_shared_expense db
           (SharedExpense.mk (DB.next_pk db) expense group paid_by
              (data_split_method data) (data_notes data) false))
  | _, _, _ => Raised ValidationError
  end.

(** ** ExpenseGroup.get_balance_summary *)

(** [queryset.aggregate(total=Sum(name))['total']].  [columns] are the
    decimal columns of the model, each with its (nullable) value in a row.
    A name that is not a field of the model cannot be resolved and raises
    [FieldError], before any row is read.  SQL's SUM skips NULLs and is NULL
    ([None]) when it has nothing to add.  The code sums no column but
    [amount], so the columns of other types are left out of the tables
    below. *)
Definition aggregate_Sum {Row : Type}
  (columns : list (string * (Row -> option cents))) (name : string)
  (rows : list Row) : outcome (option cents) :=
  match List.find (fun c => String.eqb (fst c) name) columns with
  | None => Raised FieldError
  | Some c =>
      match omap (snd c) rows with
      | [] => Returned None
      | v :: vs => Returned (Some (sum_cents (v :: vs)))
      end
  end.

(** [SharedExpense] declares the fields [expense], [group], [paid_by],
    [split_method], [notes] and inherits [id], [created_at], [updated_at],
    [created_by], [updated_by], [is_deleted], [deleted_at], [deleted_by]:
    none is a decimal column ([amount] is a property). *)
Definition SharedExpense_decimal_columns
  : list (string * (SharedExpense.t -> option cents)) := [].

(** [SharedExpenseSplit] declares the decimal columns [amount] and
    [percentage]. *)
Definition SharedExpenseSplit_decimal_columns
  : list (string * (SharedExpenseSplit.t -> option cents)) :=
  [ ("amount"%string, fun s => Some (SharedExpenseSplit.amount s));
    ("percentage"%string, SharedExpenseSplit.percentage) ].

Record Balance : Set := mkBalance {
  paid : cents;
  owed : cents;
  balance : cents
}.

(** [total or Decimal('0.00')] *)
Definition or_zero (total : option cents) : cents :=
  match total with
  | Some v => v
  | None => 0
  end.

(** [ExpenseGroup.get_balance_summary(self)]: the dict [balances], keyed by
    member. *)
Definition get_balance_summary (self : ExpenseGroup.t) (db : DB.t)
  : outcome (gmap Z Balance) :=
  for_each
    (fun (member : User) (balances : gmap Z Balance) =>
       paid_total ←
         aggregate_Sum SharedExpense_decimal_columns "amount"
           (List.filter
              (fun e =>
                 (ExpenseGroup.id (SharedExpense.group e)
                  =? ExpenseGroup.id self)
                 && (SharedExpense.paid_by e =? member)
                 && negb (SharedExpense.is_deleted e))
              (DB.shared_expenses db));
       owed_total ←
         aggregate_Sum SharedExpenseSplit_decimal_columns "amount"
           (List.filter
              (fun s =>
                 (ExpenseGroup.id
                    (SharedExpense.group (SharedExpenseSplit.shared_expense s))
                  =? ExpenseGroup.id self)
                 && (SharedExpenseSplit.user s =? member)
                 && negb (SharedExpense.is_deleted
                            (SharedExpenseSplit.shared_expense s)))
              (DB.splits db));
       let paid := or_zero paid_total in
       let owed := or_zero owed_total in
       Returned (<[member := mkBalance paid owed (paid - owed)]> balances))
    (ExpenseGroup.members self) ∅.

(** The [total_expenses] property, which reads the amounts through the
    Python property instead of an aggregate. *)
Definition total_expenses (self : ExpenseGroup.t) (db : DB.t) : cents :=
  sum_cents
    (map SharedExpense.amount
       (List.filter
          (fun e =>
             (ExpenseGroup.id (SharedExpense.group e) =? ExpenseGroup.id self)
             && negb (SharedExpense.is_deleted e))
          (DB.shared_expenses db))).

(** ** apps/budgets/models.py and apps/budgets/services.py *)

Inductive BudgetStatus : Set := ACTIVE | INACTIVE | EXCEEDED | COMPLETED.

Inductive AlertType : Set := ALERT_80_PERCENT | ALERT_EXCEEDED | ALERT_CUSTOM.

Definition AlertType_eqb (a b : AlertType) : bool :=
  match a, b with
  | ALERT_80_PERCENT, ALERT_80_PERCENT
  | ALERT_EXCEEDED, ALERT_EXCEEDED
  | ALERT_CUSTOM, ALERT_CUSTOM => true
  | _, _ => false
  end.

Module BudgetAlert.
Record t : Set := mk {
  budget : pk;
  user : User;
  alert_type : AlertType;
  message : string;
  is_read : bool;
  sent_via_email : bool
}.
End BudgetAlert.

Module Budget.
Record t : Set := mk {
  id : pk;
  user : User;
  category : pk;
  name : string;
  amount : cents;
  start_date : date;
  end_date : date;
  status : BudgetStatus;
  alert_threshold_80 : bool;
  alert_threshold_100 : bool;
  alerted_at_80 : bool;
  alerted_at_100 : bool
}.

Definition set_alerted_at_80 (self : t) (v : bool) : t :=
  mk (id self) (user self) (category self) (name self) (amount self)
     (start_date self) (end_date self) (status self)
     (alert_threshold_80 self) (alert_threshold_100 self)
     v (alerted_at_100 self).

Definition set_alerted_at_100 (self : t) (v : bool) : t :=
  mk (id self) (user self) (category self) (name self) (amount self)
     (start_date self) (end_date self) (status self)
     (alert_threshold_80 self) (alert_threshold_100 self)
     (alerted_at_80 self) v.

Definition set_status (self : t) (v : BudgetStatus) : t :=
  mk (id self) (user self) (category self) (name self) (amount self)
     (start_date self) (end_date self) v
     (alert_threshold_80 self) (alert_threshold_100 self)
     (alerted_at_80 self) (alerted_at_100 self).

(** The rows [spent_amount] filters out of the [Expense] table. *)
Definition counted (self : t) (e : Expense.t) : bool :=
  (Expense.created_by e =? user self)
  && (Expense.category e =? category self)
  && (start_date self <=? Expense.transaction_date e)
  && (Expense.transaction_date e <=? end_date self)
  && TransactionStatus_eqb (Expense.status e) TX_COMPLETED
  && negb (Expense.is_deleted e).

(** The [spent_amount] property: [Decimal(str(sum(...)))].  Python's [sum]
    of no rows is the integer 0. *)
Definition spent_amount (expenses : list Expense.t) (self : t) : Decimal.t :=
  match List.filter (counted self) expenses with
  | [] => Decimal.of_int 0
  | e :: es => Decimal.of_cents (sum_cents (map Expense.amount (e :: es)))
  end.

(** The [utilization_percentage] property. *)
Definition utilization_percentage (expenses : list Expense.t) (self : t)
  : outcome Decimal.t :=
  if 0 <? amount self then
    match Decimal.div (spent_amount expenses self)
                      (Decimal.of_cents (amount self)) with
    | Some ratio => Returned (Decimal.mul ratio (Decimal.of_int 100))
    | None => Raised DivisionByZero
    end
  else Returned (Decimal.of_cents 0).

(** [NotificationService.send_budget_alert(user, budget, alert_type,
    message)]: the [BudgetAlert] row it leaves.  [email] is the value of
    [hasattr(user, 'profile') and getattr(user.profile,
    'email_notifications', True)]; sending the mail never raises
    ([fail_silently=True], inside a [try]). *)
Definition send_budget_alert (email : bool) (self : t)
  (alert_type : AlertType) (message : string) : BudgetAlert.t :=
  BudgetAlert.mk (id self) (user self) alert_type message false email.

(** [_send_alert_80(self)] *)
Definition send_alert_80 (email : bool) (self : t) : BudgetAlert.t :=
  send_budget_alert email self ALERT_80_PERCENT
    (String.append "You've used 80% of your "
       (String.append (name self) " budget.")).

(** [_send_alert_100(self)] *)
Definition send_alert_100 (email : bool) (self : t) : BudgetAlert.t :=
  send_budget_alert email self ALERT_EXCEEDED
    (String.append "Budget exceeded for " (String.append (name self) "!")).

(** The two [if] statements of [check_and_send_alerts], for a utilization
    already computed: the budget as saved and the alert rows created, in
    order. *)
Definition check_thresholds (email : bool) (utilization : Decimal.t)
  (self : t) : t * list BudgetAlert.t :=
  let r80 :=
    if alert_threshold_80 self && negb (alerted_at_80 self)
       && Decimal.leb (Decimal.of_int 80) utilization
       && Decimal.ltb utilization (Decimal.of_int 100)
    then (set_alerted_at_80 self true, [send_alert_80 email self])
    else (self, []) in
  let self1 := fst r80 in
  if alert_threshold_100 self1 && negb (alerted_at_100 self1)
     && Decimal.leb (Decimal.of_int 100) utilization
  then (set_status (set_alerted_at_100 self1 true) EXCEEDED,
        snd r80 ++ [send_alert_100 email self1])
  else (self1, snd r80).

(** [check_and_send_alerts(self)] *)
Definition check_and_send_alerts (email : bool) (expenses : list Expense.t)
  (self : t) : outcome (t * list BudgetAlert.t) :=
  utilization ← utilization_percentage expenses self;
  Returned (check_thresholds email utilization self).

(** [reset_alerts(self)] *)
Definition reset_alerts (self : t) : t :=
  set_alerted_at_100 (set_alerted_at_80 self false) false.

(** Successive evaluations of one budget, each against the [Expense] table
    of its moment; the alert rows accumulate. *)
Fixpoint evaluations (email : bool) (tables : list (list Expense.t))
  (self : t) : outcome (t * list BudgetAlert.t) :=
  match tables with
  | [] => Returned (self, [])
  | expenses :: rest =>
      r ← check_and_send_alerts email expenses self;
      r' ← evaluations email rest (fst r);
      Returned (fst r', snd r ++ snd r')
  end.
End Budget.

(** Successive [add_payment] calls on one debt; the payment rows
    accumulate. *)
Fixpoint add_payments (now : datetime) (self : Debt.t)
  (amounts : list cents) : outcome (Debt.t * list DebtPayment.t) :=
  match amounts with
  | [] => Returned (self, [])
  | a :: rest =>
      r ← Debt.add_payment now self a "";
      r' ← add_payments now (fst r) rest;
      Returned (fst r', snd r :: snd r')
  end.

(** The status rule as the specification words it (0 is PENDING, strictly
    between 0 and the amount is PARTIALLY_PAID, the amount is SETTLED); it
    is what [add_payment] is compared with, not a part of the code. *)
Definition status_of (amount settled : cents) : option SettlementStatus :=
  if settled =? 0 then Some PENDING
  else if (0 <? settled) && (settled <? amount) then Some PARTIALLY_PAID
  else if settled =? amount then Some SETTLED
  else None.

(** The [post_save] signals of a list of newly created splits. *)
Definition derive_debts (instances : list SharedExpenseSplit.t)
  (db : DB.t) : outcome DB.t :=
  for_each (fun instance => create_debt_on_split instance true) instances db.

(** Every payment of the list is positive and at most the balance that
    remains when it is made. *)
Fixpoint payments_fit (remaining : cents) (amounts : list cents) : bool :=
  match amounts with
  | [] => true
  | a :: rest =>
      (0 <? a) && (a <=? remaining) && payments_fit (remaining - a) rest
  end.

(** The number of alert rows of one type. *)
Definition count_alerts (ty : AlertType) (alerts : list BudgetAlert.t) : nat :=
  length (List.filter (fun a => AlertType_eqb (BudgetAlert.alert_type a) ty)
            alerts).

(** The shared expenses that reference an expense. *)
Definition references_expense (expense : pk) (e : SharedExpense.t) : bool :=
  Expense.id (SharedExpense.expense e) =? expense.

(** The split of a participant other than the payer. *)
Definition owes (s : SharedExpenseSplit.t) : bool :=
  negb (SharedExpenseSplit.user s
        =? SharedExpense.paid_by (SharedExpenseSplit.shared_expense s)).

(** The split the receiver creates a debt for: not settled when it is
    created, and of a participant other than the payer. *)
Definition gets_debt (s : SharedExpenseSplit.t) : bool :=
  negb (SharedExpenseSplit.is_settled s) && owes s.

(** [d] is the debt of split [s]: the payer is the creditor, the participant
    the debtor, the amount is the split's, nothing is paid yet. *)
Definition debt_of_split (d : Debt.t) (s : SharedExpenseSplit.t) : Prop :=
  Debt.creditor d = SharedExpense.paid_by (SharedExpenseSplit.shared_expense s)
  /\ Debt.debtor d = SharedExpenseSplit.user s
  /\ Debt.shared_expense_split d = Some (SharedExpenseSplit.id s)
  /\ Debt.amount d = SharedExpenseSplit.amount s
  /\ Debt.status d = PENDING
  /\ Debt.settled_amount d = 0.

(** No debt of the table refers to split [k]. *)
Definition unreferenced (k : pk) (debts : list Debt.t) : Prop :=
  Forall (fun d => Debt.shared_expense_split d <> Some k) debts.

(** Every split a debt refers to has a primary key already handed out. *)
Definition debts_below (db : DB.t) : Prop :=
  Forall (fun d => forall k, Debt.shared_expense_split d = Some k ->
                             k < DB.next_pk db)
         (DB.debts db).

(** A flag as a number. *)
Definition b2n (b : bool) : nat := if b then 1%nat else 0%nat.

(** ** Scenarios *)

(** A debt of 150.00 owed by user 20 to user 10, as [get_or_create] leaves
    it. *)
Definition debt_150 : Debt.t :=
  Debt.mk 1 10 20 15000 "Split for: dinner" (Some 5) (Some 7) PENDING None 0
          None (Some 10) false.

(** The same debt, cancelled. *)
Definition debt_150_cancelled : Debt.t :=
  Debt.with_settlement debt_150 CANCELLED None 0.

(** A budget of 500.00 for category 3 of user 10 over days 0..30, both
    thresholds enabled, no alert sent yet. *)
Definition budget_500 : Budget.t :=
  Budget.mk 1 10 3 "Groceries" 50000 0 30 ACTIVE true true false false.

(** Completed expenses of user 10 in category 3: 300.00 on day 5, then
    320.00 on day 6. *)
Definition expense_300 : Expense.t :=
  Expense.mk 50 10 3 30000 "market" 5 TX_COMPLETED false.

Definition expense_320 : Expense.t :=
  Expense.mk 51 10 3 32000 "butcher" 6 TX_COMPLETED false.

Definition expense_160 : Expense.t :=
  Expense.mk 52 10 3 16000 "baker" 7 TX_COMPLETED false.

(** A dinner of 100.00 paid by user 1, shared in a group of users 1, 2
    and 3; user 4 is not a member. *)
Definition dinner : Expense.t :=
  Expense.mk 100 1 3 10000 "dinner" 5 TX_COMPLETED false.

Definition flat : ExpenseGroup.t := ExpenseGroup.mk 200 "Flat" [1; 2; 3] 1 false.

Definition shared_dinner : SharedExpense.t :=
  SharedExpense.mk 300 dinner flat 1 EQUAL "" false.

Definition db_dinner : DB.t :=
  DB.mk [1; 2; 3; 4] [dinner] [flat] [shared_dinner] [] [] 301.

(** The same tables before the dinner is shared. *)
Definition db_unshared : DB.t := DB.mk [1; 2; 3; 4] [dinner] [flat] [] [] [] 300.

(** A request to share the dinner, naming user 4 as the payer. *)
Definition share_dinner_by_4 : SharedExpenseData :=
  mkSharedExpenseData 100 200 4 EQUAL "".

(** A split of the dinner for user 2, already settled when it is created. *)
Definition settled_split : SharedExpenseSplit.t :=
  SharedExpenseSplit.mk 400 shared_dinner 2 3333 None true (Some 0) "cash".

(** ** Further code of the same files *)

(** The [is_overdue] property of [Debt]; [today] is
    [timezone.now().date()]. *)
Definition is_overdue (today : date) (self : Debt.t) : bool :=
  match Debt.due_date self, Debt.status self with
  | Some due, PENDING => due <? today
  | _, _ => false
  end.

(** The [is_fully_settled] property of [SharedExpense]:
    [all(split.is_settled for split in self.splits.all())]. *)
Definition is_fully_settled (self : SharedExpense.t) (db : DB.t) : bool :=
  forallb SharedExpenseSplit.is_settled
    (List.filter
       (fun s =>
          SharedExpense.id (SharedExpenseSplit.shared_expense s)
          =? SharedExpense.id self)
       (DB.splits db)).

(** The [is_over_budget] property of [Budget]:
    [self.spent_amount > self.amount]. *)
Definition is_over_budget (expenses : list Expense.t) (self : Budget.t)
  : bool :=
  Decimal.ltb (Decimal.of_cents (Budget.amount self))
              (Budget.spent_amount expenses self).

(** The [is_near_limit] property of [Budget]:
    [self.utilization_percentage >= 80]. *)
Definition is_near_limit (expenses : list Expense.t) (self : Budget.t)
  : outcome bool :=
  utilization ← Budget.utilization_percentage expenses self;
  Returned (Decimal.leb (Decimal.of_int 80) utilization).

(** The [days_remaining] property of [Budget]. *)
Definition days_remaining (today : date) (self : Budget.t) : Z :=
  if Budget.end_date self <? today then 0
  else Budget.end_date self - today.

(** The [is_active_period] property of [Budget]. *)
Definition is_active_period (today : date) (self : Budget.t) : bool :=
  (Budget.start_date self <=? today) && (today <=? Budget.end_date self).

Definition BudgetStatus_eqb (a b : BudgetStatus) : bool :=
  match a, b with
  | ACTIVE, ACTIVE | INACTIVE, INACTIVE
  | EXCEEDED, EXCEEDED | COMPLETED, COMPLETED => true
  | _, _ => false
  end.

(** A row of the [Budget] table: the fields read above and the soft-delete
    flag the managers filter on. *)
Module BudgetRow.
Record t : Set := mk {
  budget : Budget.t;
  is_deleted : bool
}.
End BudgetRow.

(** [BudgetManager.active(self)] *)
Definition active (table : list BudgetRow.t) : list BudgetRow.t :=
  List.filter
    (fun r =>
       BudgetStatus_eqb (Budget.status (BudgetRow.budget r)) ACTIVE
       && negb (BudgetRow.is_deleted r))
    table.

(** [BudgetManager.for_user(self, user)] *)
Definition for_user (user : User) (table : list BudgetRow.t)
  : list BudgetRow.t :=
  List.filter (fun r => Budget.user (BudgetRow.budget r) =? user)
              (active table).

(** [BudgetManager.for_period(self, start_date, end_date)] *)
Definition for_period (start_date end_date : date)
  (table : list BudgetRow.t) : list BudgetRow.t :=
  List.filter
    (fun r =>
       (Budget.start_date (BudgetRow.budget r) <=? end_date)
       && (start_date <=? Budget.end_date (BudgetRow.budget r)))
    (active table).

(** [budget.save(update_fields=[...])] for the object [b]: the row of its
    primary key takes its values. *)
Definition save_budget (b : Budget.t) (table : list BudgetRow.t)
  : list BudgetRow.t :=
  map (fun r =>
         if Budget.id (BudgetRow.budget r) =? Budget.id b
         then BudgetRow.mk b (BudgetRow.is_deleted r)
         else r)
      table.

(** The budgets [check_budget_on_expense] selects for a saved expense. *)
Definition affected (instance : Expense.t) (r : BudgetRow.t) : bool :=
  let b := BudgetRow.budget r in
  (Budget.user b =? Expense.created_by instance)
  && (Budget.category b =? Expense.category instance)
  && (Budget.start_date b <=? Expense.transaction_date instance)
  && (Expense.transaction_date instance <=? Budget.end_date b)
  && BudgetStatus_eqb (Budget.status b) ACTIVE
  && negb (BudgetRow.is_deleted r).

(** apps/budgets/signals.py, [check_budget_on_expense(sender, instance,
    created)], the [post_save] receiver of [Expense]; [expenses] is the
    table with the saved row in it.  The state is the [Budget] table and the
    [BudgetAlert] rows; the selected budgets are taken in table order. *)
Definition check_budget_on_expense (email : bool) (instance : Expense.t)
  (expenses : list Expense.t)
  (st : list BudgetRow.t * list BudgetAlert.t)
  : outcome (list BudgetRow.t * list BudgetAlert.t) :=
  if TransactionStatus_eqb (Expense.status instance) TX_COMPLETED
     && negb (Expense.is_deleted instance)
  then
    for_each
      (fun (row : BudgetRow.t) (st : list BudgetRow.t * list BudgetAlert.t) =>
         r ← Budget.check_and_send_alerts email expenses
               (BudgetRow.budget row);
         Returned (save_budget (fst r) (fst st), snd st ++ snd r))
      (List.filter (affected instance) (fst st)) st
  else Returned st.

(** [NotificationService.get_unread_alerts(user)] over the [BudgetAlert]
    table, a row being a primary key and its fields. *)
Definition get_unread_alerts (user : User)
  (table : list (pk * BudgetAlert.t)) : list (pk * BudgetAlert.t) :=
  List.filter
    (fun r => (BudgetAlert.user (snd r) =? user)
              && negb (BudgetAlert.is_read (snd r)))
    table.

(** [BudgetAlert.mark_as_read(self)] *)
Definition mark_as_read (self : BudgetAlert.t) : BudgetAlert.t :=
  BudgetAlert.mk (BudgetAlert.budget self) (BudgetAlert.user self)
    (BudgetAlert.alert_type self) (BudgetAlert.message self) true
    (BudgetAlert.sent_via_email self).

(** [NotificationService.mark_alerts_as_read(user, alert_ids=None)]: the
    update runs on the user's unread alerts, narrowed to [alert_ids] when
    that list is given and not empty ([if alert_ids:]). *)
Definition mark_alerts_as_read (user : User) (alert_ids : option (list pk))
  (table : list (pk * BudgetAlert.t)) : list (pk * BudgetAlert.t) :=
  map (fun r =>
         if (BudgetAlert.user (snd r) =? user)
            && negb (BudgetAlert.is_read (snd r))
            && match alert_ids with
               | None | Some [] => true
               | Some (i :: ids) => existsb (fun j => j =? fst r) (i :: ids)
               end
         then (fst r, mark_as_read (snd r))
         else r)
      table.

(** The identifying part of a debt: creditor, debtor and amount. *)
Definition debt_summary (d : Debt.t) : Z * Z * Z :=
  (Debt.creditor d, Debt.debtor d, Debt.amount d).

(** The decimal [c * 10 ^ e], [0 < c], is at least [t * 10 ^ m], for a
    digit [t] from 1 to 9. *)
Definition at_least (c e t m : Z) : Prop :=
  (e <= m /\ t * 10 ^ (m - e) <= c) \/ (m < e /\ 0 < c).

(** The decimal [c * 10 ^ e], [0 < c], is below [t * 10 ^ m]. *)
Definition below (c e t m : Z) : Prop :=
  e <= m /\ c < t * 10 ^ (m - e).

(** * Properties *)

(** ** Debt payments *)

Section AddPayment.

Variable now : datetime.

Lemma add_payment_returns (d : Debt.t) (a : cents) (notes : string) :
  exists d' p, Debt.add_payment now d a notes = Returned (d', p)
               /\ DebtPayment.amount p = a
               /\ DebtPayment.debt p = Debt.id d
               /\ Debt.amount d' = Debt.amount d
               /\ Debt.id d' = Debt.id d.
Proof.
  unfold Debt.add_payment.
  eexists; eexists; split; [reflexivity|].
  repeat split; cbn;
    repeat match goal with |- context [if ?c then _ else _] => destruct c end;
    reflexivity.
Qed.

(** However the call goes, the settled amount ends at or below the amount. *)
Lemma add_payment_capped (d : Debt.t) (a : cents) (notes : string) d' p :
  Debt.add_payment now d a notes = Returned (d', p) ->
  Debt.settled_amount d' <= Debt.amount d'.
Proof.
  unfold Debt.add_payment; intros H; injection H as <- _.
  destruct (Debt.amount d <=? Debt.settled_amount d + a) eqn:E.
  - cbn; lia.
  - apply Z.leb_gt in E.
    destruct (0 <? Debt.settled_amount d + a); cbn; lia.
Qed.

(** One payment that is positive and within the balance keeps the status
    rule and adds exactly its amount. *)
Lemma add_payment_within_balance (d : Debt.t) (a : cents) (notes : string) :
  0 < Debt.amount d ->
  status_of (Debt.amount d) (Debt.settled_amount d) = Some (Debt.status d) ->
  0 < a -> a <= Debt.remaining_amount d ->
  exists d' p,
    Debt.add_payment now d a notes = Returned (d', p)
    /\ DebtPayment.amount p = a
    /\ Debt.amount d' = Debt.amount d
    /\ Debt.settled_amount d' = Debt.settled_amount d + a
    /\ status_of (Debt.amount d') (Debt.settled_amount d')
       = Some (Debt.status d').
Proof.
  intros Hamt Hst Ha Hrem.
  assert (Hs : 0 <= Debt.settled_amount d).
  { unfold status_of in Hst.
    destruct (Debt.settled_amount d =? 0) eqn:E0; [lia|].
    destruct ((0 <? Debt.settled_amount d)
              && (Debt.settled_amount d <? Debt.amount d)) eqn:E1; [lia|].
    destruct (Debt.settled_amount d =? Debt.amount d) eqn:E2; [lia|].
    discriminate. }
  unfold Debt.remaining_amount in Hrem.
  unfold Debt.add_payment.
  destruct (Debt.amount d <=? Debt.settled_amount d + a) eqn:E.
  - apply Z.leb_le in E.
    eexists; eexists; split; [reflexivity|]; cbn.
    repeat split; try lia.
    unfold status_of.
    replace (Debt.amount d =? 0) with false by lia.
    replace ((0 <? Debt.amount d) && (Debt.amount d <? Debt.amount d))
      with false by lia.
    now rewrite Z.eqb_refl.
  - apply Z.leb_gt in E.
    replace (0 <? Debt.settled_amount d + a) with true by lia.
    eexists; eexists; split; [reflexivity|]; cbn.
    repeat split.
    unfold status_of.
    replace (Debt.settled_amount d + a =? 0) with false by lia.
    replace ((0 <? Debt.settled_amount d + a)
             && (Debt.settled_amount d + a <? Debt.amount d))
      with true by lia.
    reflexivity.
Qed.

(** C2 (as amended).  For every debt whose status agrees with its settled
    amount, and every sequence of [add_payment] calls whose amounts are
    positive and at most the balance remaining at the call: every call
    returns, the payment rows carry exactly the amounts paid, the settled
    amount has grown by their sum, it does not exceed the amount, and the
    status is the one the rule prescribes for the settled amount. *)
Theorem add_payments_within_balance :
  forall (amounts : list cents) (d : Debt.t),
    0 < Debt.amount d ->
    status_of (Debt.amount d) (Debt.settled_amount d) = Some (Debt.status d) ->
    payments_fit (Debt.remaining_amount d) amounts = true ->
    exists d' ps,
      add_payments now d amounts = Returned (d', ps)
      /\ map DebtPayment.amount ps = amounts
      /\ Debt.settled_amount d'
         = Debt.settled_amount d + sum_cents (map DebtPayment.amount ps)
      /\ Debt.settled_amount d' <= Debt.amount d'
      /\ Debt.amount d' = Debt.amount d
      /\ status_of (Debt.amount d') (Debt.settled_amount d')
         = Some (Debt.status d').
Proof.
  induction amounts as [|a rest IH]; intros d Hamt Hst Hfit.
  - exists d, []; cbn.
    repeat split; try lia; try assumption.
    unfold status_of in Hst.
    destruct (Debt.settled_amount d =? 0) eqn:E0; [lia|].
    destruct ((0 <? Debt.settled_amount d)
              && (Debt.settled_amount d <? Debt.amount d)) eqn:E1; [lia|].
    destruct (Debt.settled_amount d =? Debt.amount d) eqn:E2; [lia|].
    discriminate.
  - cbn [payments_fit] in Hfit.
    apply andb_prop in Hfit as [Hfit Hrest].
    apply andb_prop in Hfit as [Hpos Hle].
    apply Z.ltb_lt in Hpos; apply Z.leb_le in Hle.
    destruct (add_payment_within_balance d a "" Hamt Hst Hpos Hle)
      as (d1 & p & Hcall & Hp & Hamt1 & Hset1 & Hst1).
    destruct (IH d1) as (d' & ps & Hrun & Hmap & Hsum & Hcap & Hamt' & Hst').
    + lia.
    + exact Hst1.
    + unfold Debt.remaining_amount in *. rewrite Hamt1, Hset1.
      replace (Debt.amount d - (Debt.settled_amount d + a))
        with (Debt.amount d - Debt.settled_amount d - a) by lia.
      exact Hrest.
    + exists d', (p :: ps).
      cbn [add_payments]. rewrite Hcall. cbn. rewrite Hrun. cbn.
      repeat split; try assumption; try lia.
      * now rewrite Hp, Hmap.
      * unfold sum_cents in *. rewrite Hsum, Hset1, Hp. lia.
Qed.

End AddPayment.

Lemma add_payments_within_balance_witness :
  exists d' ps,
    add_payments 0 debt_150 [5000; 10000] = Returned (d', ps)
    /\ map DebtPayment.amount ps = [5000; 10000]
    /\ Debt.settled_amount d'
       = Debt.settled_amount debt_150 + sum_cents (map DebtPayment.amount ps)
    /\ Debt.settled_amount d' <= Debt.amount d'
    /\ Debt.amount d' = Debt.amount debt_150
    /\ status_of (Debt.amount d') (Debt.settled_amount d')
       = Some (Debt.status d').
Proof.
  apply (add_payments_within_balance 0 [5000; 10000] debt_150);
    [ reflexivity | reflexivity | reflexivity ].
Defined.

(** C2 (as stated) fails: a payment of 200.00 on the pending debt of 150.00
    is accepted, the settled amount is capped at 150.00 and the payment row
    keeps 200.00, so the settled amount is not the sum of the payments. *)
Lemma add_payment_overshoot_breaks_sum :
  add_payments 0 debt_150 [20000]
  = Returned (Debt.with_settlement debt_150 SETTLED (Some 0) 15000,
              [DebtPayment.mk 1 20000 "CASH" "" "" (Some 20)])
  /\ Debt.settled_amount (Debt.with_settlement debt_150 SETTLED (Some 0) 15000)
     <> sum_cents
          (map DebtPayment.amount
             [DebtPayment.mk 1 20000 "CASH" "" "" (Some 20)]).
Proof. split; [reflexivity | discriminate]. Qed.

Section Overshoot.

Variable now : datetime.

(** C3 (as amended).  [add_payment] raises no error for a positive amount
    that exceeds the remaining balance: the call returns, the settled amount
    is capped at the amount of the debt, the status is SETTLED, [settled_at]
    is stamped, and the payment row keeps the amount offered.  So after a
    debt of 150.00 has received 50.00 and then 100.00, a third payment of any
    positive amount is accepted and leaves it settled at 150.00. *)
Theorem add_payment_overshoot_accepted :
  (forall (d : Debt.t) (a : cents) (notes : string),
      0 < a -> Debt.remaining_amount d < a ->
      Debt.add_payment now d a notes
      = Returned (Debt.with_settlement d SETTLED (Some now) (Debt.amount d),
                  DebtPayment.mk (Debt.id d) a "CASH" "" notes
                    (Some (Debt.debtor d))))
  /\ (forall (a : cents) (notes : string),
         0 < a ->
         exists d2 ps,
           add_payments now debt_150 [5000; 10000] = Returned (d2, ps)
           /\ Debt.status d2 = SETTLED
           /\ Debt.add_payment now d2 a notes
              = Returned (Debt.with_settlement d2 SETTLED (Some now) 15000,
                          DebtPayment.mk 1 a "CASH" "" notes (Some 20))).
Proof.
  assert (G : forall (d : Debt.t) (a : cents) (notes : string),
             0 < a -> Debt.remaining_amount d < a ->
             Debt.add_payment now d a notes
             = Returned
                 (Debt.with_settlement d SETTLED (Some now) (Debt.amount d),
                  DebtPayment.mk (Debt.id d) a "CASH" "" notes
                    (Some (Debt.debtor d)))).
  { intros d a notes Ha Hrem.
    unfold Debt.remaining_amount in Hrem. unfold Debt.add_payment.
    replace (Debt.amount d <=? Debt.settled_amount d + a) with true by lia.
    reflexivity. }
  split; [exact G|].
  intros a notes Ha.
  exists (Debt.with_settlement debt_150 SETTLED (Some now) 15000).
  exists [DebtPayment.mk 1 5000 "CASH" "" "" (Some 20);
          DebtPayment.mk 1 10000 "CASH" "" "" (Some 20)].
  split; [reflexivity|].
  split; [reflexivity|].
  rewrite G; [reflexivity | exact Ha | unfold Debt.remaining_amount; cbn; lia].
Qed.

(** C4 (as amended).  [add_payment] does not look at the status: on a
    CANCELLED debt a positive payment is accepted like on any other debt.
    The settled amount grows by the payment, capped at the amount of the
    debt, and the status becomes PARTIALLY_PAID, or SETTLED when the amount
    is reached; it does not stay CANCELLED. *)
Theorem add_payment_on_cancelled :
  forall (d : Debt.t) (a : cents) (notes : string),
    Debt.status d = CANCELLED ->
    0 <= Debt.settled_amount d ->
    0 < a ->
    exists d' p,
      Debt.add_payment now d a notes = Returned (d', p)
      /\ DebtPayment.amount p = a
      /\ Debt.settled_amount d'
         = Z.min (Debt.amount d) (Debt.settled_amount d + a)
      /\ Debt.status d'
         = (if Debt.amount d <=? Debt.settled_amount d + a
            then SETTLED else PARTIALLY_PAID)
      /\ Debt.status d' <> CANCELLED.
Proof.
  intros d a notes Hst Hs Ha.
  unfold Debt.add_payment.
  destruct (Debt.amount d <=? Debt.settled_amount d + a) eqn:E.
  - apply Z.leb_le in E.
    eexists; eexists; split; [reflexivity|]; cbn.
    repeat split; [lia | discriminate].
  - apply Z.leb_gt in E.
    replace (0 <? Debt.settled_amount d + a) with true by lia.
    eexists; eexists; split; [reflexivity|]; cbn.
    repeat split; [lia | discriminate].
Qed.

End Overshoot.

Lemma add_payment_overshoot_accepted_witness :
  Debt.add_payment 3 debt_150 20000 ""
  = Returned (Debt.with_settlement debt_150 SETTLED (Some 3) 15000,
              DebtPayment.mk 1 20000 "CASH" "" "" (Some 20))
  /\ exists d2 ps,
       add_payments 3 debt_150 [5000; 10000] = Returned (d2, ps)
       /\ Debt.status d2 = SETTLED
       /\ Debt.add_payment 3 d2 100 ""
          = Returned (Debt.with_settlement d2 SETTLED (Some 3) 15000,
                      DebtPayment.mk 1 100 "CASH" "" "" (Some 20)).
Proof.
  split.
  - apply (proj1 (add_payment_overshoot_accepted 3) debt_150 20000 "");
      [ reflexivity | reflexivity ].
  - apply (proj2 (add_payment_overshoot_accepted 3) 100 ""); reflexivity.
Defined.

(** C3 (as stated) fails: the debt of 150.00 that has received 50.00 and
    100.00 accepts a third payment of 1.00; no error is raised, [settled_at]
    is stamped anew and a third payment row is written. *)
Lemma third_payment_is_accepted :
  add_payments 0 debt_150 [5000; 10000]
  = Returned (Debt.with_settlement debt_150 SETTLED (Some 0) 15000,
              [DebtPayment.mk 1 5000 "CASH" "" "" (Some 20);
               DebtPayment.mk 1 10000 "CASH" "" "" (Some 20)])
  /\ Debt.add_payment 9
       (Debt.with_settlement debt_150 SETTLED (Some 0) 15000) 100 ""
     = Returned (Debt.with_settlement debt_150 SETTLED (Some 9) 15000,
                 DebtPayment.mk 1 100 "CASH" "" "" (Some 20))
  /\ Debt.add_payment 9
       (Debt.with_settlement debt_150 SETTLED (Some 0) 15000) 100 ""
     <> Raised ValidationError.
Proof. split; [reflexivity | split; [reflexivity | discriminate]]. Qed.

Lemma add_payment_on_cancelled_witness :
  exists d' p,
    Debt.add_payment 0 debt_150_cancelled 5000 "" = Returned (d', p)
    /\ DebtPayment.amount p = 5000
    /\ Debt.settled_amount d'
       = Z.min (Debt.amount debt_150_cancelled)
               (Debt.settled_amount debt_150_cancelled + 5000)
    /\ Debt.status d'
       = (if Debt.amount debt_150_cancelled
             <=? Debt.settled_amount debt_150_cancelled + 5000
          then SETTLED else PARTIALLY_PAID)
    /\ Debt.status d' <> CANCELLED.
Proof.
  apply (add_payment_on_cancelled 0 debt_150_cancelled 5000 "");
    [ reflexivity | cbn; lia | reflexivity ].
Defined.

(** C4 (as stated) fails: a payment of 50.00 on the cancelled debt of 150.00
    returns; the settled amount becomes 50.00 and the status
    PARTIALLY_PAID. *)
Lemma cancelled_debt_accepts_payment :
  Debt.status debt_150_cancelled = CANCELLED
  /\ Debt.add_payment 0 debt_150_cancelled 5000 ""
     = Returned (Debt.with_settlement debt_150_cancelled PARTIALLY_PAID
                   None 5000,
                 DebtPayment.mk 1 5000 "CASH" "" "" (Some 20))
  /\ Debt.settled_amount
       (Debt.with_settlement debt_150_cancelled PARTIALLY_PAID None 5000)
     <> Debt.settled_amount debt_150_cancelled.
Proof. split; [reflexivity | split; [reflexivity | discriminate]]. Qed.

(** ** Settling and unsettling a split *)

(** C10.  [settle] sets [is_settled] and stamps [settled_at]; [unsettle]
    clears both, whatever they were; so on a split that starts unsettled
    (flag false, no timestamp) [unsettle] after [settle] gives the pair
    ([is_settled], [settled_at]) back. *)
Theorem unsettle_settle_round_trip :
  forall (now : datetime) (s : SharedExpenseSplit.t) (notes : string),
    SharedExpenseSplit.is_settled s = false ->
    SharedExpenseSplit.settled_at s = None ->
    let s1 := SharedExpenseSplit.settle now s notes in
    let s2 := SharedExpenseSplit.unsettle s1 in
    SharedExpenseSplit.is_settled s1 = true
    /\ SharedExpenseSplit.settled_at s1 = Some now
    /\ SharedExpenseSplit.is_settled s2 = false
    /\ SharedExpenseSplit.settled_at s2 = None
    /\ (SharedExpenseSplit.is_settled s2, SharedExpenseSplit.settled_at s2)
       = (SharedExpenseSplit.is_settled s, SharedExpenseSplit.settled_at s).
Proof.
  intros now s notes Hflag Hat; cbn.
  rewrite Hflag, Hat. repeat split.
Qed.

Lemma unsettle_settle_round_trip_witness :
  let s := SharedExpenseSplit.unsettle settled_split in
  let s1 := SharedExpenseSplit.settle 42 s "paid in cash" in
  let s2 := SharedExpenseSplit.unsettle s1 in
  SharedExpenseSplit.is_settled s1 = true
  /\ SharedExpenseSplit.settled_at s1 = Some 42
  /\ SharedExpenseSplit.is_settled s2 = false
  /\ SharedExpenseSplit.settled_at s2 = None
  /\ (SharedExpenseSplit.is_settled s2, SharedExpenseSplit.settled_at s2)
     = (SharedExpenseSplit.is_settled s, SharedExpenseSplit.settled_at s).
Proof.
  apply (unsettle_settle_round_trip 42
           (SharedExpenseSplit.unsettle settled_split) "paid in cash");
    reflexivity.
Defined.

(** [unsettle] clears the pair on any split. *)
Lemma unsettle_clears (s : SharedExpenseSplit.t) :
  SharedExpenseSplit.is_settled (SharedExpenseSplit.unsettle s) = false
  /\ SharedExpenseSplit.settled_at (SharedExpenseSplit.unsettle s) = None.
Proof. split; reflexivity. Qed.

(** The notes of the settlement outlive [unsettle]: the round trip is on the
    pair only. *)
Example unsettle_keeps_notes :
  SharedExpenseSplit.settlement_notes
    (SharedExpenseSplit.unsettle
       (SharedExpenseSplit.settle 42
          (SharedExpenseSplit.unsettle settled_split) "paid in cash"))
  = "paid in cash"%string.
Proof. reflexivity. Qed.

(** ** Budget alerts *)

Lemma Decimal_ltb_leb (a b : Decimal.t) :
  Decimal.ltb a b = negb (Decimal.leb b a).
Proof.
  unfold Decimal.ltb, Decimal.leb, Decimal.aligned; cbn.
  rewrite (Z.min_comm (Decimal.dexp b)).
  apply Z.ltb_antisym.
Qed.

(** The ratio is always defined: the division is guarded by
    [self.amount > 0]. *)
Lemma utilization_percentage_returns (expenses : list Expense.t)
  (b : Budget.t) :
  exists u, Budget.utilization_percentage expenses b = Returned u.
Proof.
  unfold Budget.utilization_percentage.
  destruct (0 <? Budget.amount b) eqn:E; [|eexists; reflexivity].
  apply Z.ltb_lt in E.
  unfold Decimal.div; cbn.
  replace (Budget.amount b =? 0) with false by lia.
  eexists; reflexivity.
Qed.

Example utilization_300_of_500 :
  Budget.utilization_percentage [expense_300] budget_500
  = Returned (Decimal.mk 600 (-1)).
Proof. reflexivity. Qed.

Example utilization_620_of_500 :
  Budget.utilization_percentage [expense_300; expense_320] budget_500
  = Returned (Decimal.mk 12400 (-2)).
Proof. reflexivity. Qed.

(** C5 (as amended).  The 80% check is guarded by [utilization < 100].  For
    a budget with both thresholds enabled and neither flag set, an
    evaluation at a utilization of at least 100 creates the EXCEEDED alert
    alone: [alerted_at_100] is set and the status becomes EXCEEDED, while no
    80_PERCENT alert is created and [alerted_at_80] stays false. *)
Theorem check_and_send_alerts_past_100 :
  forall (email : bool) (expenses : list Expense.t) (b : Budget.t)
         (u : Decimal.t),
    Budget.alert_threshold_80 b = true ->
    Budget.alert_threshold_100 b = true ->
    Budget.alerted_at_80 b = false ->
    Budget.alerted_at_100 b = false ->
    Budget.utilization_percentage expenses b = Returned u ->
    Decimal.leb (Decimal.of_int 100) u = true ->
    exists b',
      Budget.check_and_send_alerts email expenses b
      = Returned (b', [Budget.send_alert_100 email b])
      /\ BudgetAlert.alert_type (Budget.send_alert_100 email b)
         = ALERT_EXCEEDED
      /\ Budget.alerted_at_100 b' = true
      /\ Budget.status b' = EXCEEDED
      /\ Budget.alerted_at_80 b' = false.
Proof.
  intros email expenses b u H80 H100 Ha80 Ha100 Hu Hge.
  unfold Budget.check_and_send_alerts. rewrite Hu. cbn.
  unfold Budget.check_thresholds.
  rewrite Decimal_ltb_leb, Hge, H80, Ha80.
  destruct (Decimal.leb (Decimal.of_int 80) u); cbn;
    rewrite H100, Ha100; cbn;
    (eexists; split; [reflexivity|]; cbn; auto).
Qed.

Lemma check_and_send_alerts_past_100_witness :
  exists b',
    Budget.check_and_send_alerts false [expense_300; expense_320] budget_500
    = Returned (b', [Budget.send_alert_100 false budget_500])
    /\ BudgetAlert.alert_type (Budget.send_alert_100 false budget_500)
       = ALERT_EXCEEDED
    /\ Budget.alerted_at_100 b' = true
    /\ Budget.status b' = EXCEEDED
    /\ Budget.alerted_at_80 b' = false.
Proof.
  apply (check_and_send_alerts_past_100 false [expense_300; expense_320]
           budget_500 (Decimal.mk 12400 (-2))); reflexivity.
Defined.

(** C5 (as stated) fails on scenario B: spending goes from 300.00 (60 percent
    of 500.00) to 620.00 (124 percent); the evaluation creates one alert, of
    type EXCEEDED, and [alerted_at_80] is still false. *)
Lemma jump_past_100_sends_one_alert :
  Budget.check_and_send_alerts false [expense_300; expense_320] budget_500
  = Returned
      (Budget.mk 1 10 3 "Groceries" 50000 0 30 EXCEEDED true true false true,
       [BudgetAlert.mk 1 10 ALERT_EXCEEDED "Budget exceeded for Groceries!"
          false false])
  /\ count_alerts ALERT_80_PERCENT
       [BudgetAlert.mk 1 10 ALERT_EXCEEDED "Budget exceeded for Groceries!"
          false false] = 0%nat.
Proof. split; reflexivity. Qed.

Lemma count_alerts_app (ty : AlertType) (l1 l2 : list BudgetAlert.t) :
  count_alerts ty (l1 ++ l2) = (count_alerts ty l1 + count_alerts ty l2)%nat.
Proof.
  unfold count_alerts. now rewrite List.filter_app, List.length_app.
Qed.

(** One evaluation: the alerts of a type it creates, together with the flag
    before it, make the flag after it. *)
Lemma check_thresholds_flags (email : bool) (u : Decimal.t) (b : Budget.t) :
  let r := Budget.check_thresholds email u b in
  (count_alerts ALERT_80_PERCENT (snd r) + b2n (Budget.alerted_at_80 b)
   = b2n (Budget.alerted_at_80 (fst r)))%nat
  /\ (count_alerts ALERT_EXCEEDED (snd r) + b2n (Budget.alerted_at_100 b)
      = b2n (Budget.alerted_at_100 (fst r)))%nat.
Proof.
  unfold Budget.check_thresholds.
  destruct (Budget.alert_threshold_80 b), (Budget.alerted_at_80 b) eqn:E80,
    (Decimal.leb (Decimal.of_int 80) u),
    (Decimal.ltb u (Decimal.of_int 100)),
    (Budget.alert_threshold_100 b) eqn:T100,
    (Budget.alerted_at_100 b) eqn:E100,
    (Decimal.leb (Decimal.of_int 100) u);
    cbn; rewrite ?T100, ?E100, ?E80; cbn; rewrite ?E80, ?E100; split;
      reflexivity.
Qed.

Lemma check_and_send_alerts_flags (email : bool) (expenses : list Expense.t)
  (b : Budget.t) :
  exists b' alerts,
    Budget.check_and_send_alerts email expenses b = Returned (b', alerts)
    /\ (count_alerts ALERT_80_PERCENT alerts + b2n (Budget.alerted_at_80 b)
        = b2n (Budget.alerted_at_80 b'))%nat
    /\ (count_alerts ALERT_EXCEEDED alerts + b2n (Budget.alerted_at_100 b)
        = b2n (Budget.alerted_at_100 b'))%nat.
Proof.
  unfold Budget.check_and_send_alerts.
  destruct (utilization_percentage_returns expenses b) as [u ->]. cbn.
  pose proof (check_thresholds_flags email u b) as H. cbn zeta in H.
  destruct (Budget.check_thresholds email u b) as [b' alerts].
  exists b', alerts. split; [reflexivity | exact H].
Qed.

Lemma evaluations_flags (email : bool) (tables : list (list Expense.t)) :
  forall b : Budget.t,
  exists b' alerts,
    Budget.evaluations email tables b = Returned (b', alerts)
    /\ (count_alerts ALERT_80_PERCENT alerts + b2n (Budget.alerted_at_80 b)
        = b2n (Budget.alerted_at_80 b'))%nat
    /\ (count_alerts ALERT_EXCEEDED alerts + b2n (Budget.alerted_at_100 b)
        = b2n (Budget.alerted_at_100 b'))%nat.
Proof.
  induction tables as [|expenses rest IH]; intros b.
  - exists b, []. repeat split.
  - destruct (check_and_send_alerts_flags email expenses b)
      as (b1 & a1 & Hcall & H80 & H100).
    destruct (IH b1) as (b' & a' & Hrun & H80' & H100').
    exists b', (a1 ++ a').
    cbn [Budget.evaluations]. rewrite Hcall. cbn. rewrite Hrun. cbn.
    split; [reflexivity|].
    rewrite !count_alerts_app. lia.
Qed.

(** C6.  Over any sequence of evaluations of a budget with no
    [reset_alerts] in between, every evaluation returns, at most one
    80_PERCENT alert and at most one EXCEEDED alert are created in all, a
    flag that is set stays set, and no alert of a type is created while its
    flag is set. *)
Theorem evaluations_at_most_one_alert :
  forall (email : bool) (tables : list (list Expense.t)) (b : Budget.t),
  exists b' alerts,
    Budget.evaluations email tables b = Returned (b', alerts)
    /\ (count_alerts ALERT_80_PERCENT alerts <= 1)%nat
    /\ (count_alerts ALERT_EXCEEDED alerts <= 1)%nat
    /\ (Budget.alerted_at_80 b = true ->
        Budget.alerted_at_80 b' = true
        /\ count_alerts ALERT_80_PERCENT alerts = 0%nat)
    /\ (Budget.alerted_at_100 b = true ->
        Budget.alerted_at_100 b' = true
        /\ count_alerts ALERT_EXCEEDED alerts = 0%nat).
Proof.
  intros email tables b.
  destruct (evaluations_flags email tables b)
    as (b' & alerts & Hrun & H80 & H100).
  exists b', alerts. split; [exact Hrun|].
  unfold b2n in *.
  destruct (Budget.alerted_at_80 b), (Budget.alerted_at_80 b'),
    (Budget.alerted_at_100 b), (Budget.alerted_at_100 b');
    repeat split; try lia; try discriminate; intros _; split;
      try reflexivity; lia.
Qed.

Lemma evaluations_at_most_one_alert_witness :
  exists b' alerts,
    Budget.evaluations false
      [[expense_300]; [expense_300; expense_320]; [expense_300; expense_320]]
      (Budget.set_alerted_at_80 budget_500 true)
    = Returned (b', alerts)
    /\ (count_alerts ALERT_80_PERCENT alerts <= 1)%nat
    /\ (count_alerts ALERT_EXCEEDED alerts <= 1)%nat
    /\ (Budget.alerted_at_80 (Budget.set_alerted_at_80 budget_500 true) = true
        -> Budget.alerted_at_80 b' = true
           /\ count_alerts ALERT_80_PERCENT alerts = 0%nat)
    /\ (Budget.alerted_at_100 (Budget.set_alerted_at_80 budget_500 true) = true
        -> Budget.alerted_at_100 b' = true
           /\ count_alerts ALERT_EXCEEDED alerts = 0%nat).
Proof.
  apply (evaluations_at_most_one_alert false
           [[expense_300]; [expense_300; expense_320];
            [expense_300; expense_320]]
           (Budget.set_alerted_at_80 budget_500 true)).
Defined.

(** From a fresh budget: 60 percent, 92 percent twice, then 124 percent
    twice.  The alerts created are one 80_PERCENT and one EXCEEDED. *)
Example evaluations_scenario :
  match Budget.evaluations false
          [[expense_300]; [expense_300; expense_160];
           [expense_300; expense_160];
           [expense_300; expense_320]; [expense_300; expense_320]]
          budget_500 with
  | Returned (b', alerts) =>
      map BudgetAlert.alert_type alerts = [ALERT_80_PERCENT; ALERT_EXCEEDED]
      /\ Budget.alerted_at_80 b' = true /\ Budget.alerted_at_100 b' = true
      /\ Budget.status b' = EXCEEDED
  | Raised _ => False
  end.
Proof. cbv. repeat split. Qed.

(** [reset_alerts] clears both flags and leaves the status alone. *)
Lemma reset_alerts_clears (b : Budget.t) :
  Budget.alerted_at_80 (Budget.reset_alerts b) = false
  /\ Budget.alerted_at_100 (Budget.reset_alerts b) = false
  /\ Budget.status (Budget.reset_alerts b) = Budget.status b.
Proof. repeat split. Qed.

(** ** Creating a shared expense *)

Lemma find_user (u : User) (users : list User) (v : User) :
  List.find (fun x => x =? u) users = Some v -> v = u.
Proof.
  intros H. apply List.find_some in H as [_ H]. now apply Z.eqb_eq in H.
Qed.

Lemma find_expense (k : pk) (l : list Expense.t) (e : Expense.t) :
  List.find (fun x => Expense.id x =? k) l = Some e -> Expense.id e = k.
Proof.
  intros H. apply List.find_some in H as [_ H]. now apply Z.eqb_eq in H.
Qed.

(** C8 (as amended).  [SharedExpense.expense] is a plain foreign key and the
    serializer validates nothing beyond its related fields: whenever the
    expense, the group and the payer named by the request exist, the shared
    expense is created, whether or not the payer is a member of the group
    and whether or not a shared expense already references the expense; it
    is one more row referencing that expense.  The request fails, with
    [ValidationError], only when one of the three does not exist. *)
Theorem create_shared_expense_unchecked :
  forall (data : SharedExpenseData) (db : DB.t)
         (expense : Expense.t) (group : ExpenseGroup.t),
    List.find (fun e => Expense.id e =? data_expense data) (DB.expenses db)
    = Some expense ->
    List.find (fun g => ExpenseGroup.id g =? data_group data) (DB.groups db)
    = Some group ->
    In (data_paid_by data) (DB.users db) ->
    exists db',
      create_shared_expense data db = Returned db'
      /\ DB.shared_expenses db'
         = DB.shared_expenses db
           ++ [SharedExpense.mk (DB.next_pk db) expense group
                 (data_paid_by data) (data_split_method data)
                 (data_notes data) false]
      /\ length (List.filter (references_expense (data_expense data))
                   (DB.shared_expenses db'))
         = S (length (List.filter (references_expense (data_expense data))
                        (DB.shared_expenses db))).
Proof.
  intros data db expense group He Hg Hu.
  unfold create_shared_expense. rewrite He, Hg.
  destruct (List.find (fun u => u =? data_paid_by data) (DB.users db))
    as [v|] eqn:Hv.
  - apply find_user in Hv as ->.
    eexists; split; [reflexivity|]; cbn. split; [reflexivity|].
    rewrite List.filter_app, List.length_app. cbn.
    unfold references_expense at 2; cbn.
    rewrite (find_expense _ _ _ He), Z.eqb_refl. cbn. lia.
  - exfalso.
    apply (List.find_none _ _ Hv) in Hu. rewrite Z.eqb_refl in Hu.
    discriminate.
Qed.

Lemma create_shared_expense_unchecked_witness :
  exists db',
    create_shared_expense share_dinner_by_4 db_dinner = Returned db'
    /\ DB.shared_expenses db'
       = DB.shared_expenses db_dinner
         ++ [SharedExpense.mk (DB.next_pk db_dinner) dinner flat
               (data_paid_by share_dinner_by_4)
               (data_split_method share_dinner_by_4)
               (data_notes share_dinner_by_4) false]
    /\ length (List.filter (references_expense
                              (data_expense share_dinner_by_4))
                 (DB.shared_expenses db'))
       = S (length (List.filter (references_expense
                                   (data_expense share_dinner_by_4))
                      (DB.shared_expenses db_dinner))).
Proof.
  apply (create_shared_expense_unchecked share_dinner_by_4 db_dinner
           dinner flat);
    [ reflexivity | reflexivity | cbn; tauto ].
Defined.

(** The only failure: a primary key that names no row. *)
Lemma create_shared_expense_raises (data : SharedExpenseData) (db : DB.t)
  (e : exn) :
  create_shared_expense data db = Raised e ->
  e = ValidationError
  /\ (List.find (fun x => Expense.id x =? data_expense data) (DB.expenses db)
      = None
      \/ List.find (fun g => ExpenseGroup.id g =? data_group data)
           (DB.groups db) = None
      \/ ~ In (data_paid_by data) (DB.users db)).
Proof.
  unfold create_shared_expense.
  destruct (List.find _ (DB.expenses db)); [|intros [= <-]; auto].
  destruct (List.find _ (DB.groups db)); [|intros [= <-]; auto].
  destruct (List.find _ (DB.users db)) eqn:Hu; [discriminate|].
  intros [= <-]. split; [reflexivity|]. right; right. intros Hin.
  apply (List.find_none _ _ Hu) in Hin. rewrite Z.eqb_refl in Hin.
  discriminate.
Qed.

(** C8 (as stated) fails: user 4 is not a member of the group, yet the
    request to share the dinner with user 4 as payer is accepted, and
    accepted again; the dinner then has two shared expenses. *)
Lemma dinner_shared_twice :
  ~ In 4 (ExpenseGroup.members flat)
  /\ match create_shared_expense share_dinner_by_4 db_unshared with
     | Returned db1 =>
         match create_shared_expense share_dinner_by_4 db1 with
         | Returned db2 =>
             DB.shared_expenses db2
             = [SharedExpense.mk 300 dinner flat 4 EQUAL "" false;
                SharedExpense.mk 301 dinner flat 4 EQUAL "" false]
             /\ length (List.filter (references_expense (Expense.id dinner))
                          (DB.shared_expenses db2)) = 2%nat
         | Raised _ => False
         end
     | Raised _ => False
     end.
Proof.
  split.
  - cbn. intros [H|[H|[H|[]]]]; discriminate.
  - cbn. split; reflexivity.
Qed.

(** ** The balance summary *)

(** C9 fails on the code.  [get_balance_summary] aggregates
    [Sum('amount')] over [SharedExpense] rows, and [amount] is a property of
    the class, not a field: for every group with at least one member the
    call raises [FieldError] on the first member, and no summary is
    returned. *)
Theorem get_balance_summary_field_error :
  forall (self : ExpenseGroup.t) (db : DB.t),
    ExpenseGroup.members self <> [] ->
    get_balance_summary self db = Raised FieldError.
Proof.
  intros self db Hne. unfold get_balance_summary.
  destruct (ExpenseGroup.members self) as [|m ms]; [contradiction|].
  reflexivity.
Qed.

Lemma get_balance_summary_field_error_witness :
  get_balance_summary flat db_dinner = Raised FieldError.
Proof.
  apply (get_balance_summary_field_error flat db_dinner). discriminate.
Defined.

(** A group without members has the empty summary. *)
Lemma get_balance_summary_no_members (self : ExpenseGroup.t) (db : DB.t) :
  ExpenseGroup.members self = [] ->
  get_balance_summary self db = Returned ∅.
Proof. intros H. unfold get_balance_summary. now rewrite H. Qed.

(** The sibling property [total_expenses] reads the same amounts through
    the Python property and does compute: 100.00 for the group of the
    dinner. *)
Example total_expenses_dinner : total_expenses flat db_dinner = 10000.
Proof. reflexivity. Qed.

(** ** Debts derived from splits *)

Lemma for_each_fixed {A S : Type} (body : A -> S -> outcome S)
  (xs : list A) (s : S) :
  (forall x, In x xs -> body x s = Returned s) ->
  for_each body xs s = Returned s.
Proof.
  induction xs as [|x xs IH]; intros H; [reflexivity|].
  cbn. rewrite (H x (or_introl eq_refl)). cbn.
  apply IH. intros y Hy. apply H. now right.
Qed.

Lemma filter_unreferenced (c u k : pk) (debts : list Debt.t) :
  unreferenced k debts -> List.filter (debt_matches c u k) debts = [].
Proof.
  induction 1 as [|d ds Hd _ IH]; [reflexivity|].
  cbn. rewrite IH. unfold debt_matches.
  destruct (Debt.shared_expense_split d) as [j|]; [|now rewrite andb_false_r].
  destruct (j =? k) eqn:E; [|now rewrite andb_false_r].
  apply Z.eqb_eq in E. now subst.
Qed.

(** The receiver does nothing for a split that is saved again, for a split
    that is settled already when it is created, and for the payer's own
    split. *)
Lemma create_debt_on_split_skips (s : SharedExpenseSplit.t) (created : bool)
  (db : DB.t) :
  created = false \/ SharedExpenseSplit.is_settled s = true \/ owes s = false ->
  create_debt_on_split s created db = Returned db.
Proof.
  unfold create_debt_on_split, owes.
  intros [-> | [-> | ->]]; [reflexivity | now rewrite andb_false_r |].
  now destruct (created && _).
Qed.

(** For a new, unsettled split of another participant that no debt refers
    to yet, the receiver inserts one debt. *)
Lemma create_debt_on_split_inserts (s : SharedExpenseSplit.t) (db : DB.t) :
  SharedExpenseSplit.is_settled s = false ->
  owes s = true ->
  unreferenced (SharedExpenseSplit.id s) (DB.debts db) ->
  exists d,
    create_debt_on_split s true db = Returned (DB.insert_debt db d)
    /\ debt_of_split d s.
Proof.
  intros Hs Ho Hun. unfold create_debt_on_split, owes in *.
  rewrite Hs, Ho. cbn. unfold Debt_get_or_create.
  rewrite (filter_unreferenced _ _ _ _ Hun).
  eexists; split; [reflexivity|].
  repeat split.
Qed.

Lemma NoDup_map_inj {A : Type} (f : A -> Z) (l : list A) (x y : A) :
  NoDup (map f l) -> In x l -> In y l -> f x = f y -> x = y.
Proof.
  induction l as [|a l IH]; intros Hnd Hx Hy Hf; [destruct Hx|].
  cbn [map] in Hnd. apply NoDup_cons_iff in Hnd as [Ha Hnd].
  destruct Hx as [-> | Hx], Hy as [-> | Hy].
  - reflexivity.
  - exfalso. apply Ha. rewrite Hf. now apply in_map.
  - exfalso. apply Ha. rewrite <- Hf. now apply in_map.
  - now apply IH.
Qed.

(** The first run over new splits. *)
Lemma derive_debts_first_run (instances : list SharedExpenseSplit.t) :
  forall db : DB.t,
    NoDup (map SharedExpenseSplit.id instances) ->
    Forall (fun s => unreferenced (SharedExpenseSplit.id s) (DB.debts db))
           instances ->
    exists db' new,
      derive_debts instances db = Returned db'
      /\ DB.debts db' = DB.debts db ++ new
      /\ DB.splits db' = DB.splits db
      /\ Forall2 debt_of_split new (List.filter gets_debt instances).
Proof.
  unfold derive_debts.
  induction instances as [|s rest IH]; intros db Hnd Hun.
  - exists db, []. cbn. rewrite app_nil_r. repeat split. constructor.
  - cbn [map] in Hnd. apply NoDup_cons_iff in Hnd as [Hnotin Hnd].
    apply Forall_cons_iff in Hun as [Hu Hun].
    destruct (gets_debt s) eqn:Hg.
    + unfold gets_debt in Hg. apply andb_true_iff in Hg as [Hs Ho].
      apply negb_true_iff in Hs.
      destruct (create_debt_on_split_inserts s db Hs Ho Hu)
        as (d & Hcall & Hd).
      destruct (IH (DB.insert_debt db d) Hnd)
        as (db' & new & Hrun & Hdebts & Hsplits & Hall).
      * rewrite Forall_forall in Hun |- *. intros s' Hin.
        unfold unreferenced. cbn. apply Forall_app. split; [now apply Hun|].
        constructor; [|constructor].
        destruct Hd as (_ & _ & -> & _). intros [= E].
        apply Hnotin. rewrite E. now apply in_map.
      * exists db', (d :: new). cbn [for_each]. rewrite Hcall. cbn.
        rewrite Hrun. split; [reflexivity|].
        cbn in Hdebts. rewrite Hdebts, <- app_assoc. cbn.
        split; [reflexivity|]. split; [exact Hsplits|].
        cbn [List.filter]. unfold gets_debt at 1. rewrite Hs, Ho. cbn.
        now constructor.
    + destruct (IH db Hnd Hun)
        as (db' & new & Hrun & Hdebts & Hsplits & Hall).
      exists db', new. cbn [for_each].
      rewrite (create_debt_on_split_skips s true db).
      2:{ unfold gets_debt in Hg. apply andb_false_iff in Hg as [Hg | Hg];
          [apply negb_false_iff in Hg|]; auto. }
      cbn. rewrite Hrun. split; [reflexivity|].
      split; [exact Hdebts|]. split; [exact Hsplits|].
      cbn [List.filter]. now rewrite Hg.
Qed.

Lemma debts_of_splits_unreferenced (k : pk) (new : list Debt.t)
  (l : list SharedExpenseSplit.t) :
  Forall2 debt_of_split new l ->
  ~ In k (map SharedExpenseSplit.id l) ->
  unreferenced k new.
Proof.
  induction 1 as [|d s new l Hd _ IH]; intros Hnotin; [constructor|].
  constructor.
  - destruct Hd as (_ & _ & -> & _). intros [= E]. apply Hnotin. now left.
  - apply IH. intros Hin. apply Hnotin. now right.
Qed.

(** Among the debts of a list of splits with distinct keys, the lookup of
    [get_or_create] for one of these splits finds exactly one row. *)
Lemma debts_of_splits_lookup (new : list Debt.t)
  (l : list SharedExpenseSplit.t) :
  Forall2 debt_of_split new l ->
  NoDup (map SharedExpenseSplit.id l) ->
  forall s, In s l ->
    exists d,
      List.filter
        (debt_matches
           (SharedExpense.paid_by (SharedExpenseSplit.shared_expense s))
           (SharedExpenseSplit.user s) (SharedExpenseSplit.id s))
        new = [d]
      /\ debt_of_split d s.
Proof.
  induction 1 as [|d s0 new l Hd Hall IH]; intros Hnd s Hin; [destruct Hin|].
  cbn [map] in Hnd. apply NoDup_cons_iff in Hnd as [Hnotin Hnd].
  destruct Hin as [<- | Hin].
  - exists d. split; [|exact Hd]. cbn [List.filter].
    rewrite (filter_unreferenced _ _ _ _
               (debts_of_splits_unreferenced _ _ _ Hall Hnotin)).
    destruct Hd as (Hc & Hb & Hr & _).
    unfold debt_matches. now rewrite Hc, Hb, Hr, !Z.eqb_refl.
  - destruct (IH Hnd s Hin) as (d' & Hf & Hd').
    exists d'. split; [|exact Hd']. cbn [List.filter].
    replace (debt_matches _ _ _ d) with false; [exact Hf|].
    destruct Hd as (_ & _ & Hr & _). unfold debt_matches. rewrite Hr.
    destruct (SharedExpenseSplit.id s0 =? SharedExpenseSplit.id s) eqn:E;
      [|now rewrite andb_false_r].
    apply Z.eqb_eq in E. exfalso. apply Hnotin. rewrite E. now apply in_map.
Qed.

Lemma NoDup_filter_ids (f : SharedExpenseSplit.t -> bool)
  (l : list SharedExpenseSplit.t) :
  NoDup (map SharedExpenseSplit.id l) ->
  NoDup (map SharedExpenseSplit.id (List.filter f l)).
Proof.
  induction l as [|x xs IH]; intros Hnd; [constructor|].
  cbn [map] in Hnd. apply NoDup_cons_iff in Hnd as [Hx Hnd].
  cbn [List.filter]. destruct (f x); [|now apply IH].
  cbn [map]. constructor; [|now apply IH].
  intros Hin. apply Hx. apply in_map_iff in Hin as (y & <- & Hy).
  apply in_map. now apply List.filter_In in Hy as [Hy _].
Qed.

(** C7 (as amended).  The receiver acts on a split that is new and not yet
    settled.  Over new splits with distinct keys that no debt refers to yet,
    settled or not, it creates exactly one debt for every split that is not
    settled and whose participant is not the payer (creditor the payer,
    debtor the participant, amount the split's), and no debt that refers to
    any other split of the list: none for the payer's own split, none for a
    split that is settled when it is created.  Fired again on the same
    splits it finds each debt by its (creditor, debtor, split) triple and
    leaves the tables as they are. *)
Theorem derive_debts_once :
  forall (instances : list SharedExpenseSplit.t) (db : DB.t),
    NoDup (map SharedExpenseSplit.id instances) ->
    Forall (fun s => unreferenced (SharedExpenseSplit.id s) (DB.debts db))
           instances ->
    exists db' new,
      derive_debts instances db = Returned db'
      /\ DB.debts db' = DB.debts db ++ new
      /\ Forall2 debt_of_split new (List.filter gets_debt instances)
      /\ (forall s, In s instances -> gets_debt s = false ->
            unreferenced (SharedExpenseSplit.id s) new)
      /\ derive_debts instances db' = Returned db'.
Proof.
  intros instances db Hnd Hun.
  destruct (derive_debts_first_run instances db Hnd Hun)
    as (db' & new & Hrun & Hdebts & _ & Hall).
  exists db', new.
  split; [exact Hrun|]. split; [exact Hdebts|]. split; [exact Hall|].
  split.
  - intros s Hin Hg.
    apply (debts_of_splits_unreferenced _ _ _ Hall).
    intros Hid. apply in_map_iff in Hid as (y & Hy & Hiny).
    apply List.filter_In in Hiny as [Hiny Hgy].
    assert (y = s) by (eapply NoDup_map_inj; eauto).
    subst y. congruence.
  - unfold derive_debts. apply for_each_fixed. intros s Hin.
    destruct (gets_debt s) eqn:Hg.
    + destruct (debts_of_splits_lookup new _ Hall
                  (NoDup_filter_ids gets_debt instances Hnd) s)
        as (d & Hf & _).
      { apply List.filter_In. now split. }
      unfold gets_debt in Hg. apply andb_true_iff in Hg as [Hs Ho].
      rewrite Forall_forall in Hun.
      unfold create_debt_on_split. unfold owes in Ho.
      rewrite Hs, Ho. cbn. unfold Debt_get_or_create.
      rewrite Hdebts, List.filter_app.
      rewrite (filter_unreferenced _ _ _ _ (Hun s Hin)), Hf. reflexivity.
    + apply create_debt_on_split_skips.
      unfold gets_debt in Hg. apply andb_false_iff in Hg as [Hg | Hg];
        [apply negb_false_iff in Hg|]; auto.
Qed.

(** A mixed list: the settled split of user 2, a new split of user 3 and
    the payer's own split. *)
Lemma derive_debts_once_witness :
  exists db' new,
    derive_debts
      [settled_split;
       SharedExpenseSplit.mk 401 shared_dinner 3 3333 None false None "";
       SharedExpenseSplit.mk 402 shared_dinner 1 3334 None false None ""]
      db_dinner = Returned db'
    /\ DB.debts db' = DB.debts db_dinner ++ new
    /\ Forall2 debt_of_split new
         (List.filter gets_debt
            [settled_split;
             SharedExpenseSplit.mk 401 shared_dinner 3 3333 None false None "";
             SharedExpenseSplit.mk 402 shared_dinner 1 3334 None false None ""])
    /\ (forall s,
          In s [settled_split;
                SharedExpenseSplit.mk 401 shared_dinner 3 3333 None false None
                  "";
                SharedExpenseSplit.mk 402 shared_dinner 1 3334 None false None
                  ""] ->
          gets_debt s = false ->
          unreferenced (SharedExpenseSplit.id s) new)
    /\ derive_debts
         [settled_split;
          SharedExpenseSplit.mk 401 shared_dinner 3 3333 None false None "";
          SharedExpenseSplit.mk 402 shared_dinner 1 3334 None false None ""]
         db' = Returned db'.
Proof.
  apply (derive_debts_once
           [settled_split;
            SharedExpenseSplit.mk 401 shared_dinner 3 3333 None false None "";
            SharedExpenseSplit.mk 402 shared_dinner 1 3334 None false None ""]
           db_dinner).
  - cbn. apply NoDup_cons; [intros [H|[H|[]]]; discriminate|].
    apply NoDup_cons; [intros [H|[]]; discriminate|].
    apply NoDup_cons; [intros []|apply NoDup_nil].
  - repeat constructor.
Defined.

(** The mixed list leaves one debt, that of user 3. *)
Example derive_debts_mixed :
  (db' ← derive_debts
      [settled_split;
       SharedExpenseSplit.mk 401 shared_dinner 3 3333 None false None "";
       SharedExpenseSplit.mk 402 shared_dinner 1 3334 None false None ""]
      db_dinner;
   Returned (map (fun d => (Debt.creditor d, Debt.debtor d,
                            Debt.shared_expense_split d, Debt.amount d))
               (DB.debts db')))
  = Returned [(1, 3, Some 401, 3333)].
Proof. reflexivity. Qed.

(** C7 (as stated) fails: user 2 is not the payer of the dinner, but the
    split of user 2 is created already settled, and the receiver creates no
    debt for it. *)
Lemma settled_split_gets_no_debt :
  owes settled_split = true
  /\ create_debt_on_split settled_split true db_dinner = Returned db_dinner
  /\ DB.debts db_dinner = [].
Proof. repeat split. Qed.

(** ** Equal splits *)

Lemma sum_cents_repeat (c : cents) (n : nat) :
  sum_cents (repeat c n) = Z.of_nat n * c.
Proof.
  induction n as [|n IH]; [reflexivity|].
  cbn [repeat]. unfold sum_cents in *. cbn [fold_right]. rewrite IH. lia.
Qed.

Lemma debts_below_unreferenced (db : DB.t) :
  debts_below db -> unreferenced (DB.next_pk db) (DB.debts db).
Proof.
  unfold debts_below, unreferenced. apply Forall_impl.
  intros d H E. specialize (H _ E). lia.
Qed.

(** Creating the split of a participant who has none yet: one row, with the
    amount at two decimals. *)
Lemma SharedExpenseSplit_create_new (self : SharedExpense.t) (member : User)
  (amount : Decimal.t) (db : DB.t) :
  split_exists (SharedExpense.id self) member db = false ->
  debts_below db ->
  exists db',
    SharedExpenseSplit_create self member amount db = Returned db'
    /\ DB.splits db'
       = DB.splits db
         ++ [SharedExpenseSplit.mk (DB.next_pk db) self member
               (Decimal.quantize_cents amount) None false None ""]
    /\ debts_below db'.
Proof.
  intros Hnew Hbelow. unfold SharedExpenseSplit_create. rewrite Hnew.
  set (instance := SharedExpenseSplit.mk _ _ _ _ _ _ _ _).
  destruct (owes instance) eqn:Ho.
  - destruct (create_debt_on_split_inserts instance
                (DB.insert_split db instance)) as (d & Hcall & Hd);
      [reflexivity | exact Ho | exact (debts_below_unreferenced db Hbelow) |].
    eexists; split; [exact Hcall|]. split; [reflexivity|].
    unfold debts_below in *. cbn. apply Forall_app. split.
    + revert Hbelow. apply Forall_impl. intros x H k E.
      specialize (H _ E). lia.
    + constructor; [|constructor]. destruct Hd as (_ & _ & -> & _).
      intros k [= <-]. cbn. lia.
  - rewrite create_debt_on_split_skips by auto.
    eexists; split; [reflexivity|]. split; [reflexivity|].
    unfold debts_below in *. cbn. revert Hbelow. apply Forall_impl.
    intros x H k E. specialize (H _ E). lia.
Qed.

Lemma create_splits_loop (self : SharedExpense.t) (amount : Decimal.t)
  (members : list User) :
  forall db : DB.t,
    NoDup members ->
    (forall m, In m members ->
               split_exists (SharedExpense.id self) m db = false) ->
    debts_below db ->
    exists db' created,
      for_each (fun member => SharedExpenseSplit_create self member amount)
               members db = Returned db'
      /\ DB.splits db' = DB.splits db ++ created
      /\ map SharedExpenseSplit.user created = members
      /\ map SharedExpenseSplit.amount created
         = repeat (Decimal.quantize_cents amount) (length members).
Proof.
  induction members as [|m rest IH]; intros db Hnd Hnew Hbelow.
  - exists db, []. cbn. now rewrite app_nil_r.
  - apply NoDup_cons_iff in Hnd as [Hm Hnd].
    destruct (SharedExpenseSplit_create_new self m amount db)
      as (db1 & Hcall & Hsplits1 & Hbelow1);
      [apply Hnew; now left | exact Hbelow |].
    destruct (IH db1 Hnd) as (db' & created & Hrun & Hsplits & Husers & Hamts);
      [|exact Hbelow1|].
    + intros m' Hin. unfold split_exists. rewrite Hsplits1, existsb_app.
      fold (split_exists (SharedExpense.id self) m' db).
      rewrite (Hnew m') by now right. cbn.
      replace (m =? m') with false; [now rewrite andb_false_r|].
      symmetry. apply Z.eqb_neq. intros ->. contradiction.
    + eexists db', (_ :: created). cbn [for_each]. rewrite Hcall. cbn.
      rewrite Hrun. split; [reflexivity|].
      rewrite Hsplits, Hsplits1, <- app_assoc. cbn.
      split; [reflexivity|]. now rewrite Husers, Hamts.
Qed.

(** C1 (as amended).  [create_equal_splits] gives every participant the
    same amount: the quotient [expense.amount / len(members)], held at two
    decimals.  No remainder is assigned to anyone, so the amounts sum to
    [len(members)] times that amount.  Splitting 100.00 among 3 members
    yields [33.33, 33.33, 33.33]. *)
Theorem create_equal_splits_same_amount :
  (forall (self : SharedExpense.t) (members : list User) (db : DB.t),
      members <> [] ->
      NoDup members ->
      (forall m, In m members ->
                 split_exists (SharedExpense.id self) m db = false) ->
      debts_below db ->
      exists amount_per_person db' created,
        Decimal.div (Decimal.of_cents (SharedExpense.amount self))
                    (Decimal.of_int (Z.of_nat (length members)))
        = Some amount_per_person
        /\ create_equal_splits self (Some members) db = Returned db'
        /\ DB.splits db' = DB.splits db ++ created
        /\ map SharedExpenseSplit.user created = members
        /\ map SharedExpenseSplit.amount created
           = repeat (Decimal.quantize_cents amount_per_person)
                    (length members)
        /\ sum_cents (map SharedExpenseSplit.amount created)
           = Z.of_nat (length members)
             * Decimal.quantize_cents amount_per_person)
  /\ match create_equal_splits shared_dinner None db_dinner with
     | Returned db' =>
         map SharedExpenseSplit.amount (DB.splits db') = [3333; 3333; 3333]
     | Raised _ => False
     end.
Proof.
  split; [|reflexivity].
  intros self members db Hne Hnd Hnew Hbelow.
  unfold create_equal_splits, SharedExpense.amount.
  destruct members as [|m rest]; [contradiction|].
  set (members := m :: rest) in *.
  destruct (Decimal.div _ _) as [q|] eqn:Hq.
  - destruct (create_splits_loop self q members db Hnd Hnew Hbelow)
      as (db' & created & Hrun & Hsplits & Husers & Hamts).
    exists q, db', created. repeat split; try assumption.
    rewrite Hamts. apply sum_cents_repeat.
  - exfalso. unfold Decimal.div in Hq. cbn in Hq.
    destruct (Z.pos (Pos.of_succ_nat (length rest)) =? 0) eqn:E;
      [|discriminate]. apply Z.eqb_eq in E. lia.
Qed.

Lemma create_equal_splits_same_amount_witness :
  exists amount_per_person db' created,
    Decimal.div (Decimal.of_cents (SharedExpense.amount shared_dinner))
                (Decimal.of_int (Z.of_nat (length [1; 2; 3])))
    = Some amount_per_person
    /\ create_equal_splits shared_dinner (Some [1; 2; 3]) db_dinner
       = Returned db'
    /\ DB.splits db' = DB.splits db_dinner ++ created
    /\ map SharedExpenseSplit.user created = [1; 2; 3]
    /\ map SharedExpenseSplit.amount created
       = repeat (Decimal.quantize_cents amount_per_person)
                (length [1; 2; 3])
    /\ sum_cents (map SharedExpenseSplit.amount created)
       = Z.of_nat (length [1; 2; 3])
         * Decimal.quantize_cents amount_per_person.
Proof.
  apply (proj1 create_equal_splits_same_amount shared_dinner [1; 2; 3]
           db_dinner).
  - discriminate.
  - apply NoDup_cons; [intros [H|[H|[]]]; discriminate|].
    apply NoDup_cons; [intros [H|[]]; discriminate|].
    apply NoDup_cons; [intros []|apply NoDup_nil].
  - intros m _. reflexivity.
  - constructor.
Defined.

(** C1 (as stated) fails: 100.00 split among the three members of the group
    gives 33.33 to each, the first member included, and the amounts sum to
    99.99. *)
Lemma equal_split_100_by_3 :
  match create_equal_splits shared_dinner None db_dinner with
  | Returned db' =>
      map SharedExpenseSplit.user (DB.splits db') = [1; 2; 3]
      /\ map SharedExpenseSplit.amount (DB.splits db') = [3333; 3333; 3333]
      /\ map SharedExpenseSplit.amount (DB.splits db') <> [3334; 3333; 3333]
      /\ sum_cents (map SharedExpenseSplit.amount (DB.splits db')) = 9999
      /\ sum_cents (map SharedExpenseSplit.amount (DB.splits db'))
         <> SharedExpense.amount shared_dinner
  | Raised _ => False
  end.
Proof.
  cbv. split; [reflexivity|]. split; [reflexivity|].
  split; [discriminate|]. split; [reflexivity | discriminate].
Qed.

(** The splits of the dinner bring two debts, of 33.33 each, owed to the
    payer by users 2 and 3. *)
Example equal_split_debts :
  match create_equal_splits shared_dinner None db_dinner with
  | Returned db' =>
      map (fun d => (Debt.creditor d, Debt.debtor d, Debt.amount d))
          (DB.debts db')
      = [(1, 2, 3333); (1, 3, 3333)]
  | Raised _ => False
  end.
Proof. reflexivity. Qed.

Example div_100_3 :
  Decimal.div (Decimal.of_cents 10000) (Decimal.of_int 3)
  = Some (Decimal.mk 3333333333333333333333333333 (-26)).
Proof. reflexivity. Qed.

Example div_2_3 :
  Decimal.div (Decimal.of_int 2) (Decimal.of_int 3)
  = Some (Decimal.mk 6666666666666666666666666667 (-28)).
Proof. reflexivity. Qed.

Example quantize_third :
  Decimal.quantize_cents (Decimal.mk 3333333333333333333333333333 (-26))
  = 3333.
Proof. reflexivity. Qed.

Example quantize_ties_to_even :
  Decimal.quantize_cents (Decimal.mk 125 (-3)) = 12
  /\ Decimal.quantize_cents (Decimal.mk 135 (-3)) = 14.
Proof. split; reflexivity. Qed.

(** * Further properties of the code *)

(** ** Debts *)

(** [settle_full] on a debt with a positive balance pays exactly that
    balance: the debt is SETTLED at its full amount and stamped, and the
    payment row carries the balance.  Asked again, it does nothing. *)
Theorem settle_full_settles :
  forall (now : datetime) (d : Debt.t) (notes : string),
    0 < Debt.remaining_amount d ->
    exists d' p,
      Debt.settle_full now d notes = Returned (d', Some p)
      /\ Debt.status d' = SETTLED
      /\ Debt.settled_amount d' = Debt.amount d
      /\ Debt.settled_at d' = Some now
      /\ DebtPayment.amount p = Debt.remaining_amount d
      /\ Debt.settled_amount d'
         = Debt.settled_amount d + DebtPayment.amount p
      /\ forall (later : datetime) (notes' : string),
           Debt.settle_full later d' notes' = Returned (d', None).
Proof.
  intros now d notes Hrem.
  unfold Debt.settle_full.
  replace (0 <? Debt.remaining_amount d) with true by lia.
  unfold Debt.add_payment, Debt.remaining_amount in *. cbn.
  replace (Debt.amount d <=?
           Debt.settled_amount d + (Debt.amount d - Debt.settled_amount d))
    with true by lia.
  eexists; eexists; split; [reflexivity|]. cbn.
  repeat split; try lia.
  intros later notes'. now rewrite Z.sub_diag.
Qed.

Lemma settle_full_settles_witness :
  exists d' p,
    Debt.settle_full 8 debt_150 "" = Returned (d', Some p)
    /\ Debt.status d' = SETTLED
    /\ Debt.settled_amount d' = Debt.amount debt_150
    /\ Debt.settled_at d' = Some 8
    /\ DebtPayment.amount p = Debt.remaining_amount debt_150
    /\ Debt.settled_amount d'
       = Debt.settled_amount debt_150 + DebtPayment.amount p
    /\ forall (later : datetime) (notes' : string),
         Debt.settle_full later d' notes' = Returned (d', None).
Proof. apply (settle_full_settles 8 debt_150 ""). reflexivity. Defined.

(** With nothing left to pay, [settle_full] writes no payment and leaves the
    debt as it is, also when the debt is overpaid. *)
Theorem settle_full_nothing_left :
  forall (now : datetime) (d : Debt.t) (notes : string),
    Debt.remaining_amount d <= 0 ->
    Debt.settle_full now d notes = Returned (d, None).
Proof.
  intros now d notes H. unfold Debt.settle_full.
  now replace (0 <? Debt.remaining_amount d) with false by lia.
Qed.

Lemma settle_full_nothing_left_witness :
  Debt.settle_full 8 (Debt.with_settlement debt_150 SETTLED (Some 3) 15000) ""
  = Returned (Debt.with_settlement debt_150 SETTLED (Some 3) 15000, None).
Proof.
  apply (settle_full_nothing_left 8
           (Debt.with_settlement debt_150 SETTLED (Some 3) 15000) "").
  vm_compute. discriminate.
Defined.

(** The payment history keeps every amount offered, in order, under the
    debt's key and in the debtor's name, whatever the amounts are: also the
    part of a payment that the cap cut off, and amounts that are zero or
    negative. *)
Theorem add_payments_records_every_amount :
  forall (now : datetime) (amounts : list cents) (d : Debt.t),
  exists d' ps,
    add_payments now d amounts = Returned (d', ps)
    /\ map DebtPayment.amount ps = amounts
    /\ Forall (fun p => DebtPayment.debt p = Debt.id d
                        /\ DebtPayment.created_by p = Some (Debt.debtor d))
              ps
    /\ Debt.amount d' = Debt.amount d.
Proof.
  intros now amounts. induction amounts as [|a rest IH]; intros d.
  - exists d, []. repeat split. constructor.
  - cbn [add_payments]. unfold Debt.add_payment. cbn.
    set (d1 := if Debt.amount d <=? Debt.settled_amount d + a then _ else _).
    assert (H1 : Debt.id d1 = Debt.id d /\ Debt.debtor d1 = Debt.debtor d
                 /\ Debt.amount d1 = Debt.amount d).
    { subst d1.
      destruct (Debt.amount d <=? Debt.settled_amount d + a);
        [|destruct (0 <? Debt.settled_amount d + a)]; repeat split. }
    destruct H1 as (Hid & Hdebtor & Hamt).
    destruct (IH d1) as (d' & ps & Hrun & Hmap & Hall & Hamt').
    rewrite Hrun. cbn. eexists; eexists; split; [reflexivity|].
    split; [cbn; now rewrite Hmap|].
    split; [|congruence].
    constructor; [split; reflexivity|].
    revert Hall. apply Forall_impl. intros p [Hp1 Hp2].
    now rewrite Hp1, Hp2, Hid, Hdebtor.
Qed.

Example add_payments_records_overshoot :
  match add_payments 0 debt_150 [10000; 10000; -2500; 0] with
  | Returned (d', ps) =>
      map DebtPayment.amount ps = [10000; 10000; -2500; 0]
      /\ Debt.settled_amount d' = 12500
      /\ Debt.status d' = PARTIALLY_PAID
  | Raised _ => False
  end.
Proof. cbv. repeat split. Qed.

(** The settled amount never passes the amount of the debt, whatever is
    paid: that is what the cap of [add_payment] is for. *)
Theorem add_payments_never_exceed :
  forall (now : datetime) (amounts : list cents) (d : Debt.t),
    Debt.settled_amount d <= Debt.amount d ->
    exists d' ps,
      add_payments now d amounts = Returned (d', ps)
      /\ Debt.settled_amount d' <= Debt.amount d'.
Proof.
  intros now amounts. induction amounts as [|a rest IH]; intros d Hle.
  - exists d, []. split; [reflexivity | exact Hle].
  - destruct (add_payment_returns now d a "") as (d1 & p & Hcall & _).
    destruct (IH d1 (add_payment_capped now d a "" d1 p Hcall))
      as (d' & ps & Hrun & Hle').
    exists d', (p :: ps). cbn [add_payments]. rewrite Hcall. cbn.
    rewrite Hrun. split; [reflexivity | exact Hle'].
Qed.

Lemma add_payments_never_exceed_witness :
  exists d' ps,
    add_payments 0 debt_150 [10000; 10000; -2500; 0] = Returned (d', ps)
    /\ Debt.settled_amount d' <= Debt.amount d'.
Proof.
  apply (add_payments_never_exceed 0 [10000; 10000; -2500; 0] debt_150).
  cbn. lia.
Defined.

(** Only a PENDING debt can be overdue: once a positive payment has been
    made on a debt that had nothing negative settled, the debt is not
    reported overdue, however far past its due date it is. *)
Theorem paid_debt_is_not_overdue :
  forall (now : datetime) (today : date) (d : Debt.t) (a : cents)
         (notes : string) (d' : Debt.t) (p : DebtPayment.t),
    0 <= Debt.settled_amount d ->
    0 < a ->
    Debt.add_payment now d a notes = Returned (d', p) ->
    is_overdue today d' = false.
Proof.
  intros now today d a notes d' p Hs Ha H.
  unfold Debt.add_payment in H. injection H as <- _.
  unfold is_overdue.
  destruct (Debt.amount d <=? Debt.settled_amount d + a); cbn.
  - now destruct (Debt.due_date d).
  - replace (0 <? Debt.settled_amount d + a) with true by lia. cbn.
    now destruct (Debt.due_date d).
Qed.

Lemma paid_debt_is_not_overdue_witness :
  is_overdue 100
    (Debt.mk 1 10 20 15000 "x" None None PARTIALLY_PAID (Some 30) 100 None
       None false) = false.
Proof.
  apply (paid_debt_is_not_overdue 0 100
           (Debt.mk 1 10 20 15000 "x" None None PENDING (Some 30) 0 None
              None false)
           100 ""
           (Debt.mk 1 10 20 15000 "x" None None PARTIALLY_PAID (Some 30) 100
              None None false)
           (DebtPayment.mk 1 100 "CASH" "" "" (Some 20)));
    [ cbn; lia | reflexivity | reflexivity ].
Defined.

(** The same debt, unpaid, is overdue on day 100. *)
Example unpaid_debt_is_overdue :
  is_overdue 100
    (Debt.mk 1 10 20 15000 "x" None None PENDING (Some 30) 0 None None false)
  = true.
Proof. reflexivity. Qed.

(** ** Splits and the debts they bring *)

Lemma for_each_map {A B S : Type} (f : A -> B) (body : B -> S -> outcome S)
  (xs : list A) (s : S) :
  for_each body (map f xs) s = for_each (fun x => body (f x)) xs s.
Proof.
  revert s. induction xs as [|x xs IH]; intros s; [reflexivity|].
  cbn. destruct (body (f x) s); cbn; [apply IH | reflexivity].
Qed.

Lemma quantize_cents_of_cents (c : cents) :
  Decimal.quantize_cents (Decimal.of_cents c) = c.
Proof. unfold Decimal.quantize_cents. cbn. lia. Qed.

Lemma split_exists_app (k m : pk) (db db' : DB.t)
  (created : list SharedExpenseSplit.t) :
  DB.splits db' = DB.splits db ++ created ->
  split_exists k m db' =
  split_exists k m db
  || existsb (fun s =>
                (SharedExpense.id (SharedExpenseSplit.shared_expense s) =? k)
                && (SharedExpenseSplit.user s =? m)) created.
Proof. intros H. unfold split_exists. now rewrite H, existsb_app. Qed.

(** What creating one split does to the tables. *)
Lemma SharedExpenseSplit_create_effect (self : SharedExpense.t)
  (member : User) (amount : Decimal.t) (db : DB.t) :
  split_exists (SharedExpense.id self) member db = false ->
  debts_below db ->
  exists db' new,
    SharedExpenseSplit_create self member amount db = Returned db'
    /\ DB.splits db'
       = DB.splits db
         ++ [SharedExpenseSplit.mk (DB.next_pk db) self member
               (Decimal.quantize_cents amount) None false None ""]
    /\ DB.debts db' = DB.debts db ++ new
    /\ map debt_summary new
       = map (fun m => (SharedExpense.paid_by self, m,
                        Decimal.quantize_cents amount))
             (List.filter (fun m => negb (m =? SharedExpense.paid_by self))
                          [member])
    /\ Forall (fun d => Debt.status d = PENDING /\ Debt.settled_amount d = 0)
              new
    /\ debts_below db'.
Proof.
  intros Hnew Hbelow. unfold SharedExpenseSplit_create. rewrite Hnew.
  set (instance := SharedExpenseSplit.mk _ _ _ _ _ _ _ _).
  cbn [List.filter].
  change (negb (member =? SharedExpense.paid_by self)) with (owes instance).
  destruct (owes instance) eqn:Ho.
  - destruct (create_debt_on_split_inserts instance
                (DB.insert_split db instance)) as (d & Hcall & Hd);
      [reflexivity | exact Ho | exact (debts_below_unreferenced db Hbelow) |].
    destruct Hd as (Hc & Hb & Hr & Ha & Hst & Hset).
    exists (DB.insert_debt (DB.insert_split db instance) d), [d].
    split; [exact Hcall|]. split; [reflexivity|]. split; [reflexivity|].
    split; [cbn; unfold debt_summary; now rewrite Hc, Hb, Ha|].
    split; [constructor; [split; assumption|constructor]|].
    unfold debts_below in *. cbn. apply Forall_app. split.
    + revert Hbelow. apply Forall_impl. intros x H k E.
      specialize (H _ E). lia.
    + constructor; [|constructor]. rewrite Hr. intros k [= <-]. cbn. lia.
  - rewrite create_debt_on_split_skips by auto.
    exists (DB.insert_split db instance), [].
    split; [reflexivity|]. split; [reflexivity|].
    split; [cbn; now rewrite app_nil_r|]. split; [reflexivity|].
    split; [constructor|].
    unfold debts_below in *. cbn. revert Hbelow. apply Forall_impl.
    intros x H k E. specialize (H _ E). lia.
Qed.

(** The loop of [create_equal_splits] and of [create_custom_splits], over
    the participants and their amounts. *)
Lemma create_splits_effect (self : SharedExpense.t)
  (items : list (User * Decimal.t)) :
  forall db : DB.t,
    NoDup (map fst items) ->
    (forall m, In m (map fst items) ->
               split_exists (SharedExpense.id self) m db = false) ->
    debts_below db ->
    exists db' created new,
      for_each (fun x => SharedExpenseSplit_create self (fst x) (snd x))
               items db = Returned db'
      /\ DB.splits db' = DB.splits db ++ created
      /\ map SharedExpenseSplit.user created = map fst items
      /\ map SharedExpenseSplit.amount created
         = map (fun x => Decimal.quantize_cents (snd x)) items
      /\ Forall (fun s => SharedExpenseSplit.is_settled s = false
                          /\ SharedExpenseSplit.shared_expense s = self)
                created
      /\ DB.debts db' = DB.debts db ++ new
      /\ map debt_summary new
         = map (fun x => (SharedExpense.paid_by self, fst x,
                          Decimal.quantize_cents (snd x)))
               (List.filter
                  (fun x => negb (fst x =? SharedExpense.paid_by self))
                  items)
      /\ Forall (fun d => Debt.status d = PENDING
                          /\ Debt.settled_amount d = 0) new
      /\ debts_below db'.
Proof.
  induction items as [|[m q] rest IH]; intros db Hnd Hnew Hbelow.
  - exists db, [], []. cbn. rewrite !app_nil_r.
    repeat split; try apply Forall_nil. exact Hbelow.
  - cbn [map fst] in Hnd, Hnew. apply NoDup_cons_iff in Hnd as [Hm Hnd].
    destruct (SharedExpenseSplit_create_effect self m q db)
      as (db1 & new1 & Hcall & Hsp1 & Hde1 & Hsum1 & Hst1 & Hbelow1);
      [apply Hnew; now left | exact Hbelow |].
    destruct (IH db1 Hnd)
      as (db' & created & new & Hrun & Hsp & Hus & Ham & Hcr & Hde & Hsum
          & Hst & Hbelow');
      [|exact Hbelow1|].
    + intros m' Hin. rewrite (split_exists_app _ _ db db1 _ Hsp1).
      rewrite (Hnew m') by now right. cbn.
      replace (m =? m') with false; [now rewrite andb_false_r|].
      symmetry. apply Z.eqb_neq. intros ->. contradiction.
    + eexists db', (_ :: created), (new1 ++ new).
      cbn [for_each fst snd]. rewrite Hcall. cbn [mbind outcome_bind].
      split; [exact Hrun|].
      split; [rewrite Hsp, Hsp1, <- app_assoc; reflexivity|].
      split; [cbn; now rewrite Hus|].
      split; [cbn; now rewrite Ham|].
      split; [constructor; [split; reflexivity | exact Hcr]|].
      split; [rewrite Hde, Hde1, <- app_assoc; reflexivity|].
      split.
      * rewrite map_app, Hsum1, Hsum. cbn [List.filter fst snd].
        destruct (negb (m =? SharedExpense.paid_by self)); reflexivity.
      * split; [now apply Forall_app|exact Hbelow'].
Qed.

(** The division of [create_equal_splits] is defined whenever there is a
    member. *)
Lemma amount_per_person_defined (a : cents) (members : list User) :
  members <> [] ->
  exists q,
    Decimal.div (Decimal.of_cents a)
                (Decimal.of_int (Z.of_nat (length members))) = Some q.
Proof.
  intros Hne. unfold Decimal.div. cbn [Decimal.coeff Decimal.of_int].
  destruct (Z.of_nat (length members) =? 0) eqn:E; [|eexists; reflexivity].
  apply Z.eqb_eq in E. destruct members; [contradiction | cbn in E; lia].
Qed.

(** [create_equal_splits] as the loop over the members paired with the
    amount per person. *)
Lemma create_equal_splits_loop (self : SharedExpense.t)
  (members : list User) (db : DB.t) (q : Decimal.t) :
  members <> [] ->
  Decimal.div (Decimal.of_cents (SharedExpense.amount self))
              (Decimal.of_int (Z.of_nat (length members))) = Some q ->
  create_equal_splits self (Some members) db
  = for_each (fun x => SharedExpenseSplit_create self (fst x) (snd x))
             (map (fun m => (m, q)) members) db.
Proof.
  intros Hne Hq. unfold create_equal_splits.
  destruct members as [|m rest]; [contradiction|].
  unfold SharedExpense.amount in Hq. rewrite Hq.
  now rewrite for_each_map.
Qed.

(** The equal split of an expense brings one debt for every member other
    than the payer and none for the payer: each debt is owed to the payer,
    amounts to the share of one person, and starts PENDING with nothing
    settled. *)
Theorem create_equal_splits_debts :
  forall (self : SharedExpense.t) (members : list User) (db : DB.t),
    members <> [] ->
    NoDup members ->
    (forall m, In m members ->
               split_exists (SharedExpense.id self) m db = false) ->
    debts_below db ->
    exists amount_per_person db' new,
      Decimal.div (Decimal.of_cents (SharedExpense.amount self))
                  (Decimal.of_int (Z.of_nat (length members)))
      = Some amount_per_person
      /\ create_equal_splits self (Some members) db = Returned db'
      /\ DB.debts db' = DB.debts db ++ new
      /\ map debt_summary new
         = map (fun m => (SharedExpense.paid_by self, m,
                          Decimal.quantize_cents amount_per_person))
               (List.filter (fun m => negb (m =? SharedExpense.paid_by self))
                            members)
      /\ Forall (fun d => Debt.status d = PENDING
                          /\ Debt.settled_amount d = 0) new.
Proof.
  intros self members db Hne Hnd Hnew Hbelow.
  destruct (amount_per_person_defined (SharedExpense.amount self) members Hne)
    as [q Hq].
  assert (Hfst : map fst (map (fun m : Z => (m, q)) members) = members).
  { rewrite map_map. cbn. apply map_id. }
  destruct (create_splits_effect self (map (fun m => (m, q)) members) db)
    as (db' & created & new & Hrun & _ & _ & _ & _ & Hde & Hsum & Hst & _);
    [now rewrite Hfst | now rewrite Hfst | exact Hbelow |].
  exists q, db', new. split; [exact Hq|].
  split; [now rewrite (create_equal_splits_loop self members db q Hne Hq)|].
  split; [exact Hde|]. split; [|exact Hst].
  rewrite Hsum. clear. induction members as [|m rest IH]; [reflexivity|].
  cbn [map List.filter fst snd].
  destruct (negb (m =? SharedExpense.paid_by self)); cbn [map fst snd];
    now rewrite IH.
Qed.

Lemma create_equal_splits_debts_witness :
  exists amount_per_person db' new,
    Decimal.div (Decimal.of_cents (SharedExpense.amount shared_dinner))
                (Decimal.of_int (Z.of_nat (length [1; 2; 3])))
    = Some amount_per_person
    /\ create_equal_splits shared_dinner (Some [1; 2; 3]) db_dinner
       = Returned db'
    /\ DB.debts db' = DB.debts db_dinner ++ new
    /\ map debt_summary new
       = map (fun m => (SharedExpense.paid_by shared_dinner, m,
                        Decimal.quantize_cents amount_per_person))
             (List.filter
                (fun m => negb (m =? SharedExpense.paid_by shared_dinner))
                [1; 2; 3])
    /\ Forall (fun d => Debt.status d = PENDING
                        /\ Debt.settled_amount d = 0) new.
Proof.
  apply (create_equal_splits_debts shared_dinner [1; 2; 3] db_dinner).
  - discriminate.
  - apply NoDup_cons; [intros [H|[H|[]]]; discriminate|].
    apply NoDup_cons; [intros [H|[]]; discriminate|].
    apply NoDup_cons; [intros []|apply NoDup_nil].
  - intros m _. reflexivity.
  - constructor.
Defined.

(** [create_custom_splits] stores the amounts it is given, unchanged and in
    order, and brings one debt of the given amount for every participant
    other than the payer.  Nothing compares the amounts with the amount of
    the expense: the splits sum to whatever the data sums to. *)
Theorem create_custom_splits_as_given :
  forall (self : SharedExpense.t) (split_data : list (User * cents))
         (db : DB.t),
    NoDup (map fst split_data) ->
    (forall m, In m (map fst split_data) ->
               split_exists (SharedExpense.id self) m db = false) ->
    debts_below db ->
    exists db' created new,
      create_custom_splits self split_data db = Returned db'
      /\ DB.splits db' = DB.splits db ++ created
      /\ map (fun s => (SharedExpenseSplit.user s, SharedExpenseSplit.amount s))
             created = split_data
      /\ sum_cents (map SharedExpenseSplit.amount created)
         = sum_cents (map snd split_data)
      /\ DB.debts db' = DB.debts db ++ new
      /\ map debt_summary new
         = map (fun x => (SharedExpense.paid_by self, fst x, snd x))
               (List.filter
                  (fun x => negb (fst x =? SharedExpense.paid_by self))
                  split_data).
Proof.
  intros self split_data db Hnd Hnew Hbelow.
  set (items := map (fun d : Z * Z => (fst d, Decimal.of_cents (snd d)))
                    split_data).
  assert (Hfst : map fst items = map fst split_data).
  { unfold items. rewrite map_map. reflexivity. }
  destruct (create_splits_effect self items db)
    as (db' & created & new & Hrun & Hsp & Hus & Ham & _ & Hde & Hsum & _);
    [now rewrite Hfst | now rewrite Hfst | exact Hbelow |].
  assert (Hamounts : map SharedExpenseSplit.amount created
                     = map snd split_data).
  { rewrite Ham. unfold items. rewrite map_map. cbn.
    apply map_ext. intros d. apply quantize_cents_of_cents. }
  exists db', created, new.
  split.
  { unfold create_custom_splits. rewrite <- Hrun. unfold items.
    now rewrite for_each_map. }
  split; [exact Hsp|].
  split.
  { rewrite Hfst in Hus. clear -Hus Hamounts. revert created Hus Hamounts.
    induction split_data as [|[u c] rest IH]; intros [|s created] Hus Ham;
      try discriminate; [reflexivity|].
    cbn in *. injection Hus as Hu Hus. injection Ham as Ha Ham.
    now rewrite Hu, Ha, (IH created Hus Ham). }
  split; [now rewrite Hamounts|].
  split; [exact Hde|].
  rewrite Hsum. unfold items. clear.
  induction split_data as [|[u c] rest IH]; [reflexivity|].
  cbn [map List.filter fst snd].
  destruct (negb (u =? SharedExpense.paid_by self)); cbn [map fst snd];
    now rewrite IH, ?quantize_cents_of_cents.
Qed.

Lemma create_custom_splits_as_given_witness :
  exists db' created new,
    create_custom_splits shared_dinner [(1, 2000); (2, 3000); (3, 1500)]
      db_dinner = Returned db'
    /\ DB.splits db' = DB.splits db_dinner ++ created
    /\ map (fun s => (SharedExpenseSplit.user s, SharedExpenseSplit.amount s))
           created = [(1, 2000); (2, 3000); (3, 1500)]
    /\ sum_cents (map SharedExpenseSplit.amount created)
       = sum_cents (map snd [(1, 2000); (2, 3000); (3, 1500)])
    /\ DB.debts db' = DB.debts db_dinner ++ new
    /\ map debt_summary new
       = map (fun x => (SharedExpense.paid_by shared_dinner, fst x, snd x))
             (List.filter
                (fun x => negb (fst x =? SharedExpense.paid_by shared_dinner))
                [(1, 2000); (2, 3000); (3, 1500)]).
Proof.
  apply (create_custom_splits_as_given shared_dinner
           [(1, 2000); (2, 3000); (3, 1500)] db_dinner).
  - apply NoDup_cons; [intros [H|[H|[]]]; discriminate|].
    apply NoDup_cons; [intros [H|[]]; discriminate|].
    apply NoDup_cons; [intros []|apply NoDup_nil].
  - intros m _. reflexivity.
  - constructor.
Defined.

(** The custom splits of the dinner of 100.00 above sum to 65.00. *)
Example custom_splits_need_not_sum :
  sum_cents (map snd [(1, 2000); (2, 3000); (3, 1500)]) = 6500
  /\ SharedExpense.amount shared_dinner = 10000.
Proof. split; reflexivity. Qed.

(** A participant who has a split already stops the loop with
    [IntegrityError]. *)
Lemma create_splits_conflict (self : SharedExpense.t)
  (items : list (User * Decimal.t)) :
  forall db : DB.t,
    debts_below db ->
    (exists m, In m (map fst items)
               /\ split_exists (SharedExpense.id self) m db = true) ->
    for_each (fun x => SharedExpenseSplit_create self (fst x) (snd x))
             items db = Raised IntegrityError.
Proof.
  induction items as [|[m0 q] rest IH]; intros db Hbelow (m & Hin & Hm).
  - destruct Hin.
  - cbn [for_each fst snd].
    destruct (split_exists (SharedExpense.id self) m0 db) eqn:E0.
    + unfold SharedExpenseSplit_create. now rewrite E0.
    + destruct (SharedExpenseSplit_create_effect self m0 q db E0 Hbelow)
        as (db1 & new1 & Hcall & Hsp1 & _ & _ & _ & Hbelow1).
      rewrite Hcall. cbn [mbind outcome_bind].
      apply IH; [exact Hbelow1|].
      exists m. split.
      * cbn [map fst] in Hin.
        destruct Hin as [<- | Hin]; [congruence | exact Hin].
      * rewrite (split_exists_app _ _ db db1 _ Hsp1), Hm. reflexivity.
Qed.

(** A participant listed twice stops it too. *)
Lemma create_splits_duplicate (self : SharedExpense.t)
  (items : list (User * Decimal.t)) :
  forall db : DB.t,
    debts_below db ->
    ~ NoDup (map fst items) ->
    for_each (fun x => SharedExpenseSplit_create self (fst x) (snd x))
             items db = Raised IntegrityError.
Proof.
  induction items as [|[m0 q] rest IH]; intros db Hbelow Hdup.
  - exfalso. apply Hdup. constructor.
  - cbn [for_each fst snd].
    destruct (split_exists (SharedExpense.id self) m0 db) eqn:E0.
    + unfold SharedExpenseSplit_create. now rewrite E0.
    + destruct (SharedExpenseSplit_create_effect self m0 q db E0 Hbelow)
        as (db1 & new1 & Hcall & Hsp1 & _ & _ & _ & Hbelow1).
      rewrite Hcall. cbn [mbind outcome_bind].
      destruct (in_dec Z.eq_dec m0 (map fst rest)) as [Hin | Hnotin].
      * apply create_splits_conflict; [exact Hbelow1|].
        exists m0. split; [exact Hin|].
        rewrite (split_exists_app _ _ db db1 _ Hsp1). cbn.
        rewrite !Z.eqb_refl. now rewrite orb_true_r.
      * apply IH; [exact Hbelow1|].
        intros Hnd. apply Hdup. cbn [map fst]. now constructor.
Qed.

(** [create_equal_splits] raises [IntegrityError] as soon as one of the
    members already has a split of the shared expense, or is listed twice
    (the pair of shared expense and user is unique). *)
Theorem create_equal_splits_conflict :
  forall (self : SharedExpense.t) (members : list User) (db : DB.t),
    debts_below db ->
    (exists m, In m members
               /\ split_exists (SharedExpense.id self) m db = true)
    \/ ~ NoDup members ->
    create_equal_splits self (Some members) db = Raised IntegrityError.
Proof.
  intros self members db Hbelow H.
  assert (Hne : members <> []).
  { destruct H as [(m & Hin & _) | Hdup]; intros ->;
      [destruct Hin | apply Hdup; constructor]. }
  destruct (amount_per_person_defined (SharedExpense.amount self) members Hne)
    as [q Hq].
  rewrite (create_equal_splits_loop self members db q Hne Hq).
  assert (Hfst : map fst (map (fun m : Z => (m, q)) members) = members).
  { rewrite map_map. cbn. apply map_id. }
  destruct H as [H | Hdup].
  - apply create_splits_conflict; [exact Hbelow | now rewrite Hfst].
  - apply create_splits_duplicate; [exact Hbelow | now rewrite Hfst].
Qed.

Lemma create_equal_splits_conflict_witness :
  create_equal_splits shared_dinner (Some [2; 3; 2]) db_dinner
  = Raised IntegrityError.
Proof.
  apply (create_equal_splits_conflict shared_dinner [2; 3; 2] db_dinner).
  - constructor.
  - right. intros H. apply NoDup_cons_iff in H as [H _].
    apply H. right. now left.
Defined.

(** So the equal split cannot be made twice: after a successful call, a
    second call for the same members raises [IntegrityError]. *)
Theorem create_equal_splits_twice :
  forall (self : SharedExpense.t) (members : list User) (db : DB.t),
    members <> [] ->
    NoDup members ->
    (forall m, In m members ->
               split_exists (SharedExpense.id self) m db = false) ->
    debts_below db ->
    exists db',
      create_equal_splits self (Some members) db = Returned db'
      /\ create_equal_splits self (Some members) db'
         = Raised IntegrityError.
Proof.
  intros self members db Hne Hnd Hnew Hbelow.
  destruct (amount_per_person_defined (SharedExpense.amount self) members Hne)
    as [q Hq].
  assert (Hfst : map fst (map (fun m : Z => (m, q)) members) = members).
  { rewrite map_map. cbn. apply map_id. }
  destruct (create_splits_effect self (map (fun m => (m, q)) members) db)
    as (db' & created & new & Hrun & Hsp & Hus & _ & Hcr & _ & _ & _ & Hbelow');
    [now rewrite Hfst | now rewrite Hfst | exact Hbelow |].
  exists db'.
  split; [now rewrite (create_equal_splits_loop self members db q Hne Hq)|].
  rewrite (create_equal_splits_loop self members db' q Hne Hq).
  apply create_splits_conflict; [exact Hbelow'|].
  destruct members as [|m rest]; [contradiction|].
  exists m. split; [rewrite Hfst; now left|].
  rewrite (split_exists_app _ _ db db' _ Hsp).
  rewrite Hfst in Hus.
  destruct created as [|s created]; [discriminate|].
  cbn in Hus. injection Hus as Hu _.
  apply Forall_cons_iff in Hcr as [[_ Hse] _].
  cbn [existsb]. rewrite Hse, Hu, !Z.eqb_refl. cbn. now rewrite orb_true_r.
Qed.

Lemma create_equal_splits_twice_witness :
  exists db',
    create_equal_splits shared_dinner (Some [1; 2; 3]) db_dinner
    = Returned db'
    /\ create_equal_splits shared_dinner (Some [1; 2; 3]) db'
       = Raised IntegrityError.
Proof.
  apply (create_equal_splits_twice shared_dinner [1; 2; 3] db_dinner).
  - discriminate.
  - apply NoDup_cons; [intros [H|[H|[]]]; discriminate|].
    apply NoDup_cons; [intros [H|[]]; discriminate|].
    apply NoDup_cons; [intros []|apply NoDup_nil].
  - intros m _. reflexivity.
  - constructor.
Defined.

(** A shared expense without splits counts as fully settled (the [all] of
    nothing); right after its equal split among at least one member it does
    not. *)
Theorem is_fully_settled_after_split :
  forall (self : SharedExpense.t) (members : list User) (db : DB.t),
    members <> [] ->
    NoDup members ->
    List.filter
      (fun s => SharedExpense.id (SharedExpenseSplit.shared_expense s)
                =? SharedExpense.id self)
      (DB.splits db) = [] ->
    debts_below db ->
    is_fully_settled self db = true
    /\ exists db',
         create_equal_splits self (Some members) db = Returned db'
         /\ is_fully_settled self db' = false.
Proof.
  intros self members db Hne Hnd Hnone Hbelow.
  split; [unfold is_fully_settled; now rewrite Hnone|].
  assert (Hnew : forall m, split_exists (SharedExpense.id self) m db = false).
  { intros m. unfold split_exists.
    apply not_true_is_false. intros H. apply existsb_exists in H
      as (s & Hin & Hs). apply andb_prop in Hs as [Hs _].
    assert (Hf : In s (List.filter
                         (fun s => SharedExpense.id
                                     (SharedExpenseSplit.shared_expense s)
                                   =? SharedExpense.id self)
                         (DB.splits db)))
      by (apply List.filter_In; now split).
    rewrite Hnone in Hf. destruct Hf. }
  destruct (amount_per_person_defined (SharedExpense.amount self) members Hne)
    as [q Hq].
  assert (Hfst : map fst (map (fun m : Z => (m, q)) members) = members).
  { rewrite map_map. cbn. apply map_id. }
  destruct (create_splits_effect self (map (fun m => (m, q)) members) db)
    as (db' & created & new & Hrun & Hsp & Hus & _ & Hcr & _);
    [now rewrite Hfst | intros m _; apply Hnew | exact Hbelow |].
  exists db'.
  split; [now rewrite (create_equal_splits_loop self members db q Hne Hq)|].
  unfold is_fully_settled. rewrite Hsp, List.filter_app, Hnone. cbn [app].
  rewrite Hfst in Hus.
  destruct created as [|s created];
    [destruct members; [contradiction | discriminate]|].
  apply Forall_cons_iff in Hcr as [[Hset Hse] _].
  cbn [List.filter]. rewrite Hse, Z.eqb_refl. cbn [forallb].
  now rewrite Hset.
Qed.

Lemma is_fully_settled_after_split_witness :
  is_fully_settled shared_dinner db_dinner = true
  /\ exists db',
       create_equal_splits shared_dinner (Some [1; 2; 3]) db_dinner
       = Returned db'
       /\ is_fully_settled shared_dinner db' = false.
Proof.
  apply (is_fully_settled_after_split shared_dinner [1; 2; 3] db_dinner).
  - discriminate.
  - apply NoDup_cons; [intros [H|[H|[]]]; discriminate|].
    apply NoDup_cons; [intros [H|[]]; discriminate|].
    apply NoDup_cons; [intros []|apply NoDup_nil].
  - reflexivity.
  - constructor.
Defined.

(** ** Budgets *)

(** Below 80 nothing happens. *)
Lemma check_thresholds_below (email : bool) (u : Decimal.t) (b : Budget.t) :
  Decimal.leb (Decimal.of_int 80) u = false ->
  Decimal.leb (Decimal.of_int 100) u = false ->
  Budget.check_thresholds email u b = (b, []).
Proof.
  intros H80 H100. unfold Budget.check_thresholds.
  rewrite H80, H100, !andb_false_r. cbn. now rewrite ?andb_false_r.
Qed.

(** From 100 on, the second check alone can fire. *)
Lemma check_thresholds_from_100 (email : bool) (u : Decimal.t)
  (b : Budget.t) :
  Decimal.leb (Decimal.of_int 100) u = true ->
  Budget.alert_threshold_100 b = true ->
  Budget.alerted_at_100 b = false ->
  Budget.check_thresholds email u b
  = (Budget.set_status (Budget.set_alerted_at_100 b true) EXCEEDED,
     [Budget.send_alert_100 email b]).
Proof.
  intros Hge H100 Ha100. unfold Budget.check_thresholds.
  rewrite Decimal_ltb_leb, Hge. cbn [negb]. rewrite andb_false_r.
  cbn [fst snd]. rewrite H100, Ha100. reflexivity.
Qed.

(** Zero divided by a decimal that is not zero. *)
Lemma div_zero (e : Z) (b : Decimal.t) :
  Decimal.coeff b <> 0 ->
  Decimal.div (Decimal.mk 0 e) b = Some (Decimal.mk 0 (e - Decimal.dexp b)).
Proof.
  intros Hb. unfold Decimal.div.
  replace (Decimal.coeff b =? 0) with false by lia.
  cbn [Decimal.coeff Decimal.dexp]. change (Z.abs 0) with 0.
  unfold Decimal.div_abs. cbn [Z.eqb fst snd Z.sgn].
  now rewrite Z.mul_0_r.
Qed.

(** With no expense that counts, or with an amount that is not positive,
    the utilization is zero: an evaluation creates no alert and changes
    nothing, whatever the flags are. *)
Theorem check_and_send_alerts_nothing_spent :
  forall (email : bool) (expenses : list Expense.t) (b : Budget.t),
    List.filter (Budget.counted b) expenses = [] \/ Budget.amount b <= 0 ->
    Budget.check_and_send_alerts email expenses b = Returned (b, []).
Proof.
  intros email expenses b H.
  unfold Budget.check_and_send_alerts, Budget.utilization_percentage.
  destruct (0 <? Budget.amount b) eqn:Epos.
  - destruct H as [H | H]; [|lia].
    apply Z.ltb_lt in Epos.
    unfold Budget.spent_amount. rewrite H.
    unfold Decimal.of_int at 1. rewrite div_zero by (cbn; lia).
    cbn [mbind outcome_bind Decimal.dexp Decimal.of_cents].
    now rewrite check_thresholds_below by reflexivity.
  - cbn [mbind outcome_bind].
    now rewrite check_thresholds_below by reflexivity.
Qed.

Lemma check_and_send_alerts_nothing_spent_witness :
  Budget.check_and_send_alerts false [dinner] budget_500
  = Returned (budget_500, []).
Proof.
  apply (check_and_send_alerts_nothing_spent false [dinner] budget_500).
  left. reflexivity.
Defined.

(** The quotient of a positive coefficient by itself is the decimal 1. *)
Lemma div_abs_same (c e : Z) : 0 < c -> Decimal.div_abs c e c e = (1, 0).
Proof.
  intros Hc. unfold Decimal.div_abs.
  replace (c =? 0) with false by lia.
  rewrite !Z.sub_diag.
  change (0 + Decimal.prec + 1) with 29.
  change (0 <=? 29) with true. cbv iota.
  rewrite (Z.mul_comm c), Z.mod_mul, Z.div_mul by lia.
  vm_compute. reflexivity.
Qed.

(** Spending that equals the amount of the budget exactly is a utilization
    of 100: the evaluation (threshold enabled, no alert sent yet) creates
    the EXCEEDED alert and marks the budget EXCEEDED, although
    [is_over_budget], which asks for more than the amount, is false. *)
Theorem check_and_send_alerts_at_the_amount :
  forall (email : bool) (expenses : list Expense.t) (b : Budget.t),
    0 < Budget.amount b ->
    Budget.spent_amount expenses b = Decimal.of_cents (Budget.amount b) ->
    Budget.alert_threshold_100 b = true ->
    Budget.alerted_at_100 b = false ->
    Budget.check_and_send_alerts email expenses b
    = Returned (Budget.set_status (Budget.set_alerted_at_100 b true) EXCEEDED,
                [Budget.send_alert_100 email b])
    /\ is_over_budget expenses b = false.
Proof.
  intros email expenses b Hpos Hspent H100 Ha100.
  split.
  - unfold Budget.check_and_send_alerts, Budget.utilization_percentage.
    replace (0 <? Budget.amount b) with true by lia.
    rewrite Hspent. unfold Decimal.div.
    cbn [Decimal.coeff Decimal.dexp Decimal.of_cents].
    replace (Budget.amount b =? 0) with false by lia.
    rewrite Z.abs_eq, div_abs_same, Z.sgn_pos by lia.
    cbn [mbind outcome_bind fst snd].
    now rewrite check_thresholds_from_100 by (assumption || reflexivity).
  - unfold is_over_budget. rewrite Hspent.
    unfold Decimal.ltb, Decimal.aligned. cbn. apply Z.ltb_irrefl.
Qed.

Lemma check_and_send_alerts_at_the_amount_witness :
  Budget.check_and_send_alerts false
    [expense_300; expense_160;
     Expense.mk 53 10 3 4000 "tea" 8 TX_COMPLETED false] budget_500
  = Returned (Budget.set_status (Budget.set_alerted_at_100 budget_500 true)
                EXCEEDED,
              [Budget.send_alert_100 false budget_500])
  /\ is_over_budget
       [expense_300; expense_160;
        Expense.mk 53 10 3 4000 "tea" 8 TX_COMPLETED false] budget_500
     = false.
Proof.
  apply (check_and_send_alerts_at_the_amount false
           [expense_300; expense_160;
            Expense.mk 53 10 3 4000 "tea" 8 TX_COMPLETED false] budget_500);
    reflexivity.
Defined.

(** The flags and the status do not enter the utilization. *)
Lemma check_thresholds_same_utilization (email : bool) (u : Decimal.t)
  (expenses : list Expense.t) (b : Budget.t) :
  Budget.utilization_percentage expenses
    (fst (Budget.check_thresholds email u b))
  = Budget.utilization_percentage expenses b.
Proof.
  unfold Budget.check_thresholds.
  destruct (_ && _ && Decimal.leb (Decimal.of_int 80) u && _); cbn [fst snd];
    destruct (_ && _ && Decimal.leb (Decimal.of_int 100) u); reflexivity.
Qed.

(** A second look at the same utilization finds nothing left to do. *)
Lemma check_thresholds_settles (email : bool) (u : Decimal.t) (b : Budget.t) :
  Budget.check_thresholds email u (fst (Budget.check_thresholds email u b))
  = (fst (Budget.check_thresholds email u b), []).
Proof.
  unfold Budget.check_thresholds.
  destruct (Budget.alert_threshold_80 b) eqn:T80,
    (Budget.alerted_at_80 b) eqn:E80,
    (Decimal.leb (Decimal.of_int 80) u),
    (Decimal.ltb u (Decimal.of_int 100)),
    (Budget.alert_threshold_100 b) eqn:T100,
    (Budget.alerted_at_100 b) eqn:E100,
    (Decimal.leb (Decimal.of_int 100) u);
    repeat (progress (cbn; rewrite ?T80, ?E80, ?T100, ?E100));
    reflexivity.
Qed.

(** Evaluating a budget twice against the same expenses: whatever the first
    evaluation did, the second creates no alert and leaves the budget as the
    first left it. *)
Theorem check_and_send_alerts_again :
  forall (email : bool) (expenses : list Expense.t) (b : Budget.t),
  exists b' alerts,
    Budget.check_and_send_alerts email expenses b = Returned (b', alerts)
    /\ Budget.check_and_send_alerts email expenses b' = Returned (b', []).
Proof.
  intros email expenses b.
  destruct (utilization_percentage_returns expenses b) as [u Hu].
  exists (fst (Budget.check_thresholds email u b)),
         (snd (Budget.check_thresholds email u b)).
  unfold Budget.check_and_send_alerts.
  rewrite check_thresholds_same_utilization, Hu. cbn [mbind outcome_bind].
  split; [now destruct (Budget.check_thresholds email u b)|].
  now rewrite check_thresholds_settles.
Qed.

Lemma check_and_send_alerts_again_witness :
  exists b' alerts,
    Budget.check_and_send_alerts false [expense_300; expense_160] budget_500
    = Returned (b', alerts)
    /\ Budget.check_and_send_alerts false [expense_300; expense_160] b'
       = Returned (b', []).
Proof.
  apply (check_and_send_alerts_again false [expense_300; expense_160]
           budget_500).
Defined.

(** [reset_alerts] arms the alerts again and does not touch the status: an
    evaluation after it, at a utilization of at least 100 and with the
    threshold enabled, creates the EXCEEDED alert anew, also for a budget
    already marked EXCEEDED. *)
Theorem reset_alerts_rearms :
  forall (email : bool) (expenses : list Expense.t) (b : Budget.t)
         (u : Decimal.t),
    Budget.alert_threshold_100 b = true ->
    Budget.utilization_percentage expenses b = Returned u ->
    Decimal.leb (Decimal.of_int 100) u = true ->
    Budget.status (Budget.reset_alerts b) = Budget.status b
    /\ Budget.check_and_send_alerts email expenses (Budget.reset_alerts b)
       = Returned
           (Budget.set_status
              (Budget.set_alerted_at_100 (Budget.reset_alerts b) true)
              EXCEEDED,
            [Budget.send_alert_100 email b]).
Proof.
  intros email expenses b u H100 Hu Hge.
  split; [reflexivity|].
  unfold Budget.check_and_send_alerts.
  change (Budget.utilization_percentage expenses (Budget.reset_alerts b))
    with (Budget.utilization_percentage expenses b).
  rewrite Hu. cbn [mbind outcome_bind].
  rewrite check_thresholds_from_100; [reflexivity | exact Hge | exact H100 |].
  reflexivity.
Qed.

Lemma reset_alerts_rearms_witness :
  Budget.status
    (Budget.reset_alerts
       (Budget.set_status (Budget.set_alerted_at_100 budget_500 true)
          EXCEEDED))
  = EXCEEDED
  /\ Budget.check_and_send_alerts false [expense_300; expense_320]
       (Budget.reset_alerts
          (Budget.set_status (Budget.set_alerted_at_100 budget_500 true)
             EXCEEDED))
     = Returned
         (Budget.set_status
            (Budget.set_alerted_at_100
               (Budget.reset_alerts
                  (Budget.set_status
                     (Budget.set_alerted_at_100 budget_500 true) EXCEEDED))
               true)
            EXCEEDED,
          [Budget.send_alert_100 false
             (Budget.set_status (Budget.set_alerted_at_100 budget_500 true)
                EXCEEDED)]).
Proof.
  apply (reset_alerts_rearms false [expense_300; expense_320]
           (Budget.set_status (Budget.set_alerted_at_100 budget_500 true)
              EXCEEDED)
           (Decimal.mk 12400 (-2))); reflexivity.
Defined.

(** ** The signal on saved expenses *)

Lemma check_and_send_alerts_same_budget (email : bool)
  (expenses : list Expense.t) (b : Budget.t) :
  exists b' alerts,
    Budget.check_and_send_alerts email expenses b = Returned (b', alerts)
    /\ Budget.id b' = Budget.id b
    /\ Forall (fun a => BudgetAlert.budget a = Budget.id b) alerts.
Proof.
  unfold Budget.check_and_send_alerts.
  destruct (utilization_percentage_returns expenses b) as [u ->].
  cbn [mbind outcome_bind].
  exists (fst (Budget.check_thresholds email u b)),
         (snd (Budget.check_thresholds email u b)).
  split; [now destruct (Budget.check_thresholds email u b)|].
  unfold Budget.check_thresholds.
  destruct (_ && _ && Decimal.leb (Decimal.of_int 80) u && _); cbn [fst snd];
    destruct (_ && _ && Decimal.leb (Decimal.of_int 100) u); cbn [fst snd];
    split; try reflexivity; repeat constructor.
Qed.

Lemma save_budget_keeps (b : Budget.t) (r : BudgetRow.t)
  (table : list BudgetRow.t) :
  Budget.id (BudgetRow.budget r) <> Budget.id b ->
  In r table -> In r (save_budget b table).
Proof.
  intros Hid Hin. unfold save_budget. apply in_map_iff.
  exists r. split; [|exact Hin].
  destruct (Budget.id (BudgetRow.budget r) =? Budget.id b) eqn:E;
    [apply Z.eqb_eq in E; contradiction | reflexivity].
Qed.

Lemma signal_loop_keeps (email : bool) (expenses : list Expense.t)
  (r : BudgetRow.t) (rows : list BudgetRow.t) :
  forall st : list BudgetRow.t * list BudgetAlert.t,
    Forall (fun row => Budget.id (BudgetRow.budget row)
                       <> Budget.id (BudgetRow.budget r)) rows ->
    In r (fst st) ->
    exists st',
      for_each
        (fun (row : BudgetRow.t)
             (st : list BudgetRow.t * list BudgetAlert.t) =>
           r ← Budget.check_and_send_alerts email expenses
                 (BudgetRow.budget row);
           Returned (save_budget (fst r) (fst st), snd st ++ snd r))
        rows st = Returned st'
      /\ In r (fst st')
      /\ List.filter
           (fun a => BudgetAlert.budget a =? Budget.id (BudgetRow.budget r))
           (snd st')
         = List.filter
             (fun a => BudgetAlert.budget a =? Budget.id (BudgetRow.budget r))
             (snd st).
Proof.
  induction rows as [|row rows IH]; intros st Hids Hin.
  - exists st. repeat split. exact Hin.
  - apply Forall_cons_iff in Hids as [Hid Hids].
    destruct (check_and_send_alerts_same_budget email expenses
                (BudgetRow.budget row)) as (b' & alerts & Hcall & Hb' & Hal).
    destruct (IH (save_budget b' (fst st), snd st ++ alerts) Hids)
      as (st' & Hrun & Hin' & Hfil).
    + cbn [fst]. apply save_budget_keeps; [congruence | exact Hin].
    + exists st'. cbn [for_each]. rewrite Hcall. cbn [mbind outcome_bind fst snd].
      split; [exact Hrun|]. split; [exact Hin'|].
      rewrite Hfil. cbn [snd]. rewrite List.filter_app.
      replace (List.filter _ alerts) with (@nil BudgetAlert.t);
        [apply app_nil_r|].
      symmetry. clear -Hal Hid. induction Hal as [|a l Ha _ IHl];
        [reflexivity|].
      cbn [List.filter]. rewrite Ha.
      destruct (_ =? _) eqn:E; [apply Z.eqb_eq in E; contradiction|exact IHl].
Qed.

(** The receiver evaluates ACTIVE budgets only.  A budget that is not
    ACTIVE - one that an earlier evaluation marked EXCEEDED, say, with or
    without a [reset_alerts] since - is left as it is when an expense is
    saved, and no alert is created for it, however much is spent. *)
Theorem check_budget_on_expense_skips :
  forall (email : bool) (instance : Expense.t) (expenses : list Expense.t)
         (table : list BudgetRow.t) (alerts : list BudgetAlert.t)
         (r : BudgetRow.t),
    NoDup (map (fun row => Budget.id (BudgetRow.budget row)) table) ->
    In r table ->
    Budget.status (BudgetRow.budget r) <> ACTIVE ->
    exists table' alerts',
      check_budget_on_expense email instance expenses (table, alerts)
      = Returned (table', alerts')
      /\ In r table'
      /\ List.filter
           (fun a => BudgetAlert.budget a =? Budget.id (BudgetRow.budget r))
           alerts'
         = List.filter
             (fun a => BudgetAlert.budget a =? Budget.id (BudgetRow.budget r))
             alerts.
Proof.
  intros email instance expenses table alerts r Hnd Hin Hst.
  unfold check_budget_on_expense.
  destruct (_ && _).
  - destruct (signal_loop_keeps email expenses r
                (List.filter (affected instance) (fst (table, alerts)))
                (table, alerts)) as ([table' alerts'] & Hrun & Hin' & Hfil);
      [|exact Hin|].
    + apply Forall_forall. intros row Hrow Hid. cbn [fst] in Hrow.
      apply List.filter_In in Hrow as [Hrow Haff].
      assert (row = r)
        by (apply (NoDup_map_inj _ table row r Hnd Hrow Hin Hid)).
      subst row. unfold affected in Haff.
      destruct (Budget.status (BudgetRow.budget r)); try contradiction;
        cbn in Haff; rewrite ?andb_false_r in Haff; discriminate.
    + exists table', alerts'. repeat split; assumption.
  - exists table, alerts. repeat split. exact Hin.
Qed.

Lemma check_budget_on_expense_skips_witness :
  exists table' alerts',
    check_budget_on_expense false expense_320 [expense_300; expense_320]
      ([BudgetRow.mk budget_500 false;
        BudgetRow.mk
          (Budget.mk 2 10 3 "Old" 1000 0 30 EXCEEDED true true false false)
          false], [])
    = Returned (table', alerts')
    /\ In (BudgetRow.mk
             (Budget.mk 2 10 3 "Old" 1000 0 30 EXCEEDED true true false false)
             false) table'
    /\ List.filter (fun a => BudgetAlert.budget a =? 2) alerts'
       = List.filter (fun a => BudgetAlert.budget a =? 2) [].
Proof.
  apply (check_budget_on_expense_skips false expense_320
           [expense_300; expense_320]
           [BudgetRow.mk budget_500 false;
            BudgetRow.mk
              (Budget.mk 2 10 3 "Old" 1000 0 30 EXCEEDED true true false
                 false) false]
           []
           (BudgetRow.mk
              (Budget.mk 2 10 3 "Old" 1000 0 30 EXCEEDED true true false
                 false) false)).
  - cbn. apply NoDup_cons; [intros [H|[]]; discriminate|].
    apply NoDup_cons; [intros []|apply NoDup_nil].
  - right. left. reflexivity.
  - discriminate.
Defined.

(** The same signal on the ACTIVE budget of 500.00 when spending reaches
    620.00: the row becomes EXCEEDED with one alert; a further expense then
    changes nothing. *)
Example signal_scenario :
  check_budget_on_expense false expense_320 [expense_300; expense_320]
    ([BudgetRow.mk budget_500 false], [])
  = Returned
      ([BudgetRow.mk
          (Budget.mk 1 10 3 "Groceries" 50000 0 30 EXCEEDED true true false
             true) false],
       [BudgetAlert.mk 1 10 ALERT_EXCEEDED "Budget exceeded for Groceries!"
          false false])
  /\ check_budget_on_expense false expense_160
       [expense_300; expense_320; expense_160]
       ([BudgetRow.mk
           (Budget.mk 1 10 3 "Groceries" 50000 0 30 EXCEEDED true true false
              true) false],
        [BudgetAlert.mk 1 10 ALERT_EXCEEDED "Budget exceeded for Groceries!"
           false false])
     = Returned
         ([BudgetRow.mk
             (Budget.mk 1 10 3 "Groceries" 50000 0 30 EXCEEDED true true
                false true) false],
          [BudgetAlert.mk 1 10 ALERT_EXCEEDED
             "Budget exceeded for Groceries!" false false]).
Proof. split; reflexivity. Qed.

(** ** Managers and notifications *)

(** [for_period] selects the budgets whose period overlaps the one asked
    for: for periods that are not empty, a row is selected exactly when it
    is ACTIVE, not deleted, and some day lies in both periods. *)
Theorem for_period_overlap :
  forall (start_date end_date : date) (table : list BudgetRow.t)
         (r : BudgetRow.t),
    start_date <= end_date ->
    Budget.start_date (BudgetRow.budget r)
    <= Budget.end_date (BudgetRow.budget r) ->
    (In r (for_period start_date end_date table)
     <-> In r table
         /\ Budget.status (BudgetRow.budget r) = ACTIVE
         /\ BudgetRow.is_deleted r = false
         /\ exists day,
              start_date <= day <= end_date
              /\ Budget.start_date (BudgetRow.budget r) <= day
                 <= Budget.end_date (BudgetRow.budget r)).
Proof.
  intros s e table r Hse Hr. unfold for_period, active.
  rewrite !List.filter_In.
  split.
  - intros [[Hin Hact] Hov].
    apply andb_prop in Hact as [Hst Hdel].
    apply andb_prop in Hov as [H1 H2].
    apply Z.leb_le in H1, H2.
    split; [exact Hin|].
    split; [now destruct (Budget.status (BudgetRow.budget r))|].
    split; [now destruct (BudgetRow.is_deleted r)|].
    exists (Z.max s (Budget.start_date (BudgetRow.budget r))). lia.
  - intros (Hin & Hst & Hdel & day & Hd1 & Hd2).
    split; [split; [exact Hin | now rewrite Hst, Hdel]|].
    apply andb_true_intro. split; apply Z.leb_le; lia.
Qed.

Lemma for_period_overlap_witness :
  In (BudgetRow.mk budget_500 false)
     (for_period 30 45 [BudgetRow.mk budget_500 false])
  <-> In (BudgetRow.mk budget_500 false) [BudgetRow.mk budget_500 false]
      /\ Budget.status (BudgetRow.budget (BudgetRow.mk budget_500 false))
         = ACTIVE
      /\ BudgetRow.is_deleted (BudgetRow.mk budget_500 false) = false
      /\ exists day,
           30 <= day <= 45
           /\ Budget.start_date
                (BudgetRow.budget (BudgetRow.mk budget_500 false)) <= day
              <= Budget.end_date
                   (BudgetRow.budget (BudgetRow.mk budget_500 false)).
Proof.
  apply (for_period_overlap 30 45 [BudgetRow.mk budget_500 false]
           (BudgetRow.mk budget_500 false)); cbn; lia.
Defined.

(** Marking all of a user's alerts as read - no list of keys, or an empty
    one - leaves that user no unread alert, and leaves the unread alerts of
    every other user as they were. *)
Theorem mark_all_alerts_as_read :
  forall (user : User) (table : list (pk * BudgetAlert.t)),
    get_unread_alerts user (mark_alerts_as_read user None table) = []
    /\ mark_alerts_as_read user (Some []) table
       = mark_alerts_as_read user None table
    /\ forall other : User,
         other <> user ->
         get_unread_alerts other (mark_alerts_as_read user None table)
         = get_unread_alerts other table.
Proof.
  intros user table. split; [|split; [reflexivity|]].
  - unfold get_unread_alerts, mark_alerts_as_read.
    induction table as [|[k a] rest IH]; [reflexivity|].
    cbn [map List.filter fst snd]. rewrite andb_true_r.
    destruct (BudgetAlert.user a =? user) eqn:Eu,
             (BudgetAlert.is_read a) eqn:Er;
      cbn [negb andb snd fst mark_as_read BudgetAlert.user BudgetAlert.is_read];
      rewrite ?Eu, ?Er; cbn [negb andb]; exact IH.
  - intros other Hother.
    unfold get_unread_alerts, mark_alerts_as_read.
    induction table as [|[k a] rest IH]; [reflexivity|].
    cbn [map List.filter fst snd]. rewrite andb_true_r.
    destruct (BudgetAlert.user a =? user) eqn:Eu,
             (BudgetAlert.is_read a) eqn:Er;
      cbn [negb andb snd fst mark_as_read BudgetAlert.user BudgetAlert.is_read];
      rewrite ?Er; cbn [negb andb]; rewrite ?andb_false_r; rewrite ?IH;
      try reflexivity.
    apply Z.eqb_eq in Eu. rewrite Eu.
    replace (user =? other) with false
      by (symmetry; apply Z.eqb_neq; congruence).
    reflexivity.
Qed.

(** With keys given, the alerts of the user that stay unread are the unread
    ones whose key is not in the list; rows of other users with a listed
    key are not touched. *)
Theorem mark_listed_alerts_as_read :
  forall (user : User) (i : pk) (ids : list pk)
         (table : list (pk * BudgetAlert.t)),
    get_unread_alerts user
      (mark_alerts_as_read user (Some (i :: ids)) table)
    = List.filter
        (fun r => negb (existsb (fun j => j =? fst r) (i :: ids)))
        (get_unread_alerts user table)
    /\ forall other : User,
         other <> user ->
         get_unread_alerts other
           (mark_alerts_as_read user (Some (i :: ids)) table)
         = get_unread_alerts other table.
Proof.
  intros user i ids table. split.
  - unfold get_unread_alerts, mark_alerts_as_read.
    induction table as [|[k a] rest IH]; [reflexivity|].
    cbn [map List.filter fst snd].
    destruct (BudgetAlert.user a =? user) eqn:Eu,
             (BudgetAlert.is_read a) eqn:Er,
             (existsb (fun j => j =? k) (i :: ids)) eqn:Ein;
      cbn [negb andb snd fst mark_as_read BudgetAlert.user BudgetAlert.is_read
           List.filter];
      rewrite ?Eu, ?Er, ?Ein; cbn [negb andb List.filter fst];
      rewrite ?Ein; cbn [negb]; rewrite IH; reflexivity.
  - intros other Hother.
    unfold get_unread_alerts, mark_alerts_as_read.
    induction table as [|[k a] rest IH]; [reflexivity|].
    cbn [map List.filter fst snd].
    destruct (BudgetAlert.user a =? user) eqn:Eu,
             (BudgetAlert.is_read a) eqn:Er,
             (existsb (fun j => j =? k) (i :: ids)) eqn:Ein;
      cbn [negb andb snd fst mark_as_read BudgetAlert.user BudgetAlert.is_read];
      rewrite ?Er; cbn [negb andb]; rewrite ?andb_false_r; rewrite ?IH;
      try reflexivity.
    apply Z.eqb_eq in Eu. rewrite Eu.
    replace (user =? other) with false
      by (symmetry; apply Z.eqb_neq; congruence).
    reflexivity.
Qed.

Lemma mark_all_alerts_as_read_witness :
  get_unread_alerts 10
    (mark_alerts_as_read 10 None
       [(1, BudgetAlert.mk 1 10 ALERT_80_PERCENT "a" false false);
        (3, BudgetAlert.mk 9 11 ALERT_EXCEEDED "c" false false)]) = []
  /\ get_unread_alerts 11
       (mark_alerts_as_read 10 None
          [(1, BudgetAlert.mk 1 10 ALERT_80_PERCENT "a" false false);
           (3, BudgetAlert.mk 9 11 ALERT_EXCEEDED "c" false false)])
     = get_unread_alerts 11
         [(1, BudgetAlert.mk 1 10 ALERT_80_PERCENT "a" false false);
          (3, BudgetAlert.mk 9 11 ALERT_EXCEEDED "c" false false)].
Proof.
  destruct (mark_all_alerts_as_read 10
              [(1, BudgetAlert.mk 1 10 ALERT_80_PERCENT "a" false false);
               (3, BudgetAlert.mk 9 11 ALERT_EXCEEDED "c" false false)])
    as (H1 & _ & H3).
  split; [exact H1 | apply H3; discriminate].
Defined.

Lemma mark_listed_alerts_as_read_witness :
  get_unread_alerts 11
    (mark_alerts_as_read 10 (Some [3; 1])
       [(1, BudgetAlert.mk 1 10 ALERT_80_PERCENT "a" false false);
        (3, BudgetAlert.mk 9 11 ALERT_EXCEEDED "c" false false)])
  = get_unread_alerts 11
      [(1, BudgetAlert.mk 1 10 ALERT_80_PERCENT "a" false false);
       (3, BudgetAlert.mk 9 11 ALERT_EXCEEDED "c" false false)].
Proof.
  apply (proj2 (mark_listed_alerts_as_read 10 3 [1]
                  [(1, BudgetAlert.mk 1 10 ALERT_80_PERCENT "a" false false);
                   (3, BudgetAlert.mk 9 11 ALERT_EXCEEDED "c" false false)])).
  discriminate.
Defined.

Example mark_alerts_scenario :
  let table :=
    [(1, BudgetAlert.mk 1 10 ALERT_80_PERCENT "a" false false);
     (2, BudgetAlert.mk 1 10 ALERT_EXCEEDED "b" false false);
     (3, BudgetAlert.mk 9 11 ALERT_EXCEEDED "c" false false)] in
  map fst (get_unread_alerts 10 (mark_alerts_as_read 10 (Some [2; 3]) table))
  = [1]
  /\ map fst (get_unread_alerts 11
                (mark_alerts_as_read 10 (Some [2; 3]) table)) = [3]
  /\ get_unread_alerts 10 (mark_alerts_as_read 10 (Some []) table) = [].
Proof. repeat split. Qed.

(** ** The arithmetic of the utilization *)

Lemma pow10_pos (n : Z) : 0 <= n -> 0 < 10 ^ n.
Proof. intros H. apply Z.pow_pos_nonneg; lia. Qed.

Lemma pow10_add (n m : Z) : 0 <= n -> 0 <= m -> 10 ^ (n + m) = 10 ^ n * 10 ^ m.
Proof. intros. now apply Z.pow_add_r. Qed.

Lemma pow10_le (n m : Z) : 0 <= n <= m -> 10 ^ n <= 10 ^ m.
Proof. intros H. apply Z.pow_le_mono_r; lia. Qed.

Lemma pow10_lt (n m : Z) : 0 <= n < m -> 10 ^ n < 10 ^ m.
Proof. intros H. apply Z.pow_lt_mono_r; lia. Qed.

(** A number below a power of ten that reaches another has the smaller
    exponent. *)
Lemma pow10_lt_inv (n m : Z) : 0 <= n -> 0 <= m -> 10 ^ n < 10 ^ m -> n < m.
Proof.
  intros Hn Hm H. destruct (Z.lt_ge_cases n m) as [|Hge]; [assumption|].
  assert (10 ^ m <= 10 ^ n) by (apply pow10_le; lia). lia.
Qed.

Lemma ndigits_aux_spec (fuel : nat) :
  forall c, 0 < c -> Z.log2 c <= Z.of_nat fuel ->
    1 <= Decimal.ndigits_aux fuel c
    /\ 10 ^ (Decimal.ndigits_aux fuel c - 1) <= c
       < 10 ^ (Decimal.ndigits_aux fuel c).
Proof.
  induction fuel as [|fuel IH]; intros c Hc Hlog.
  - cbn [Decimal.ndigits_aux].
    assert (c < 2 ^ 1) by (apply Z.log2_lt_pow2; lia).
    change (2 ^ 1) with 2 in *. change (10 ^ (1 - 1)) with 1.
    change (10 ^ 1) with 10. lia.
  - cbn [Decimal.ndigits_aux].
    destruct (c <? 10) eqn:E.
    + apply Z.ltb_lt in E. change (10 ^ (1 - 1)) with 1.
      change (10 ^ 1) with 10. lia.
    + apply Z.ltb_ge in E.
      assert (H10 : 0 < c / 10) by (apply Z.div_str_pos; lia).
      assert (Hlog' : Z.log2 (c / 10) <= Z.of_nat fuel).
      { assert (Hlt : c / 10 < 2 ^ (Z.log2 c)).
        { pose proof (Z.log2_spec c Hc) as [_ Hup].
          rewrite Z.pow_succ_r in Hup by apply Z.log2_nonneg.
          apply Z.div_lt_upper_bound; lia. }
        apply Z.log2_lt_pow2 in Hlt; lia. }
      destruct (IH (c / 10) H10 Hlog') as (H1 & Hlo & Hhi).
      set (n := Decimal.ndigits_aux fuel (c / 10)) in *.
      split; [lia|].
      replace (1 + n - 1) with (1 + (n - 1)) by lia.
      rewrite !pow10_add by lia. change (10 ^ 1) with 10.
      pose proof (Z.div_mod c 10). pose proof (Z.mod_pos_bound c 10). lia.
Qed.

Lemma ndigits_spec (c : Z) :
  0 < c ->
  1 <= Decimal.ndigits c
  /\ 10 ^ (Decimal.ndigits c - 1) <= c < 10 ^ (Decimal.ndigits c).
Proof.
  intros Hc. unfold Decimal.ndigits. apply ndigits_aux_spec; [exact Hc|].
  rewrite Z2Nat.id by apply Z.log2_nonneg. lia.
Qed.

(** Fewer than [10 ^ n] means at most [n] digits. *)
Lemma ndigits_le (c n : Z) : 0 < c -> 0 <= n -> c < 10 ^ n ->
  Decimal.ndigits c <= n.
Proof.
  intros Hc Hn Hlt. destruct (ndigits_spec c Hc) as (H1 & Hlo & _).
  assert (10 ^ (Decimal.ndigits c - 1) < 10 ^ n) by lia.
  apply pow10_lt_inv in H; lia.
Qed.

(** At least [10 ^ n] means more than [n] digits. *)
Lemma ndigits_gt (c n : Z) : 0 < c -> 0 <= n -> 10 ^ n <= c ->
  n < Decimal.ndigits c.
Proof.
  intros Hc Hn Hle. destruct (ndigits_spec c Hc) as (H1 & _ & Hhi).
  assert (10 ^ n < 10 ^ Decimal.ndigits c) by lia.
  apply pow10_lt_inv in H; lia.
Qed.

Lemma round_half_even_bounds (n d : Z) :
  0 <= n -> 0 < d ->
  n / d <= Decimal.round_half_even n d <= n / d + 1.
Proof.
  intros Hn Hd. unfold Decimal.round_half_even.
  destruct (2 * (n mod d) <? d); [lia|].
  destruct (d <? 2 * (n mod d)); [lia|].
  destruct (Z.even (n / d)); lia.
Qed.

Lemma round_half_even_exact (n d : Z) :
  0 < d -> n mod d = 0 -> Decimal.round_half_even n d = n / d.
Proof.
  intros Hd Hr. unfold Decimal.round_half_even. rewrite Hr.
  now replace (2 * 0 <? d) with true by lia.
Qed.

(** What [fix_prec] does to a positive coefficient: nothing, or it drops
    [k] digits with a rounding that may carry into one more digit. *)
Lemma fix_prec_cases (p c e : Z) :
  1 <= p -> 0 < c ->
  (Decimal.ndigits c <= p /\ Decimal.fix_prec p c e = (c, e))
  \/ (p < Decimal.ndigits c
      /\ exists k c',
           k = Decimal.ndigits c - p
           /\ c' = Decimal.round_half_even c (10 ^ k)
           /\ 10 ^ (p - 1) <= c' <= 10 ^ p
           /\ c / 10 ^ k <= c' <= c / 10 ^ k + 1
           /\ ((Decimal.ndigits c' <= p
                /\ Decimal.fix_prec p c e = (c', e + k))
               \/ (10 ^ p <= c'
                   /\ Decimal.fix_prec p c e = (c' / 10, e + k + 1)))).
Proof.
  intros Hp Hc. unfold Decimal.fix_prec.
  destruct (Decimal.ndigits c <=? p) eqn:E.
  - apply Z.leb_le in E. now left.
  - apply Z.leb_gt in E. right. split; [exact E|].
    set (k := Decimal.ndigits c - p).
    set (c' := Decimal.round_half_even c (10 ^ k)).
    exists k, c'. split; [reflexivity|]. split; [reflexivity|].
    assert (Hk : 1 <= k) by (unfold k; lia).
    assert (Hpk : 0 < 10 ^ k) by (apply pow10_pos; lia).
    destruct (ndigits_spec c Hc) as (_ & Hlo & Hhi).
    replace (Decimal.ndigits c - 1) with ((p - 1) + k) in Hlo
      by (unfold k; lia).
    replace (Decimal.ndigits c) with (p + k) in Hhi by (unfold k; lia).
    rewrite pow10_add in Hlo, Hhi by lia.
    assert (Hq1 : 10 ^ (p - 1) <= c / 10 ^ k)
      by (apply Z.div_le_lower_bound; lia).
    assert (Hq2 : c / 10 ^ k < 10 ^ p)
      by (apply Z.div_lt_upper_bound; lia).
    pose proof (round_half_even_bounds c (10 ^ k) ltac:(lia) Hpk) as Hb.
    fold c' in Hb.
    split; [lia|]. split; [exact Hb|].
    assert (Hc' : 0 < c').
    { pose proof (pow10_pos (p - 1) ltac:(lia)). lia. }
    destruct (p <? Decimal.ndigits c') eqn:E'.
    + apply Z.ltb_lt in E'. right. split; [|reflexivity].
      destruct (ndigits_spec c' Hc') as (_ & Hlo' & _).
      assert (10 ^ p <= 10 ^ (Decimal.ndigits c' - 1))
        by (apply pow10_le; lia).
      lia.
    + apply Z.ltb_ge in E'. left. split; [exact E'|reflexivity].
Qed.

Lemma fix_prec_at_least (p c e t m : Z) :
  1 <= p -> 0 < c -> 1 <= t <= 9 ->
  at_least c e t m ->
  at_least (fst (Decimal.fix_prec p c e)) (snd (Decimal.fix_prec p c e)) t m.
Proof.
  intros Hp Hc Ht Hge.
  destruct (fix_prec_cases p c e Hp Hc)
    as [[_ ->] | (Hn & k & c' & Hk & _ & Hc' & Hq & Hr)]; [exact Hge|].
  assert (Hk1 : 1 <= k) by lia.
  assert (Hpk : 0 < 10 ^ k) by (apply pow10_pos; lia).
  assert (Hp1 : 0 < 10 ^ (p - 1)) by (apply pow10_pos; lia).
  destruct Hr as [[_ ->] | [Hov ->]]; cbn [fst snd]; unfold at_least in *.
  - destruct (Z.le_gt_cases (e + k) m) as [Hle | Hgt]; [left | right; lia].
    split; [exact Hle|].
    destruct Hge as [[_ Hge] | [Hlt _]]; [|lia].
    replace (m - e) with ((m - (e + k)) + k) in Hge by lia.
    rewrite pow10_add, Z.mul_assoc in Hge by lia.
    assert (t * 10 ^ (m - (e + k)) <= c / 10 ^ k)
      by (apply Z.div_le_lower_bound; lia).
    lia.
  - assert (Hdiv : 10 ^ (p - 1) <= c' / 10).
    { apply Z.div_le_lower_bound; [lia|].
      replace p with (1 + (p - 1)) in Hov at 1 by lia.
      rewrite pow10_add in Hov by lia. change (10 ^ 1) with 10 in Hov. lia. }
    destruct (Z.le_gt_cases (e + k + 1) m) as [Hle | Hgt]; [left | right; lia].
    split; [exact Hle|].
    destruct Hge as [[_ Hge] | [Hlt _]]; [|lia].
    destruct (ndigits_spec c Hc) as (_ & _ & Hhi).
    assert (HPme : 0 < 10 ^ (m - e)) by (apply pow10_pos; lia).
    assert (Hlt : m - e < Decimal.ndigits c)
      by (apply pow10_lt_inv; nia).
    set (x := m - (e + k + 1)).
    assert (HPx : 0 < 10 ^ x) by (apply pow10_pos; unfold x; lia).
    assert (H1 : 10 ^ (x + 1) <= 10 ^ (p - 1))
      by (apply pow10_le; unfold x; lia).
    rewrite pow10_add in H1 by (unfold x; lia).
    change (10 ^ 1) with 10 in H1. nia.
Qed.

Lemma fix_prec_below (p c e t m : Z) :
  1 <= p -> 0 < c -> 1 <= t <= 9 ->
  below c e t m ->
  (p < Decimal.ndigits c ->
   c + 10 ^ (Decimal.ndigits c - p) <= t * 10 ^ (m - e)) ->
  below (fst (Decimal.fix_prec p c e)) (snd (Decimal.fix_prec p c e)) t m.
Proof.
  intros Hp Hc Ht [Hem Hlt] Hmargin.
  destruct (fix_prec_cases p c e Hp Hc)
    as [[_ ->] | (Hn & k & c' & Hk & Hdef & Hc' & Hq & Hr)];
    [split; assumption|].
  specialize (Hmargin Hn). rewrite <- Hk in Hmargin.
  assert (HPme : 0 < 10 ^ (m - e)) by (apply pow10_pos; lia).
  assert (Hnd : Decimal.ndigits c <= m - e + 1).
  { apply ndigits_le; [lia | lia |].
    rewrite pow10_add by lia. change (10 ^ 1) with 10. nia. }
  assert (Hk1 : 1 <= k) by lia.
  assert (Hkme : k <= m - e) by lia.
  assert (Hpk : 0 < 10 ^ k) by (apply pow10_pos; lia).
  assert (Hp1 : 0 < 10 ^ (p - 1)) by (apply pow10_pos; lia).
  assert (HPX : 0 < 10 ^ (m - e - k)) by (apply pow10_pos; lia).
  set (X := t * 10 ^ (m - e - k)) in *.
  assert (HX : t * 10 ^ (m - e) = X * 10 ^ k).
  { unfold X. rewrite <- Z.mul_assoc, <- pow10_add by lia.
    do 2 f_equal. lia. }
  assert (Hcle : c <= (X - 1) * 10 ^ k) by lia.
  assert (Hc'X : c' <= X - 1).
  { assert (Hq0 : c / 10 ^ k <= X - 1)
      by (apply Z.div_le_upper_bound; lia).
    destruct (Z.eq_dec (c / 10 ^ k) (X - 1)) as [Heq | Hne]; [|lia].
    assert (Hmod : c mod 10 ^ k = 0).
    { pose proof (Z.div_mod c (10 ^ k) ltac:(lia)) as Hdm.
      pose proof (Z.mod_pos_bound c (10 ^ k) Hpk).
      rewrite Heq in Hdm. lia. }
    rewrite Hdef, (round_half_even_exact c (10 ^ k) Hpk Hmod). lia. }
  destruct Hr as [[_ ->] | [Hov ->]]; cbn [fst snd]; unfold below.
  - split; [lia|].
    replace (m - (e + k)) with (m - e - k) by lia. fold X. lia.
  - assert (Hexp : 1 <= m - e - k).
    { destruct (Z.eq_dec (m - e - k) 0) as [E0 | ]; [|lia].
      exfalso. unfold X in Hc'X. rewrite E0 in Hc'X.
      change (10 ^ 0) with 1 in Hc'X.
      assert (10 ^ 1 <= 10 ^ p) by (apply pow10_le; lia).
      change (10 ^ 1) with 10 in *. lia. }
    split; [lia|].
    replace (m - (e + k + 1)) with (m - e - k - 1) by lia.
    apply Z.div_lt_upper_bound; [lia|].
    replace (10 * (t * 10 ^ (m - e - k - 1))) with X; [lia|].
    unfold X. replace (m - e - k) with (1 + (m - e - k - 1)) at 1 by lia.
    rewrite pow10_add by lia. change (10 ^ 1) with 10. lia.
Qed.

Lemma fix_prec_bound (p c e : Z) :
  1 <= p -> 0 < c ->
  0 < fst (Decimal.fix_prec p c e) < 10 ^ p.
Proof.
  intros Hp Hc.
  assert (Hp1 : 0 < 10 ^ (p - 1)) by (apply pow10_pos; lia).
  assert (Hpp : 10 ^ p = 10 * 10 ^ (p - 1)).
  { replace p with (1 + (p - 1)) at 1 by lia. now rewrite pow10_add by lia. }
  destruct (fix_prec_cases p c e Hp Hc)
    as [[Hn ->] | (Hn & k & c' & Hk & _ & Hc' & Hq & Hr)]; cbn [fst].
  - destruct (ndigits_spec c Hc) as (H1 & _ & Hhi).
    assert (10 ^ Decimal.ndigits c <= 10 ^ p) by (apply pow10_le; lia). lia.
  - destruct Hr as [[Hn' ->] | [Hov ->]]; cbn [fst].
    + assert (Hc0 : 0 < c') by lia.
      destruct (ndigits_spec c' Hc0) as (H1 & _ & Hhi).
      assert (10 ^ Decimal.ndigits c' <= 10 ^ p) by (apply pow10_le; lia).
      lia.
    + assert (10 ^ (p - 1) <= c' / 10)
        by (apply Z.div_le_lower_bound; lia).
      assert (c' / 10 <= 10 ^ (p - 1))
        by (apply Z.div_le_upper_bound; lia).
      lia.
Qed.

Lemma strip_zeros_spec (fuel : nat) :
  forall c e ideal, 0 < c ->
    exists j,
      0 <= j
      /\ snd (Decimal.strip_zeros fuel c e ideal) = e + j
      /\ c = fst (Decimal.strip_zeros fuel c e ideal) * 10 ^ j
      /\ 0 < fst (Decimal.strip_zeros fuel c e ideal)
      /\ (e <= ideal -> snd (Decimal.strip_zeros fuel c e ideal) <= ideal).
Proof.
  induction fuel as [|fuel IH]; intros c e ideal Hc.
  - exists 0. cbn. repeat split; lia.
  - cbn [Decimal.strip_zeros].
    destruct ((e <? ideal) && (c mod 10 =? 0)) eqn:E.
    + apply andb_prop in E as [E1 E2].
      apply Z.ltb_lt in E1. apply Z.eqb_eq in E2.
      pose proof (Z.div_mod c 10 ltac:(lia)) as Hdm.
      assert (Hc10 : 0 < c / 10) by lia.
      destruct (IH (c / 10) (e + 1) ideal Hc10)
        as (j & Hj & Hsnd & Hfst & Hpos & Hid).
      exists (j + 1). split; [lia|]. split; [lia|].
      split; [|split; [exact Hpos | intros _; apply Hid; lia]].
      rewrite pow10_add by lia. change (10 ^ 1) with 10.
      set (c1 := fst (Decimal.strip_zeros fuel (c / 10) (e + 1) ideal)) in *.
      lia.
    + exists 0. cbn. repeat split; lia.
Qed.

(** The quotient of two positive amounts of at most twelve digits, as
    [div_abs] computes it with 28 digits, against the threshold
    [t / 10 ^ d]: it is at least the threshold when the exact ratio is, and
    below it otherwise. *)
Lemma div_abs_against (a b e t d : Z) :
  0 < a < 10 ^ 12 -> 0 < b < 10 ^ 12 -> 1 <= t <= 9 -> 0 <= d <= 2 ->
  0 < fst (Decimal.div_abs a e b e) < 10 ^ 28
  /\ (t * b <= a * 10 ^ d ->
      at_least (fst (Decimal.div_abs a e b e))
               (snd (Decimal.div_abs a e b e)) t (- d))
  /\ (a * 10 ^ d < t * b ->
      below (fst (Decimal.div_abs a e b e))
            (snd (Decimal.div_abs a e b e)) t (- d)).
Proof.
  intros [Ha Ha12] [Hb Hb12] Ht Hd.
  unfold Decimal.div_abs. replace (a =? 0) with false by lia.
  rewrite !Z.sub_diag. unfold Decimal.prec.
  set (s := Decimal.ndigits b - Decimal.ndigits a + 28 + 1).
  destruct (ndigits_spec a Ha) as (Hna1 & Halo & Hahi).
  destruct (ndigits_spec b Hb) as (Hnb1 & Hblo & Hbhi).
  assert (Hna : Decimal.ndigits a <= 12) by (apply ndigits_le; lia).
  assert (Hnb : Decimal.ndigits b <= 12) by (apply ndigits_le; lia).
  assert (Hs : 18 <= s <= 40) by (unfold s; lia).
  replace (0 <=? s) with true by lia.
  replace (0 - (0 - s)) with s by lia.
  assert (HPs : 0 < 10 ^ s) by (apply pow10_pos; lia).
  assert (HPd : 0 < 10 ^ d) by (apply pow10_pos; lia).
  assert (HPsd : 0 < 10 ^ (s - d)) by (apply pow10_pos; lia).
  assert (Hsd : 10 ^ s = 10 ^ d * 10 ^ (s - d)).
  { rewrite <- pow10_add by lia. f_equal. lia. }
  set (N := a * 10 ^ s).
  pose proof (Z.div_mod N b ltac:(lia)) as Hdm.
  pose proof (Z.mod_pos_bound N b Hb) as Hmod.
  set (q := N / b) in *. set (r := N mod b) in *.
  assert (Hq28 : 10 ^ 28 <= q).
  { apply Z.div_le_lower_bound; [lia|]. unfold N.
    assert (H1 : 10 ^ (Decimal.ndigits a - 1) * 10 ^ s
                 = 10 ^ 28 * 10 ^ Decimal.ndigits b).
    { rewrite <- !pow10_add by lia. f_equal. unfold s. lia. }
    assert (10 ^ (Decimal.ndigits a - 1) * 10 ^ s <= a * 10 ^ s)
      by (apply Z.mul_le_mono_nonneg_r; lia).
    assert (b * 10 ^ 28 <= 10 ^ 28 * 10 ^ Decimal.ndigits b)
      by (rewrite Z.mul_comm; apply Z.mul_le_mono_nonneg_l; lia).
    lia. }
  assert (Hq : 0 < q) by lia.
  set (ce := if r =? 0 then Decimal.strip_zeros (Z.to_nat s) q (0 - s) 0
             else (if q mod 5 =? 0 then q + 1 else q, 0 - s)).
  assert (Hce :
    0 < fst ce
    /\ (t * b <= a * 10 ^ d -> at_least (fst ce) (snd ce) t (- d))
    /\ (a * 10 ^ d < t * b ->
        below (fst ce) (snd ce) t (- d)
        /\ (28 < Decimal.ndigits (fst ce) ->
            fst ce + 10 ^ (Decimal.ndigits (fst ce) - 28)
            <= t * 10 ^ (- d - snd ce)))).
  { unfold ce. destruct (r =? 0) eqn:Er.
    - apply Z.eqb_eq in Er.
      destruct (strip_zeros_spec (Z.to_nat s) q (0 - s) 0 Hq)
        as (j & Hj & Hsnd & Hfst & Hpos & Hid).
      set (c1 := fst (Decimal.strip_zeros (Z.to_nat s) q (0 - s) 0)) in *.
      set (e1 := snd (Decimal.strip_zeros (Z.to_nat s) q (0 - s) 0)) in *.
      specialize (Hid ltac:(lia)).
      assert (HPj : 0 < 10 ^ j) by (apply pow10_pos; lia).
      assert (HT : 10 ^ s = 10 ^ (0 - e1) * 10 ^ j).
      { rewrite <- pow10_add by lia. f_equal. lia. }
      set (T := 10 ^ (0 - e1)) in *.
      assert (HPT : 0 < T) by (apply pow10_pos; lia).
      assert (Hkey : b * c1 = a * T).
      { apply (Z.mul_reg_r _ _ (10 ^ j)); [lia|].
        unfold N in Hdm. rewrite HT, Hfst, Er in Hdm. lia. }
      split; [exact Hpos|]. split.
      + intros Hab. unfold at_least.
        destruct (Z.le_gt_cases e1 (- d)) as [He1 | He1];
          [left | right; lia].
        split; [exact He1|].
        assert (HTZ : T = 10 ^ d * 10 ^ (- d - e1)).
        { unfold T. rewrite <- pow10_add by lia. f_equal. lia. }
        set (Z0 := 10 ^ (- d - e1)) in *.
        assert (HPZ : 0 < Z0) by (apply pow10_pos; lia).
        assert (t * b * Z0 <= a * 10 ^ d * Z0)
          by (apply Z.mul_le_mono_nonneg_r; lia).
        apply (Z.mul_le_mono_pos_l _ _ b); [lia|].
        rewrite Hkey, HTZ. lia.
      + intros Hab.
        assert (He1 : e1 <= - d).
        { destruct (Z.le_gt_cases e1 (- d)) as [|Hgt]; [assumption|].
          exfalso.
          assert (HdT : 10 ^ d = T * 10 ^ (d + e1)).
          { unfold T. rewrite <- pow10_add by lia. f_equal. lia. }
          assert (H10 : 10 ^ 1 <= 10 ^ (d + e1)) by (apply pow10_le; lia).
          change (10 ^ 1) with 10 in H10.
          set (P := 10 ^ (d + e1)) in *.
          assert (b * (c1 * P) = a * 10 ^ d) by (rewrite HdT; nia).
          assert (b * (c1 * P) < b * t) by lia.
          assert (c1 * P < t)
            by (apply (Z.mul_lt_mono_pos_l b); lia).
          nia. }
        assert (HTZ : T = 10 ^ d * 10 ^ (- d - e1)).
        { unfold T. rewrite <- pow10_add by lia. f_equal. lia. }
        set (Z0 := 10 ^ (- d - e1)) in *.
        assert (HPZ : 0 < Z0) by (apply pow10_pos; lia).
        assert (Hbc : b * c1 = a * 10 ^ d * Z0) by (rewrite Hkey, HTZ; lia).
        assert (Hlt : b * c1 < b * (t * Z0)).
        { rewrite Hbc.
          assert (a * 10 ^ d * Z0 < t * b * Z0)
            by (apply Z.mul_lt_mono_pos_r; lia).
          lia. }
        assert (HcZ : c1 < t * Z0)
          by (apply (Z.mul_lt_mono_pos_l b); lia).
        split; [split; [exact He1 | exact HcZ]|].
        intros H28.
        assert (Hnd : Decimal.ndigits c1 <= - d - e1 + 1).
        { apply ndigits_le; [lia | lia |].
          rewrite pow10_add by lia. change (10 ^ 1) with 10. fold Z0. nia. }
        assert (HY : Z0 = 10 ^ 27 * 10 ^ (- d - e1 - 27)).
        { unfold Z0. rewrite <- pow10_add by lia. f_equal. lia. }
        set (Y := 10 ^ (- d - e1 - 27)) in *.
        assert (HPY : 0 < Y) by (apply pow10_pos; lia).
        assert (HkY : 10 ^ (Decimal.ndigits c1 - 28) <= Y)
          by (apply pow10_le; lia).
        assert (Hb27 : b < 10 ^ 27).
        { assert (10 ^ 12 < 10 ^ 27) by (apply pow10_lt; lia). lia. }
        assert (Hd1 : (t * Z0 - c1) * b = (t * b - a * 10 ^ d) * Z0)
          by (rewrite Z.mul_sub_distr_r, (Z.mul_comm c1 b), Hbc; lia).
        assert (Hd2 : Z0 <= (t * b - a * 10 ^ d) * Z0).
        { replace Z0 with (1 * Z0) at 1 by lia.
          apply Z.mul_le_mono_nonneg_r; lia. }
        destruct (Z.le_gt_cases Y (t * Z0 - c1)) as [|Hlt']; [lia|].
        exfalso.
        assert ((t * Z0 - c1) * b <= (Y - 1) * b)
          by (apply Z.mul_le_mono_nonneg_r; lia).
        assert ((Y - 1) * b < Y * 10 ^ 27) by nia.
        lia.
    - apply Z.eqb_neq in Er.
      assert (Hc1 : q <= fst (if q mod 5 =? 0 then q + 1 else q, 0 - s)
                    <= q + 1)
        by (destruct (q mod 5 =? 0); cbn [fst]; lia).
      cbn [fst snd] in *.
      set (c1 := if q mod 5 =? 0 then q + 1 else q) in *.
      replace (- d - (0 - s)) with (s - d) by lia.
      set (T := t * 10 ^ (s - d)).
      split; [lia|]. split.
      + intros Hab. left. split; [lia|].
        replace (- d - (0 - s)) with (s - d) by lia. fold T.
        assert (T <= q); [|lia].
        apply Z.div_le_lower_bound; [lia|]. unfold N, T. rewrite Hsd.
        assert (t * b * 10 ^ (s - d) <= a * 10 ^ d * 10 ^ (s - d))
          by (apply Z.mul_le_mono_nonneg_r; lia).
        lia.
      + intros Hab. unfold below.
        replace (- d - (0 - s)) with (s - d) by lia. fold T.
        assert (HW : 10 ^ (s - d) = 10 ^ 12 * 10 ^ (s - d - 12)).
        { rewrite <- pow10_add by lia. f_equal. lia. }
        set (W := 10 ^ (s - d - 12)) in *.
        assert (HPW : 0 < W) by (apply pow10_pos; lia).
        assert (HNle : N <= b * T - 10 ^ (s - d)).
        { unfold N, T. rewrite Hsd.
          assert (a * 10 ^ d * 10 ^ (s - d) <= (t * b - 1) * 10 ^ (s - d))
            by (apply Z.mul_le_mono_nonneg_r; lia).
          lia. }
        assert (HD : W < T - q).
        { destruct (Z.le_gt_cases (T - q) W) as [Hle|]; [|lia].
          exfalso.
          assert (Hgt : (T - q) * b > 10 ^ (s - d)) by lia.
          assert (0 <= T - q) by nia.
          assert ((T - q) * b <= W * b)
            by (apply Z.mul_le_mono_nonneg_r; lia).
          assert (W * b < W * 10 ^ 12) by nia.
          lia. }
        split; [split; lia|].
        intros H28.
        assert (Hnd : Decimal.ndigits c1 <= s - d + 1).
        { apply ndigits_le; [lia | lia |].
          rewrite pow10_add by lia. change (10 ^ 1) with 10.
          assert (T <= 9 * 10 ^ (s - d)) by (unfold T; nia). lia. }
        assert (10 ^ (Decimal.ndigits c1 - 28) <= W)
          by (apply pow10_le; lia).
        lia. }
  destruct Hce as (Hpos & Hge & Hlt).
  split; [apply fix_prec_bound; lia|]. split.
  - intros Hab. apply fix_prec_at_least; [lia | exact Hpos | exact Ht | auto].
  - intros Hab. destruct (Hlt Hab) as [Hbel Hmar].
    apply fix_prec_below;
      [lia | exact Hpos | exact Ht | exact Hbel | exact Hmar].
Qed.

Lemma times_100_at_least (c e t m : Z) :
  0 < c -> 1 <= t <= 9 ->
  at_least c e t m -> at_least (c * 100) e t (m + 2).
Proof.
  intros Hc Ht [[He H] | [He _]]; unfold at_least.
  - left. split; [lia|].
    replace (m + 2 - e) with (2 + (m - e)) by lia.
    rewrite pow10_add by lia. change (10 ^ 2) with 100. lia.
  - destruct (Z.le_gt_cases e (m + 2)) as [He2 | He2]; [left | right; lia].
    split; [exact He2|].
    assert (10 ^ (m + 2 - e) <= 10 ^ 1) by (apply pow10_le; lia).
    change (10 ^ 1) with 10 in *.
    assert (0 < 10 ^ (m + 2 - e)) by (apply pow10_pos; lia).
    nia.
Qed.

Lemma times_100_below (c e t m : Z) :
  0 < c -> c < 10 ^ 28 -> 1 <= t <= 9 ->
  below c e t m ->
  below (c * 100) e t (m + 2)
  /\ (28 < Decimal.ndigits (c * 100) ->
      c * 100 + 10 ^ (Decimal.ndigits (c * 100) - 28)
      <= t * 10 ^ (m + 2 - e)).
Proof.
  intros Hc Hc28 Ht [He H].
  assert (HT : t * 10 ^ (m + 2 - e) = 100 * (t * 10 ^ (m - e))).
  { replace (m + 2 - e) with (2 + (m - e)) by lia.
    rewrite pow10_add by lia. change (10 ^ 2) with 100. lia. }
  split.
  - split; [lia|]. rewrite HT. lia.
  - intros Hn. rewrite HT.
    assert (Hnd : Decimal.ndigits (c * 100) <= 30).
    { apply ndigits_le; [lia | lia |].
      change (10 ^ 30) with (10 ^ 28 * 100). lia. }
    assert (10 ^ (Decimal.ndigits (c * 100) - 28) <= 10 ^ 2)
      by (apply pow10_le; lia).
    change (10 ^ 2) with 100 in *. lia.
Qed.

Lemma leb_at_least (c e t m : Z) :
  0 < c -> 1 <= t <= 9 -> 0 <= m ->
  at_least c e t m ->
  Decimal.leb (Decimal.of_int (t * 10 ^ m)) (Decimal.mk c e) = true.
Proof.
  intros Hc Ht Hm H. unfold Decimal.leb, Decimal.aligned.
  cbn [Decimal.coeff Decimal.dexp Decimal.of_int fst snd].
  apply Z.leb_le.
  assert (HPm : 0 < 10 ^ m) by (apply pow10_pos; lia).
  destruct (Z.le_gt_cases e 0) as [He | He].
  - rewrite Z.min_r by lia. rewrite Z.sub_diag. change (10 ^ 0) with 1.
    destruct H as [[_ H] | [H _]]; [|lia].
    replace (m - e) with (m + (0 - e)) in H by lia.
    rewrite pow10_add in H by lia. lia.
  - rewrite Z.min_l by lia. rewrite Z.sub_diag, Z.sub_0_r.
    change (10 ^ 0) with 1.
    assert (HPe : 0 < 10 ^ e) by (apply pow10_pos; lia).
    destruct H as [[He2 H] | [He2 _]].
    + assert (Hprod : 10 ^ (m - e) * 10 ^ e = 10 ^ m).
      { rewrite <- pow10_add by lia. f_equal. lia. }
      assert (t * 10 ^ (m - e) * 10 ^ e <= c * 10 ^ e)
        by (apply Z.mul_le_mono_nonneg_r; lia).
      rewrite <- Z.mul_assoc, Hprod in H0. lia.
    + assert (10 ^ (m + 1) <= 10 ^ e) by (apply pow10_le; lia).
      rewrite pow10_add in H by lia. change (10 ^ 1) with 10 in H.
      assert (10 ^ e <= c * 10 ^ e) by nia.
      nia.
Qed.

Lemma leb_below (c e t m : Z) :
  0 < c -> 1 <= t <= 9 -> 0 <= m ->
  below c e t m ->
  Decimal.leb (Decimal.of_int (t * 10 ^ m)) (Decimal.mk c e) = false.
Proof.
  intros Hc Ht Hm [He H]. unfold Decimal.leb, Decimal.aligned.
  cbn [Decimal.coeff Decimal.dexp Decimal.of_int fst snd].
  apply Z.leb_gt.
  destruct (Z.le_gt_cases e 0) as [He0 | He0].
  - rewrite Z.min_r by lia. rewrite Z.sub_diag. change (10 ^ 0) with 1.
    replace (m - e) with (m + (0 - e)) in H by lia.
    rewrite pow10_add in H by lia. lia.
  - rewrite Z.min_l by lia. rewrite Z.sub_diag, Z.sub_0_r.
    change (10 ^ 0) with 1.
    assert (HPe : 0 < 10 ^ e) by (apply pow10_pos; lia).
    assert (Hprod : 10 ^ (m - e) * 10 ^ e = 10 ^ m).
    { rewrite <- pow10_add by lia. f_equal. lia. }
    assert (c * 10 ^ e < t * 10 ^ (m - e) * 10 ^ e)
      by (apply Z.mul_lt_mono_pos_r; lia).
    rewrite <- Z.mul_assoc, Hprod in H0. lia.
Qed.

(** The utilization of a positive spending [a] against a positive amount
    [b], both of at most twelve digits, compared with a percentage
    [t * 10 ^ (2 - d)]: the comparison comes out as it does for the exact
    ratio.  The 28-digit rounding of the division never moves the ratio
    across the percentage. *)
Lemma utilization_against (a b t d : Z) :
  0 < a < 10 ^ 12 -> 0 < b < 10 ^ 12 -> 1 <= t <= 9 -> 0 <= d <= 2 ->
  exists q,
    Decimal.div (Decimal.of_cents a) (Decimal.of_cents b) = Some q
    /\ Decimal.leb (Decimal.of_int (t * 10 ^ (2 - d)))
                   (Decimal.mul q (Decimal.of_int 100))
       = (t * b <=? a * 10 ^ d).
Proof.
  intros Ha Hb Ht Hd.
  destruct (div_abs_against a b (-2) t d Ha Hb Ht Hd) as (Hpos & Hge & Hlt).
  unfold Decimal.div. cbn [Decimal.coeff Decimal.dexp Decimal.of_cents].
  replace (b =? 0) with false by lia.
  rewrite !Z.abs_eq, !Z.sgn_pos by lia.
  set (r := Decimal.div_abs a (-2) b (-2)) in *.
  eexists; split; [reflexivity|].
  unfold Decimal.mul. cbn [Decimal.coeff Decimal.dexp Decimal.of_int].
  replace (1 * 1 * fst r) with (fst r) by lia.
  rewrite Z.add_0_r, Z.abs_eq, Z.sgn_pos by lia.
  set (c := fst r * 100).
  assert (Hc : 0 < c) by (unfold c; lia).
  pose proof (fix_prec_bound Decimal.prec c (snd r)
                ltac:(unfold Decimal.prec; lia) Hc) as [Hpos3 _].
  rewrite Z.mul_1_l.
  replace (2 - d) with (- d + 2) by lia.
  destruct (t * b <=? a * 10 ^ d) eqn:E.
  - apply Z.leb_le in E. apply leb_at_least; [exact Hpos3 | exact Ht | lia |].
    apply fix_prec_at_least; [unfold Decimal.prec; lia | exact Hc | exact Ht |].
    apply times_100_at_least; [lia | exact Ht | auto].
  - apply Z.leb_gt in E. apply leb_below; [exact Hpos3 | exact Ht | lia |].
    destruct (times_100_below (fst r) (snd r) t (- d)) as [Hbel Hmar];
      [lia | lia | exact Ht | auto |].
    apply fix_prec_below;
      [unfold Decimal.prec; lia | exact Hc | exact Ht | exact Hbel
      | exact Hmar].
Qed.

(** Below 100 the second check does not fire. *)
Lemma check_thresholds_under_100 (email : bool) (u : Decimal.t)
  (b : Budget.t) :
  Decimal.leb (Decimal.of_int 100) u = false ->
  count_alerts ALERT_EXCEEDED (snd (Budget.check_thresholds email u b))
  = 0%nat
  /\ Budget.status (fst (Budget.check_thresholds email u b)) = Budget.status b
  /\ Budget.alerted_at_100 (fst (Budget.check_thresholds email u b))
     = Budget.alerted_at_100 b.
Proof.
  intros H. unfold Budget.check_thresholds. rewrite H, andb_false_r.
  destruct (_ && _ && Decimal.leb (Decimal.of_int 80) u && _);
    cbn [fst snd]; repeat split.
Qed.

(** The percentage of a budget, for amounts of at most twelve digits,
    against 80 and against 100. *)
Lemma utilization_in_cents (expenses : list Expense.t) (b : Budget.t)
  (a : cents) :
  0 < Budget.amount b < 10 ^ 12 ->
  0 < a < 10 ^ 12 ->
  Budget.spent_amount expenses b = Decimal.of_cents a ->
  exists u,
    Budget.utilization_percentage expenses b = Returned u
    /\ Decimal.leb (Decimal.of_int 80) u = (4 * Budget.amount b <=? 5 * a)
    /\ Decimal.leb (Decimal.of_int 100) u = (Budget.amount b <=? a).
Proof.
  intros Hb Ha Hspent.
  destruct (utilization_against a (Budget.amount b) 8 1 Ha Hb)
    as (q & Hq & H80); [lia | lia |].
  destruct (utilization_against a (Budget.amount b) 1 0 Ha Hb)
    as (q' & Hq' & H100); [lia | lia |].
  rewrite Hq in Hq'. injection Hq' as <-.
  exists (Decimal.mul q (Decimal.of_int 100)).
  unfold Budget.utilization_percentage.
  replace (0 <? Budget.amount b) with true by lia.
  rewrite Hspent, Hq. split; [reflexivity|].
  change (8 * 10 ^ (2 - 1)) with 80 in H80.
  change (1 * 10 ^ (2 - 0)) with 100 in H100.
  change (10 ^ 1) with 10 in H80. change (10 ^ 0) with 1 in H100.
  rewrite H80, H100. split.
  - destruct (Z.leb_spec (8 * Budget.amount b) (a * 10)),
             (Z.leb_spec (4 * Budget.amount b) (5 * a)); lia || reflexivity.
  - now rewrite Z.mul_1_l, Z.mul_1_r.
Qed.

(** The EXCEEDED alert follows the money exactly.  For a budget and a
    spending of at most twelve digits, with the threshold enabled and no
    alert sent yet, an evaluation creates the EXCEEDED alert and marks the
    budget EXCEEDED when the spending has reached the amount, and does
    neither when it has not; [is_over_budget] asks for strictly more than
    the amount.  The 28-digit division behind the percentage never moves a
    budget across the threshold. *)
Theorem exceeded_alert_iff_amount_reached :
  forall (email : bool) (expenses : list Expense.t) (b : Budget.t)
         (a : cents),
    0 < Budget.amount b < 10 ^ 12 ->
    0 < a < 10 ^ 12 ->
    Budget.spent_amount expenses b = Decimal.of_cents a ->
    Budget.alert_threshold_100 b = true ->
    Budget.alerted_at_100 b = false ->
    exists b' alerts,
      Budget.check_and_send_alerts email expenses b = Returned (b', alerts)
      /\ (Budget.amount b <= a ->
          count_alerts ALERT_EXCEEDED alerts = 1%nat
          /\ Budget.status b' = EXCEEDED
          /\ Budget.alerted_at_100 b' = true)
      /\ (a < Budget.amount b ->
          count_alerts ALERT_EXCEEDED alerts = 0%nat
          /\ Budget.status b' = Budget.status b
          /\ Budget.alerted_at_100 b' = false)
      /\ is_over_budget expenses b = (Budget.amount b <? a).
Proof.
  intros email expenses b a Hb Ha Hspent H100 Ha100.
  destruct (utilization_in_cents expenses b a Hb Ha Hspent)
    as (u & Hu & _ & Hleb).
  unfold Budget.check_and_send_alerts. rewrite Hu. cbn [mbind outcome_bind].
  exists (fst (Budget.check_thresholds email u b)),
         (snd (Budget.check_thresholds email u b)).
  split; [now destruct (Budget.check_thresholds email u b)|].
  split; [|split].
  - intros Hle. replace (Budget.amount b <=? a) with true in Hleb by lia.
    rewrite (check_thresholds_from_100 email u b Hleb H100 Ha100).
    repeat split.
  - intros Hlt. replace (Budget.amount b <=? a) with false in Hleb by lia.
    destruct (check_thresholds_under_100 email u b Hleb) as (H1 & H2 & H3).
    rewrite H1, H2, H3. repeat split. exact Ha100.
  - unfold is_over_budget. rewrite Hspent.
    unfold Decimal.ltb, Decimal.aligned. cbn. now rewrite !Z.mul_1_r.
Qed.

Lemma exceeded_alert_iff_amount_reached_witness :
  exists b' alerts,
    Budget.check_and_send_alerts false [expense_300; expense_160] budget_500
    = Returned (b', alerts)
    /\ (Budget.amount budget_500 <= 46000 ->
        count_alerts ALERT_EXCEEDED alerts = 1%nat
        /\ Budget.status b' = EXCEEDED
        /\ Budget.alerted_at_100 b' = true)
    /\ (46000 < Budget.amount budget_500 ->
        count_alerts ALERT_EXCEEDED alerts = 0%nat
        /\ Budget.status b' = Budget.status budget_500
        /\ Budget.alerted_at_100 b' = false)
    /\ is_over_budget [expense_300; expense_160] budget_500
       = (Budget.amount budget_500 <? 46000).
Proof.
  apply (exceeded_alert_iff_amount_reached false [expense_300; expense_160]
           budget_500 46000);
    [ cbn; lia | lia | reflexivity | reflexivity | reflexivity ].
Defined.

(** What an evaluation does, in cents.  For a budget with both thresholds
    enabled and no alert sent yet, and amounts of at most twelve digits:
    spending that has reached the amount brings the EXCEEDED alert alone and
    the status EXCEEDED; spending from four fifths of the amount up to, but
    not reaching, the amount brings the 80_PERCENT alert alone; less
    spending brings nothing.  [is_near_limit] is the four-fifths test. *)
Theorem check_and_send_alerts_in_cents :
  forall (email : bool) (expenses : list Expense.t) (b : Budget.t)
         (a : cents),
    0 < Budget.amount b < 10 ^ 12 ->
    0 < a < 10 ^ 12 ->
    Budget.spent_amount expenses b = Decimal.of_cents a ->
    Budget.alert_threshold_80 b = true ->
    Budget.alert_threshold_100 b = true ->
    Budget.alerted_at_80 b = false ->
    Budget.alerted_at_100 b = false ->
    Budget.check_and_send_alerts email expenses b
    = Returned
        (if Budget.amount b <=? a then
           (Budget.set_status (Budget.set_alerted_at_100 b true) EXCEEDED,
            [Budget.send_alert_100 email b])
         else if 4 * Budget.amount b <=? 5 * a then
           (Budget.set_alerted_at_80 b true, [Budget.send_alert_80 email b])
         else (b, []))
    /\ is_near_limit expenses b = Returned (4 * Budget.amount b <=? 5 * a).
Proof.
  intros email expenses b a Hb Ha Hspent T80 T100 A80 A100.
  destruct (utilization_in_cents expenses b a Hb Ha Hspent)
    as (u & Hu & H80 & H100).
  split.
  - unfold Budget.check_and_send_alerts. rewrite Hu.
    cbn [mbind outcome_bind]. f_equal.
    destruct (Budget.amount b <=? a) eqn:E100.
    + apply check_thresholds_from_100; assumption.
    + unfold Budget.check_thresholds.
      rewrite Decimal_ltb_leb, H100, H80, T80, A80. cbn [negb andb].
      rewrite andb_true_r.
      destruct (4 * Budget.amount b <=? 5 * a); cbn [fst snd];
        rewrite ?T100, ?A100; cbn; rewrite ?andb_false_r; reflexivity.
  - unfold is_near_limit. rewrite Hu. cbn [mbind outcome_bind].
    now rewrite H80.
Qed.

Lemma check_and_send_alerts_in_cents_witness :
  Budget.check_and_send_alerts false [expense_300; expense_160] budget_500
  = Returned
      (if Budget.amount budget_500 <=? 46000 then
         (Budget.set_status (Budget.set_alerted_at_100 budget_500 true)
            EXCEEDED,
          [Budget.send_alert_100 false budget_500])
       else if 4 * Budget.amount budget_500 <=? 5 * 46000 then
         (Budget.set_alerted_at_80 budget_500 true,
          [Budget.send_alert_80 false budget_500])
       else (budget_500, []))
  /\ is_near_limit [expense_300; expense_160] budget_500
     = Returned (4 * Budget.amount budget_500 <=? 5 * 46000).
Proof.
  apply (check_and_send_alerts_in_cents false [expense_300; expense_160]
           budget_500 46000);
    [ cbn; lia | lia | reflexivity | reflexivity | reflexivity
    | reflexivity | reflexivity ].
Defined.

(** One cent short of a budget of 9,999,999,999.99 is not enough; the last
    cent is. *)
Example one_cent_short :
  Budget.check_and_send_alerts false
    [Expense.mk 60 10 3 999999999998 "a" 5 TX_COMPLETED false]
    (Budget.mk 1 10 3 "Big" 999999999999 0 30 ACTIVE false true false false)
  = Returned
      (Budget.mk 1 10 3 "Big" 999999999999 0 30 ACTIVE false true false false,
       [])
  /\ Budget.check_and_send_alerts false
       [Expense.mk 60 10 3 999999999999 "a" 5 TX_COMPLETED false]
       (Budget.mk 1 10 3 "Big" 999999999999 0 30 ACTIVE false true false
          false)
     = Returned
         (Budget.mk 1 10 3 "Big" 999999999999 0 30 EXCEEDED false true false
            true,
          [BudgetAlert.mk 1 10 ALERT_EXCEEDED "Budget exceeded for Big!"
             false false]).
Proof. split; vm_compute; reflexivity. Qed.

(** ** Equal splits that come out even *)

Lemma strip_zeros_power (n : nat) :
  forall c e,
    Decimal.strip_zeros n (c * 10 ^ Z.of_nat n) e (e + Z.of_nat n)
    = (c, e + Z.of_nat n).
Proof.
  induction n as [|n IH]; intros c e.
  - cbn [Decimal.strip_zeros]. change (Z.of_nat 0) with 0.
    change (10 ^ 0) with 1. now rewrite Z.mul_1_r, Z.add_0_r.
  - cbn [Decimal.strip_zeros].
    assert (Hlt : (e <? e + Z.of_nat (S n)) = true)
      by (apply Z.ltb_lt; lia).
    rewrite Hlt.
    replace (Z.of_nat (S n)) with (1 + Z.of_nat n) by lia.
    rewrite pow10_add by lia. change (10 ^ 1) with 10.
    replace (c * (10 * 10 ^ Z.of_nat n)) with (c * 10 ^ Z.of_nat n * 10)
      by ring.
    rewrite Z.mod_mul, Z.div_mul by lia. cbn [Z.eqb andb].
    replace (e + (1 + Z.of_nat n)) with (e + 1 + Z.of_nat n) by lia.
    apply IH.
Qed.

Lemma strip_zeros_exact (fuel : nat) (c e ideal s : Z) :
  0 <= s -> fuel = Z.to_nat s -> ideal = e + s ->
  Decimal.strip_zeros fuel (c * 10 ^ s) e ideal = (c, ideal).
Proof.
  intros Hs -> ->.
  rewrite <- (Z2Nat.id s Hs) at 2 3 4.
  apply strip_zeros_power.
Qed.

Lemma div_by_count_exact (n k : Z) :
  0 < n -> 0 < k -> n * k < 10 ^ 12 ->
  Decimal.div (Decimal.of_cents (n * k)) (Decimal.of_int n)
  = Some (Decimal.mk k (-2)).
Proof.
  intros Hn Hk Hnk.
  assert (Hnk0 : 0 < n * k) by nia.
  unfold Decimal.div. cbn [Decimal.coeff Decimal.dexp Decimal.of_cents
                             Decimal.of_int].
  replace (n =? 0) with false by lia.
  rewrite !Z.abs_eq, !Z.sgn_pos by lia.
  unfold Decimal.div_abs. replace (n * k =? 0) with false by lia.
  unfold Decimal.prec. cbv zeta.
  set (s := Decimal.ndigits n - Decimal.ndigits (n * k) + 28 + 1).
  destruct (ndigits_spec n Hn) as (Hn1 & _ & _).
  assert (Hna : Decimal.ndigits (n * k) <= 12) by (apply ndigits_le; lia).
  assert (Hs : 18 <= s) by (unfold s; lia).
  replace (0 <=? s) with true by lia.
  replace (n * k * 10 ^ s) with (k * 10 ^ s * n) by ring.
  rewrite Z.mod_mul, Z.div_mul by lia. cbn [Z.eqb].
  rewrite (strip_zeros_exact _ k _ _ s) by lia.
  cbn [fst snd].
  unfold Decimal.fix_prec.
  assert (Hk12 : k < 10 ^ 12) by nia.
  assert (Hndk : Decimal.ndigits k <= 12) by (apply ndigits_le; lia).
  replace (Decimal.ndigits k <=? 28) with true by lia.
  cbn [fst snd]. f_equal. f_equal. lia.
Qed.
(** When the number of members divides the amount in cents, the equal
    split is exact: every member gets that quotient and the splits add up
    to the amount of the expense. *)
Theorem create_equal_splits_exact :
  forall (self : SharedExpense.t) (members : list User) (db : DB.t)
         (k : cents),
    members <> [] ->
    NoDup members ->
    (forall m, In m members ->
               split_exists (SharedExpense.id self) m db = false) ->
    debts_below db ->
    0 < k ->
    SharedExpense.amount self = Z.of_nat (length members) * k ->
    SharedExpense.amount self < 10 ^ 12 ->
    exists db' created,
      create_equal_splits self (Some members) db = Returned db'
      /\ DB.splits db' = DB.splits db ++ created
      /\ map SharedExpenseSplit.user created = members
      /\ map SharedExpenseSplit.amount created = map (fun _ => k) members
      /\ sum_cents (map SharedExpenseSplit.amount created)
         = SharedExpense.amount self.
Proof.
  intros self members db k Hne Hnd Hnew Hbelow Hk Hamt H12.
  assert (Hn : 0 < Z.of_nat (length members))
    by (destruct members; [contradiction | cbn; lia]).
  assert (Hq : Decimal.div (Decimal.of_cents (SharedExpense.amount self))
                 (Decimal.of_int (Z.of_nat (length members)))
               = Some (Decimal.mk k (-2))).
  { rewrite Hamt. apply div_by_count_exact; [exact Hn | exact Hk | lia]. }
  set (q := Decimal.mk k (-2)) in *.
  assert (Hfst : map fst (map (fun m : Z => (m, q)) members) = members).
  { rewrite map_map. cbn. apply map_id. }
  destruct (create_splits_effect self (map (fun m => (m, q)) members) db)
    as (db' & created & new & Hrun & Hsp & Hus & Ham & _);
    [now rewrite Hfst | now rewrite Hfst | exact Hbelow |].
  rewrite map_map in Ham. cbn [snd] in Ham.
  change (Decimal.quantize_cents q)
    with (Decimal.quantize_cents (Decimal.of_cents k)) in Ham.
  rewrite quantize_cents_of_cents in Ham.
  exists db', created.
  split; [now rewrite (create_equal_splits_loop self members db q Hne Hq)|].
  split; [exact Hsp|]. split; [now rewrite <- Hfst|].
  split; [exact Ham|].
  rewrite Ham, Hamt. clear. induction members as [|m rest IH];
    [reflexivity|].
  cbn [map length]. unfold sum_cents in *. cbn [fold_right].
  rewrite IH. lia.
Qed.

Lemma create_equal_splits_exact_witness :
  exists db' created,
    create_equal_splits
      (SharedExpense.mk 300
         (Expense.mk 100 1 3 9999 "lunch" 5 TX_COMPLETED false) flat 1 EQUAL
         "" false)
      (Some [1; 2; 3]) db_dinner = Returned db'
    /\ DB.splits db' = DB.splits db_dinner ++ created
    /\ map SharedExpenseSplit.user created = [1; 2; 3]
    /\ map SharedExpenseSplit.amount created = map (fun _ => 3333) [1; 2; 3]
    /\ sum_cents (map SharedExpenseSplit.amount created)
       = SharedExpense.amount
           (SharedExpense.mk 300
              (Expense.mk 100 1 3 9999 "lunch" 5 TX_COMPLETED false) flat 1
              EQUAL "" false).
Proof.
  apply (create_equal_splits_exact
           (SharedExpense.mk 300
              (Expense.mk 100 1 3 9999 "lunch" 5 TX_COMPLETED false) flat 1
              EQUAL "" false)
           [1; 2; 3] db_dinner 3333).
  - discriminate.
  - apply NoDup_cons; [intros [H|[H|[]]]; discriminate|].
    apply NoDup_cons; [intros [H|[]]; discriminate|].
    apply NoDup_cons; [intros []|apply NoDup_nil].
  - intros m _. reflexivity.
  - constructor.
  - lia.
  - reflexivity.
  - cbn. lia.
Defined.
